(** * segmentation.py: paired/unpaired diffusion training script

    A shallow embedding of [src/segmentation.py].  The script is an
    orchestration layer over PyTorch, PyTorch-Lightning, MONAI and NumPy;
    what those libraries compute is taken through interfaces (type classes
    and section variables), and what the script itself does with them (which
    entries it picks, in which order it draws, which errors it lets through,
    which values it hands to which constructor) is written out.  So is what
    decides how the script's own code ends: how argparse reads the command
    line, what MONAI does with a transform's exception and with a seed, and
    which numbers the scheduler and the trainer refuse. *)

From Stdlib Require Import ZArith Lia.
From stdpp Require Import base option list strings gmap sorting.

(** ** Python exceptions and results *)

(** The exceptions the script can meet.  [RuntimeErrorFrom e] is a
    [RuntimeError] raised from [e] ([raise RuntimeError(...) from e]), and
    [External] stands for an exception of a framework's own class.  All are
    subclasses of [Exception], except [SystemExit]. *)
Inductive PyErr : Type :=
| AssertionError
| IndexError
| ValueError
| KeyError (key : string)
| RuntimeError
| RuntimeErrorFrom (cause : PyErr)
| SystemExit (code : Z)
| External (origin : string).

(** [isinstance(e, Exception)] *)
Definition is_Exception (e : PyErr) : bool :=
  match e with
  | SystemExit _ => false
  | _ => true
  end.

Inductive Res (A : Type) : Type :=
| Ok (a : A)
| Raise (e : PyErr).
Arguments Ok {A} a.
Arguments Raise {A} e.

(** ** Mutable state and exceptions: a small monad

    A computation reads and updates a store [S] and either returns or
    raises.  A raise keeps the store as it was at the raise (Python does not
    roll back), and there is no handler: the script has no [try]. *)
Definition M (S A : Type) : Type := S -> Res A * S.

Definition ret {S A} (a : A) : M S A := fun s => (Ok a, s).

Definition raise {S A} (e : PyErr) : M S A := fun s => (Raise e, s).

Definition bind {S A B} (m : M S A) (k : A -> M S B) : M S B :=
  fun s => match m s with
           | (Ok a, s') => k a s'
           | (Raise e, s') => (Raise e, s')
           end.

Definition lift {S A} (r : Res A) : M S A := fun s => (r, s).

Notation "'let*' x ':=' m 'in' k" := (bind m (fun x => k))
  (at level 10, x pattern, m at level 100, k at level 200).

(** [m] run from [s] raises [e]. *)
Definition raises {S A} (m : M S A) (s : S) (e : PyErr) : Prop :=
  fst (m s) = Raise e.

(** ** Python lists *)

Definition len {A} (l : list A) : Z := Z.of_nat (length l).

(** [l[i]]: negative indices count from the end, out of range raises. *)
Definition py_getitem {A} (l : list A) (i : Z) : Res A :=
  let j := if (i <? 0)%Z then (i + len l)%Z else i in
  if (j <? 0)%Z then Raise IndexError
  else match l !! Z.to_nat j with
       | Some x => Ok x
       | None => Raise IndexError
       end.

(** [min(iterable)] over integers: [ValueError] on an empty iterable. *)
Definition py_min (l : list Z) : Res Z :=
  match l with
  | [] => Raise ValueError
  | x :: xs => Ok (foldl Z.min x xs)
  end.

(** ** numpy.random.RandomState

    The generator behind [Randomizable.R].  [rs_seed n] is the state after
    [R.seed(n)], which depends on [n] alone; [rs_randint lo hi r] is
    [R.randint(lo, hi)] on state [r]: the draw and the state after it. *)
Class NumpyRandomState : Type := {
  RandomState : Type;
  rs_seed : Z -> Res RandomState;
  rs_randint : Z -> Z -> RandomState -> Res Z * RandomState
}.

(** What NumPy documents for these two calls: a seed must fit 32 bits, a
    draw lies in the half-open range, and an empty range is refused. *)
Class RandomStateLaws `{NumpyRandomState} : Prop := {
  rs_seed_ok : forall n : Z,
    (0 <= n < 2 ^ 32)%Z -> exists r, rs_seed n = Ok r;
  rs_seed_out_of_range : forall n : Z,
    ~ (0 <= n < 2 ^ 32)%Z -> rs_seed n = Raise ValueError;
  rs_randint_ok : forall (lo hi : Z) (r : RandomState),
    (0 <= lo < hi)%Z -> (hi < 2 ^ 63)%Z ->
    exists v r', rs_randint lo hi r = (Ok v, r') /\ (lo <= v < hi)%Z;
  rs_randint_empty : forall (lo hi : Z) (r : RandomState),
    (hi <= lo)%Z -> rs_randint lo hi r = (Raise ValueError, r)
}.

(** ** PairedAndUnpairedDataset (lines 47-85) *)

Module PairedAndUnpairedDataset.
Section PairedAndUnpairedDataset.
Context `{NumpyRandomState}.
(** [V]: what a data stream holds and what an item maps its keys to (file
    paths before the transform, tensors after it).  [TS]: the state the
    transform owns (the random state of its random members). *)
Context {V TS : Type}.

Definition Item : Type := gmap string V.
Definition Transform : Type := Item -> TS -> Res Item * TS.

(** The attributes [__init__] sets; none is assigned again. *)
Record t : Type := {
  keys : list string;
  data : list (list V);
  length : option Z;
  batch_size : Z;
  transform : option Transform
}.

Definition __init__ (keys : list string) (data : list (list V))
    (transform : option Transform) (length : option Z) (batch_size : Z) : t :=
  {| keys := keys; data := data; length := length;
     batch_size := batch_size; transform := transform |}.

(** What a call can change: the generator [self.R], and whatever the
    transform keeps. *)
Record Store : Type := { R : RandomState; tstate : TS }.

(** [self.R.seed(n)] *)
Definition R_seed (n : Z) : M Store unit :=
  fun s => match rs_seed n with
           | Ok r => (Ok tt, {| R := r; tstate := tstate s |})
           | Raise e => (Raise e, s)
           end.

(** [self.R.randint(lo, hi)] *)
Definition R_randint (lo hi : Z) : M Store Z :=
  fun s => let '(v, r) := rs_randint lo hi (R s) in
           (v, {| R := r; tstate := tstate s |}).

(** MONAI's [apply_transform(f, d)]: it calls [f(d)] and, outside debug
    mode, turns any [Exception] of the call into a [RuntimeError] raised
    from it. *)
Definition apply_transform (f : Transform) (d : Item) : M Store Item :=
  fun s => let '(v, ts) := f d (tstate s) in
           (match v with
            | Ok item => Ok item
            | Raise e =>
                if is_Exception e then Raise (RuntimeErrorFrom e)
                else Raise e
            end,
            {| R := R s; tstate := ts |}).

(** Lines 63-67. *)
Definition __len__ (self : t) : M Store Z :=
  match length self with
  | None => lift (py_min (len <$> data self))
  | Some n => ret n
  end.

(** [_transform], lines 69-85, is written in two parts.  The first part,
    lines 70-80: seed with the index, draw, fill the dictionary. *)
Definition _transform_select (self : t) (index : Z) : M Store Item :=
  let d : Item := ∅ in
  let* _ := R_seed index in
  let* s0 := lift (py_getitem (data self) 0) in
  let* rand_idx := R_randint 0 (len s0) in
  let* v0 := lift (py_getitem s0 rand_idx) in
  let* k0 := lift (py_getitem (keys self) 0) in
  let d := <[k0 := v0]> d in
  let* s1 := lift (py_getitem (data self) 1) in
  let* v1 := lift (py_getitem s1 rand_idx) in
  let* k1 := lift (py_getitem (keys self) 1) in
  let d := <[k1 := v1]> d in
  let* s2 := lift (py_getitem (data self) 2) in
  let* rand_idy := R_randint 0 (len s2) in
  let* v2 := lift (py_getitem s2 rand_idy) in
  let* k2 := lift (py_getitem (keys self) 2) in
  let d := <[k2 := v2]> d in
  let* s3 := lift (py_getitem (data self) 3) in
  let* rand_idz := R_randint 0 (len s3) in
  let* v3 := lift (py_getitem s3 rand_idz) in
  let* k3 := lift (py_getitem (keys self) 3) in
  let d := <[k3 := v3]> d in
  ret d.

(** The whole of [_transform]: the selection, then lines 82-85. *)
Definition _transform (self : t) (index : Z) : M Store Item :=
  let* d := _transform_select self index in
  match transform self with
  | Some f => apply_transform f d
  | None => ret d
  end.
End PairedAndUnpairedDataset.
End PairedAndUnpairedDataset.

(** ** The frameworks, as interfaces *)

(** Python's float type.  The script only carries floats around (learning
    rate, weight decay); [float_1e_4] is the literal [1e-4] and [py_float]
    is [float(s)]. *)
Class Python : Type := {
  Float : Type;
  float_1e_4 : Float;
  py_float : string -> option Float
}.

(** The character [c] is the one-character string [s]. *)
Definition is_char (s : string) (c : Ascii.ascii) : bool :=
  bool_decide (String c EmptyString = s).

(** [int(s)]: blanks around the numeral are dropped; the numeral is an
    optional sign and decimal digits, between which single underscores may
    stand.  The digits and blanks outside ASCII that Python also takes are
    not covered. *)
Definition digit (c : Ascii.ascii) : option Z :=
  let n := Z.of_N (Ascii.N_of_ascii c) in
  if (48 <=? n)%Z && (n <=? 57)%Z then Some (n - 48)%Z else None.

(** The rest of a numeral after a digit. *)
Fixpoint digits (acc : Z) (s : string) : option Z :=
  match s with
  | EmptyString => Some acc
  | String c s' =>
      match digit c with
      | Some d => digits (10 * acc + d)%Z s'
      | None =>
          if is_char "_" c
          then match s' with
               | EmptyString => None
               | String c' s'' =>
                   match digit c' with
                   | Some d => digits (10 * acc + d)%Z s''
                   | None => None
                   end
               end
          else None
      end
  end.

Definition unsigned (s : string) : option Z :=
  match s with
  | EmptyString => None
  | String c s' =>
      match digit c with
      | Some d => digits d s'
      | None => None
      end
  end.

(** Tab to carriage return, and the space. *)
Definition is_blank (c : Ascii.ascii) : bool :=
  let n := Z.of_N (Ascii.N_of_ascii c) in
  ((9 <=? n)%Z && (n <=? 13)%Z) || (n =? 32)%Z.

Fixpoint lstrip (s : string) : string :=
  match s with
  | EmptyString => EmptyString
  | String c s' => if is_blank c then lstrip s' else s
  end.

Fixpoint rstrip (s : string) : string :=
  match s with
  | EmptyString => EmptyString
  | String c s' =>
      let r := rstrip s' in
      if is_blank c && bool_decide (r = EmptyString) then EmptyString
      else String c r
  end.

Definition py_int (s : string) : option Z :=
  match rstrip (lstrip s) with
  | EmptyString => None
  | String c s' as numeral =>
      if is_char "-" c then Z.opp <$> unsigned s'
      else if is_char "+" c then unsigned s'
      else unsigned numeral
  end.

(** The noise schedule the module holds. *)
Record DDPMScheduler : Type := { num_train_timesteps : Z }.

(** [DDPMScheduler(num_train_timesteps=n)]: the schedule is a
    [torch.linspace] of [n] steps, which refuses a negative [n]. *)
Definition DDPMScheduler__init__ (n : Z) : Res DDPMScheduler :=
  if (n <? 0)%Z then Raise RuntimeError
  else Ok {| num_train_timesteps := n |}.

(** The arguments of [DiffusionModelUNet(...)]. *)
Record UNetConfig : Type := {
  spatial_dims : Z;
  in_channels : Z;
  out_channels : Z;
  num_channels : list Z;
  attention_levels : list bool;
  num_res_blocks : Z;
  num_head_channels : Z
}.

(** PyTorch and the diffusion library.  Devices are left out: every tensor
    of a step lives on the device of [batch["source"]].  Operations that
    check shapes or ranges can raise; operations that draw take and return
    the state of torch's global generator. *)
Class Torch : Type := {
  Tensor : Type;
  Generator : Type;
  UNet : Type;
  manual_seed : Z -> Generator;
  DiffusionModelUNet : UNetConfig -> Generator -> UNet * Generator;
  shape0 : Tensor -> Z;
  torch_randint : Z -> Z -> Z -> Generator -> Res Tensor * Generator;
  torch_zeros : Z -> Tensor;
  torch_ones : Z -> Tensor;
  torch_randn_like : Tensor -> Generator -> Tensor * Generator;
  torch_rand : Z -> Generator -> Tensor * Generator;
  tensor_of_int : Z -> Tensor;
  mul_int : Tensor -> Z -> Tensor;
  to_int : Tensor -> Tensor;
  add_int : Tensor -> Z -> Tensor;
  add_noise : DDPMScheduler -> Tensor -> Tensor -> Tensor -> Res Tensor;
  scheduler_step : DDPMScheduler -> Tensor -> Z -> Tensor -> Generator ->
                   Res (Tensor * Tensor) * Generator;
  forward : UNet -> Tensor -> Tensor -> option Tensor -> Res Tensor;
  L1Loss : Tensor -> Tensor -> Res Tensor;
  radd_int : Z -> Tensor -> Tensor;
  tadd : Tensor -> Tensor -> Tensor;
  rescale_half : Tensor -> Tensor;
  cat_last : list Tensor -> Res Tensor;
  transpose_2_3 : Tensor -> Res Tensor;
  make_grid : Tensor -> Res Tensor;
  clamp_0_1 : Tensor -> Tensor
}.

(** ** os.path.join (POSIX), two components *)

Fixpoint endswith_sep (s : string) : bool :=
  match s with
  | EmptyString => false
  | String c EmptyString => bool_decide (String c EmptyString = "/")
  | String _ s' => endswith_sep s'
  end.

Definition path_join (a b : string) : string :=
  if String.prefix "/" b then b
  else if bool_decide (a = "") || endswith_sep a then a +:+ b
  else a +:+ "/" +:+ b.

(** ** [sorted] on strings: ascending, by code units *)
Definition sorted (l : list string) : list string := merge_sort String.le l.

(** ** What the script does to the outside world *)

Inductive Printed : Type :=
| PInt (n : Z)
| PList (l : list string).

Section World.
Context `{Torch}.

(** Calls whose effect is outside the script, in the order they happen. *)
Inductive Event : Type :=
| Print (x : Printed)
| SetDeterminism (seed : Z)
| SeedEverything (seed : Z)
| Log (name : string) (value : Tensor) (on_step : bool) (batch_size : Z)
| AddImage (tag : string) (img : Tensor) (step : Z)
| Fit (ckpt_path : option string).

Record World : Type := { gen : Generator; events : list Event }.

Definition emit (e : Event) : M World unit :=
  fun w => (Ok tt, {| gen := gen w; events := events w ++ [e] |}).

(** A call that draws from torch's generator. *)
Definition draw {A} (f : Generator -> A * Generator) : M World A :=
  fun w => let '(a, g) := f (gen w) in
           (Ok a, {| gen := g; events := events w |}).

(** A call that draws and can raise. *)
Definition draw_res {A} (f : Generator -> Res A * Generator) : M World A :=
  fun w => let '(a, g) := f (gen w) in
           (a, {| gen := g; events := events w |}).

(** [torch.manual_seed(seed)] inside a call [e] of a framework. *)
Definition reseed (e : Event) (seed : Z) : M World unit :=
  fun w => (Ok tt, {| gen := manual_seed seed; events := events w ++ [e] |}).

(** The event is a [print]. *)
Definition is_print (e : Event) : Prop := exists x : Printed, e = Print x.
End World.

(** ** The file system and MONAI *)

(** [glob.glob(pattern, recursive=True)]: the matches, in the order the
    operating system lists them. *)
Class FileSystem : Type := { glob_glob : string -> list string }.

(** What an item holds under a key: a file path before the transforms, a
    tensor after them. *)
Inductive Value `{Torch} : Type :=
| Path (p : string)
| Loaded (x : Tensor).

(** The members of the [Compose] pipelines, with the arguments the script
    gives them.  Numbers are written as the script writes them. *)
Inductive TransformSpec : Type :=
| LoadImaged (keys : list string) (ensure_channel_first : bool)
| ScaleIntensityRanged (keys : list string) (a_min a_max b_min b_max : Z)
    (clip : bool)
| ScaleIntensityd (keys : list string) (minv maxv : string)
| HistogramNormalized (keys : list string) (min max : string)
| RandFlipd (keys : list string) (prob : string) (spatial_axis : Z)
| Resized (keys : list string) (spatial_size : Z) (size_mode : string)
    (mode : list string)
| DivisiblePadd (keys : list string) (k : Z) (mode : string)
    (constant_values : string)
| ToTensord (keys : list string).

Inductive Collate : Type := pad_list_data_collate.

(** MONAI: what a pipeline does to an item is the library's business. *)
Class Monai `{Torch} : Type := {
  TransformState : Type;
  Compose : list TransformSpec ->
            gmap string Value -> TransformState ->
            Res (gmap string Value) * TransformState
}.

(** [DataLoader(dataset, batch_size, num_workers, collate_fn, shuffle)] *)
Module DataLoader.
Section DataLoader.
Context `{Torch} `{!Monai}.
Record t : Type := {
  dataset : @PairedAndUnpairedDataset.t Value TransformState;
  batch_size : Z;
  num_workers : Z;
  collate_fn : Collate;
  shuffle : bool
}.
End DataLoader.
End DataLoader.

(** ** PairedAndUnpairedDataModule (lines 87-219) *)

Module PairedAndUnpairedDataModule.
Section PairedAndUnpairedDataModule.
Context `{Torch} `{!Monai} `{FileSystem}.

(** Lines 129-135. *)
Definition glob_files (folders : option (list string)) (extension : string)
    : M World (list string) :=
  match folders with
  | None => raise AssertionError
  | Some folders =>
      let paths :=
        (fun folder => glob_glob (path_join folder extension)) <$> folders in
      let files := sorted (concat paths) in
      let* _ := emit (Print (PInt (len files))) in
      let* _ := emit (Print (PList (take 1 files))) in
      ret files
  end.

Record t : Type := {
  batch_size : Z;
  shape : Z;
  train_ssource_dirs : list string;
  train_starget_dirs : list string;
  train_usource_dirs : list string;
  train_utarget_dirs : list string;
  val_ssource_dirs : list string;
  val_starget_dirs : list string;
  val_usource_dirs : list string;
  val_utarget_dirs : list string;
  test_ssource_dirs : list string;
  test_starget_dirs : list string;
  test_usource_dirs : list string;
  test_utarget_dirs : list string;
  train_samples : Z;
  val_samples : Z;
  test_samples : Z;
  train_ssource_files : list string;
  train_starget_files : list string;
  train_usource_files : list string;
  train_utarget_files : list string;
  val_ssource_files : list string;
  val_starget_files : list string;
  val_usource_files : list string;
  val_utarget_files : list string;
  test_ssource_files : list string;
  test_starget_files : list string;
  test_usource_files : list string;
  test_utarget_files : list string
}.

(** Lines 88-150.  Every argument is passed by the caller. *)
Definition __init__
    (train_ssource_dirs train_starget_dirs
     train_usource_dirs train_utarget_dirs
     val_ssource_dirs val_starget_dirs
     val_usource_dirs val_utarget_dirs
     test_ssource_dirs test_starget_dirs
     test_usource_dirs test_utarget_dirs : list string)
    (shape batch_size train_samples val_samples test_samples : Z)
    : M World t :=
  let png := "**/*.png" in
  let* f1 := glob_files (Some train_ssource_dirs) png in
  let* f2 := glob_files (Some train_starget_dirs) png in
  let* f3 := glob_files (Some train_usource_dirs) png in
  let* f4 := glob_files (Some train_utarget_dirs) png in
  let* f5 := glob_files (Some val_ssource_dirs) png in
  let* f6 := glob_files (Some val_starget_dirs) png in
  let* f7 := glob_files (Some val_usource_dirs) png in
  let* f8 := glob_files (Some val_utarget_dirs) png in
  let* f9 := glob_files (Some test_ssource_dirs) png in
  let* f10 := glob_files (Some test_starget_dirs) png in
  let* f11 := glob_files (Some test_usource_dirs) png in
  let* f12 := glob_files (Some test_utarget_dirs) png in
  ret {| batch_size := batch_size; shape := shape;
         train_ssource_dirs := train_ssource_dirs;
         train_starget_dirs := train_starget_dirs;
         train_usource_dirs := train_usource_dirs;
         train_utarget_dirs := train_utarget_dirs;
         val_ssource_dirs := val_ssource_dirs;
         val_starget_dirs := val_starget_dirs;
         val_usource_dirs := val_usource_dirs;
         val_utarget_dirs := val_utarget_dirs;
         test_ssource_dirs := test_ssource_dirs;
         test_starget_dirs := test_starget_dirs;
         test_usource_dirs := test_usource_dirs;
         test_utarget_dirs := test_utarget_dirs;
         train_samples := train_samples;
         val_samples := val_samples;
         test_samples := test_samples;
         train_ssource_files := f1; train_starget_files := f2;
         train_usource_files := f3; train_utarget_files := f4;
         val_ssource_files := f5; val_starget_files := f6;
         val_usource_files := f7; val_utarget_files := f8;
         test_ssource_files := f9; test_starget_files := f10;
         test_usource_files := f11; test_utarget_files := f12 |}.

(** Lines 152-155.  [seed] defaults to 42; the script passes it.  MONAI's
    [set_determinism(seed)] seeds torch with [seed % 2**32]. *)
Definition setup (self : t) (seed : Z) : M World unit :=
  reseed (SetDeterminism seed) (seed `mod` 2 ^ 32).

Definition four_keys : list string := ["source"; "target"; "images"; "labels"].

(** Lines 158-170 and 190-202 build the same pipeline. *)
Definition pipeline : list TransformSpec :=
  [ LoadImaged four_keys true;
    ScaleIntensityRanged ["target"; "labels"] 0 128 0 1 true;
    ScaleIntensityd four_keys "0.0" "1.0";
    HistogramNormalized ["source"; "images"] "0.0" "1.0";
    RandFlipd four_keys "0.5" 0;
    Resized four_keys 256 "longest" ["area"; "nearest"; "area"; "nearest"];
    DivisiblePadd four_keys 256 "constant" "0.0";
    ToTensord four_keys ].

(** Lines 157-187.  The method also stores the pipeline, the dataset and
    the loader on [self]; nothing reads them back, so only the returned
    loader is kept here. *)
Definition train_dataloader (self : t) : DataLoader.t :=
  let train_transforms := Compose pipeline in
  let train_datasets :=
    PairedAndUnpairedDataset.__init__ four_keys
      [ Path <$> train_ssource_files self; Path <$> train_starget_files self;
        Path <$> train_usource_files self; Path <$> train_utarget_files self ]
      (Some train_transforms) (Some (train_samples self)) (batch_size self) in
  {| DataLoader.dataset := train_datasets;
     DataLoader.batch_size := batch_size self;
     DataLoader.num_workers := 4;
     DataLoader.collate_fn := pad_list_data_collate;
     DataLoader.shuffle := true |}.

End PairedAndUnpairedDataModule.
End PairedAndUnpairedDataModule.

(** ** The command line (lines 381-401) *)

Definition res_bind {A B} (r : Res A) (k : A -> Res B) : Res B :=
  match r with
  | Ok a => k a
  | Raise e => Raise e
  end.

Notation "'let+' x ':=' r 'in' k" := (res_bind r (fun x => k))
  (at level 10, x pattern, r at level 100, k at level 200).

(** The flags [Trainer.add_argparse_args] adds to the parser, all of them
    long options.  Each is taken to expect one value, and
    [trainer_accepts flag value] tells whether the flag's converter takes
    the value. *)
Class Lightning : Type := {
  trainer_flags : list string;
  trainer_accepts : string -> string -> bool
}.

Module HParams.
Section HParams.
Context `{Python} `{Lightning}.

(** The namespace [parse_args] returns: one attribute per [add_argument],
    and the trainer's own flags as they were given. *)
Record t : Type := {
  seed : Z;
  timesteps : Z;
  batch_size : Z;
  shape : Z;
  train_samples : Z;
  val_samples : Z;
  test_samples : Z;
  logsdir : string;
  datadir : string;
  epochs : Z;
  lr : Float;
  ckpt : option string;
  weight_decay : Float;
  trainer_args : list (string * string)
}.

(** The flags of lines 382-396. *)
Definition own_flags : list string :=
  [ "--seed"; "--timesteps"; "--batch_size"; "--shape"; "--train_samples";
    "--val_samples"; "--test_samples"; "--logsdir"; "--datadir"; "--epochs";
    "--lr"; "--ckpt"; "--weight_decay" ].

Definition trainer_flag (flag : string) : bool :=
  bool_decide (flag ∈ trainer_flags).

(** Every option string of the parser; [ArgumentParser()] itself adds the
    two for help. *)
Definition option_strings : list string :=
  ["-h"; "--help"] ++ own_flags ++ trainer_flags.

Definition str (s : string) : option string := Some s.

(** [type=str, default=None] *)
Definition str_or_none (s : string) : option (option string) := Some (Some s).

(** Whether the converter of the flag takes the value: [type=int],
    [type=float] and [type=str] of lines 382-396. *)
Definition accepts (flag value : string) : bool :=
  if bool_decide (flag ∈ [ "--seed"; "--timesteps"; "--batch_size"; "--shape";
                            "--train_samples"; "--val_samples";
                            "--test_samples"; "--epochs" ])
  then bool_decide (is_Some (py_int value))
  else if bool_decide (flag ∈ ["--lr"; "--weight_decay"])
  then bool_decide (is_Some (py_float value))
  else if bool_decide (flag ∈ ["--logsdir"; "--datadir"; "--ckpt"])
  then true
  else trainer_accepts flag value.

(** *** argparse

    [parse_args] as CPython 3.11 runs it on this parser: options may be
    abbreviated and may carry their value behind an [=]; a value given
    apart must not look like an option; help ends the program with status
    0 and any error with status 2.  Not covered: an explicit value that is
    exactly [--], which that version of argparse drops, and digits outside
    ASCII. *)

Fixpoint contains (ch : string) (s : string) : bool :=
  match s with
  | EmptyString => false
  | String c s' => is_char ch c || contains ch s'
  end.

(** [s.split("=", 1)] when [s] has an [=]. *)
Fixpoint split_eq (s : string) : option (string * string) :=
  match s with
  | EmptyString => None
  | String c s' =>
      if is_char "=" c then Some (EmptyString, s')
      else match split_eq s' with
           | Some (a, b) => Some (String c a, b)
           | None => None
           end
  end.

Fixpoint all_digits (s : string) : bool :=
  match s with
  | EmptyString => true
  | String c s' => bool_decide (is_Some (digit c)) && all_digits s'
  end.

Fixpoint drop_digits (s : string) : string :=
  match s with
  | EmptyString => EmptyString
  | String c s' => if bool_decide (is_Some (digit c)) then drop_digits s' else s
  end.

(** [s] without one final line feed, where [$] also matches. *)
Fixpoint chomp (s : string) : string :=
  match s with
  | EmptyString => EmptyString
  | String c EmptyString =>
      if (Ascii.N_of_ascii c =? 10)%N then EmptyString else s
  | String c s' => String c (chomp s')
  end.

(** argparse's [^-\d+$|^-\d*\.\d+$]. *)
Definition negative_number (s : string) : bool :=
  match s with
  | EmptyString => false
  | String c body =>
      is_char "-" c &&
      (let body := chomp body in
       match drop_digits body with
       | EmptyString => negb (bool_decide (body = EmptyString))
       | String d frac =>
           is_char "." d && negb (bool_decide (frac = EmptyString))
           && all_digits frac
       end)
  end.

(** How argparse reads one command-line string. *)
Inductive Token : Type :=
| Positional
| Flag (flag : string) (explicit : option string)
| Help (flag : string) (explicit : option string)
| Unknown
| Ambiguous
| Separator.

Definition resolve (flag : string) (explicit : option string) : Token :=
  if bool_decide (flag ∈ ["-h"; "--help"]) then Help flag explicit
  else Flag flag explicit.

(** [_get_option_tuples]: the options a string may abbreviate. *)
Definition candidates (tok : string) : list (string * option string) :=
  if String.prefix "--" tok
  then
    let '(pre, explicit) :=
      match split_eq tok with
      | Some (a, b) => (a, Some b)
      | None => (tok, None)
      end in
    (fun o => (o, explicit)) <$>
      filter (fun o => String.prefix pre o = true) option_strings
  else
    let short := String.substring 0 2 tok in
    let rest := String.substring 2 (String.length tok - 2) tok in
    omap (fun o => if bool_decide (o = short) then Some (o, Some rest)
                   else if String.prefix tok o then Some (o, None)
                   else None) option_strings.

(** A string [--flag=value] whose flag is spelled in full. *)
Definition explicit (tok : string) : option Token :=
  match split_eq tok with
  | Some (pre, post) =>
      if bool_decide (pre ∈ option_strings) then Some (resolve pre (Some post))
      else None
  | None => None
  end.

(** [_parse_optional] *)
Definition classify (tok : string) : Token :=
  if bool_decide (tok = EmptyString) then Positional
  else if negb (String.prefix "-" tok) then Positional
  else if bool_decide (tok ∈ option_strings) then resolve tok None
  else if bool_decide (String.length tok = 1) then Positional
  else
    match explicit tok with
    | Some token => token
    | None =>
        match candidates tok with
        | _ :: _ :: _ => Ambiguous
        | [(o, e)] => resolve o e
        | [] =>
            if negative_number tok
               && negb (existsb negative_number option_strings)
            then Positional
            else if contains " " tok then Positional
            else Unknown
        end
    end.

(** The strings up to a [--], classified; after it nothing is an option. *)
Fixpoint tokens (argv : list string) : list (string * Token) :=
  match argv with
  | [] => []
  | tok :: rest =>
      if bool_decide (tok = "--")
      then (tok, Separator) :: ((fun s => (s, Positional)) <$> rest)
      else (tok, classify tok) :: tokens rest
  end.

Definition is_ambiguous (t : string * Token) : bool :=
  match t.2 with
  | Ambiguous => true
  | _ => false
  end.

Fixpoint only_h (s : string) : bool :=
  match s with
  | EmptyString => true
  | String c s' => is_char "h" c && only_h s'
  end.

(** The options are taken from left to right, and each value is converted
    as it is met.  A string that belongs to no option is left over and is
    an error at the end only. *)
Fixpoint scan (toks : list (string * Token)) (leftover : bool)
    : Res (list (string * string)) :=
  match toks with
  | [] => if leftover then Raise (SystemExit 2) else Ok []
  | (_, token) :: rest =>
      match token with
      | Positional | Unknown => scan rest true
      | Separator | Ambiguous => Raise (SystemExit 2)
      | Help flag None => Raise (SystemExit 0)
      | Help flag (Some more) =>
          if bool_decide (flag = "-h")
             && negb (bool_decide (more = EmptyString)) && only_h more
          then Raise (SystemExit 0)
          else Raise (SystemExit 2)
      | Flag flag (Some value) =>
          if accepts flag value
          then let+ ps := scan rest leftover in Ok ((flag, value) :: ps)
          else Raise (SystemExit 2)
      | Flag flag None =>
          match rest with
          | (value, Positional) :: rest' =>
              if accepts flag value
              then let+ ps := scan rest' leftover in Ok ((flag, value) :: ps)
              else Raise (SystemExit 2)
          | _ => Raise (SystemExit 2)
          end
      end
  end.

(** The command line as the [(flag, value)] pairs it gives, flags spelled
    in full.  An ambiguous abbreviation is an error before anything else. *)
Definition pairs (argv : list string) : Res (list (string * string)) :=
  let toks := tokens argv in
  if existsb is_ambiguous toks then Raise (SystemExit 2) else scan toks false.

(** The value a flag was given, the last one when it is repeated. *)
Definition given (ps : list (string * string)) (flag : string)
    : option string :=
  snd <$> last (filter (fun p => p.1 = flag) ps).

(** [add_argument(flag, type=conv, default=d)]: the attribute is the last
    value given, converted.  Every value given was converted once already,
    when the command line was read. *)
Definition argument {A} (conv : string -> option A) (d : A)
    (ps : list (string * string)) (flag : string) : Res A :=
  match given ps flag with
  | None => Ok d
  | Some v => match conv v with
              | Some a => Ok a
              | None => Raise (SystemExit 2)
              end
  end.

Definition parse_args (argv : list string) : Res t :=
  let+ ps := pairs argv in
  let+ seed := argument py_int 42%Z ps "--seed" in
  let+ timesteps := argument py_int 100%Z ps "--timesteps" in
  let+ batch_size := argument py_int 8%Z ps "--batch_size" in
  let+ shape := argument py_int 256%Z ps "--shape" in
  let+ train_samples := argument py_int 40000%Z ps "--train_samples" in
  let+ val_samples := argument py_int 8000%Z ps "--val_samples" in
  let+ test_samples := argument py_int 4000%Z ps "--test_samples" in
  let+ logsdir := argument str "logs" ps "--logsdir" in
  let+ datadir := argument str "data" ps "--datadir" in
  let+ epochs := argument py_int 31%Z ps "--epochs" in
  let+ lr := argument py_float float_1e_4 ps "--lr" in
  let+ ckpt := argument str_or_none None ps "--ckpt" in
  let+ weight_decay := argument py_float float_1e_4 ps "--weight_decay" in
  Ok {| seed := seed; timesteps := timesteps; batch_size := batch_size;
        shape := shape; train_samples := train_samples;
        val_samples := val_samples; test_samples := test_samples;
        logsdir := logsdir; datadir := datadir; epochs := epochs;
        lr := lr; ckpt := ckpt; weight_decay := weight_decay;
        trainer_args := filter (fun p => trainer_flag p.1 = true) ps |}.
End HParams.
End HParams.

(** ** Loops *)

(** [range(n)] *)
Definition range (n : Z) : list Z := Z.of_nat <$> seq 0 (Z.to_nat n).

(** [for x in l: a = body(a, x)] *)
Fixpoint for_each {S A B} (l : list B) (a : A) (body : A -> B -> M S A)
    : M S A :=
  match l with
  | [] => ret a
  | x :: l' => let* a' := body a x in for_each l' a' body
  end.

(** ** DDMMLightningModule (lines 221-377) *)

Module DDMMLightningModule.
Section DDMMLightningModule.
Context `{Python} `{Lightning} `{Torch}.

Record t : Type := {
  lr : Float;
  epochs : Z;
  weight_decay : Float;
  num_timesteps : Z;
  batch_size : Z;
  shape : Z;
  num_classes : Z;
  timesteps : Z;
  noise2space : UNet;
  image2label : UNet;
  label2image : UNet;
  scheduler : DDPMScheduler;
  (** [self.inferer = DiffusionInferer(self.scheduler)] *)
  inferer : DDPMScheduler;
  (** kept by the trainer *)
  global_step : Z
}.

(** The three networks are built with the same arguments. *)
Definition unet_config : UNetConfig :=
  {| spatial_dims := 2; in_channels := 1; out_channels := 1;
     num_channels := [64; 128; 256; 512]%Z;
     attention_levels := [false; false; true; true];
     num_res_blocks := 1; num_head_channels := 256 |}.

(** Lines 222-265.  [self.loss_func] is [nn.L1Loss()], written [L1Loss]
    where it is called. *)
Definition __init__ (hparams : HParams.t) : M World t :=
  let* n2s := draw (DiffusionModelUNet unet_config) in
  let* i2l := draw (DiffusionModelUNet unet_config) in
  let* l2i := draw (DiffusionModelUNet unet_config) in
  let* sched := lift (DDPMScheduler__init__ (HParams.timesteps hparams)) in
  ret {| lr := HParams.lr hparams;
         epochs := HParams.epochs hparams;
         weight_decay := HParams.weight_decay hparams;
         num_timesteps := HParams.timesteps hparams;
         batch_size := HParams.batch_size hparams;
         shape := HParams.shape hparams;
         num_classes := 2;
         timesteps := HParams.timesteps hparams;
         noise2space := n2s; image2label := i2l; label2image := l2i;
         scheduler := sched; inferer := sched;
         global_step := 0 |}.

(** [batch[k]] *)
Definition batch_getitem (batch : gmap string Tensor) (k : string)
    : Res Tensor :=
  match batch !! k with
  | Some x => Ok x
  | None => Raise (KeyError k)
  end.

(** A copy holds the same values, and the step never writes in place. *)
Definition clone (x : Tensor) : Tensor := x.

(** Lines 304-312: one pass of the sampling loop, on
    [(sample_source, sample_target, sample_prev, sample_next)].  The loop
    runs under [torch.no_grad()], which changes no value, and through
    [tqdm], which only draws a progress bar. *)
Definition denoise_body (self : t)
    (class_source class_target class_prev class_next : Tensor)
    (samples : Tensor * Tensor * Tensor * Tensor) (t : Z)
    : M World (Tensor * Tensor * Tensor * Tensor) :=
  let '(sample_source, sample_target, sample_prev, sample_next) := samples in
  let* output_source :=
    lift (forward (noise2space self) sample_source (tensor_of_int t)
            (Some class_source)) in
  let* output_target :=
    lift (forward (noise2space self) sample_target (tensor_of_int t)
            (Some class_target)) in
  let* r_source :=
    draw_res (scheduler_step (scheduler self) output_source t sample_source) in
  let sample_source := r_source.1 in
  let* r_target :=
    draw_res (scheduler_step (scheduler self) output_target t sample_target) in
  let sample_target := r_target.1 in
  let* output_prev :=
    lift (forward (noise2space self) sample_prev (tensor_of_int t)
            (Some class_prev)) in
  let* output_next :=
    lift (forward (noise2space self) sample_next (tensor_of_int t)
            (Some class_next)) in
  let* r_prev :=
    draw_res (scheduler_step (scheduler self) output_prev t sample_prev) in
  let sample_prev := r_prev.1 in
  let* r_next :=
    draw_res (scheduler_step (scheduler self) output_next t sample_next) in
  let sample_next := r_next.1 in
  ret (sample_source, sample_target, sample_prev, sample_next).

(** Lines 267-350. *)
Definition _common_step (self : t) (batch : gmap string Tensor)
    (batch_idx optimizer_idx : Z) (stage : string)
    : M World (gmap string Tensor) :=
  let* source := lift (batch_getitem batch "source") in
  let* target := lift (batch_getitem batch "target") in
  let* images := lift (batch_getitem batch "images") in
  let* labels := lift (batch_getitem batch "labels") in
  let batches := shape0 source in
  let* timesteps :=
    draw_res (torch_randint 0 (num_train_timesteps (scheduler self)) batches) in
  let class_source := torch_zeros batches in
  let class_target := torch_ones batches in
  let* noise := draw (torch_randn_like source) in
  let* noisy_source :=
    lift (add_noise (scheduler self) source noise timesteps) in
  let* noisy_target :=
    lift (add_noise (scheduler self) target noise timesteps) in
  let super_loss := 0%Z in
  let* noise_source_pred :=
    lift (forward (noise2space self) noisy_source timesteps
            (Some class_source)) in
  let* noise_target_pred :=
    lift (forward (noise2space self) noisy_target timesteps
            (Some class_target)) in
  let* l_source := lift (L1Loss noise noise_source_pred) in
  let super_loss := radd_int super_loss l_source in
  let* l_target := lift (L1Loss noise noise_target_pred) in
  let super_loss := tadd super_loss l_target in
  let* class_prob := draw (torch_rand batches) in
  let class_prev := to_int (mul_int class_prob (num_timesteps self)) in
  let class_next := add_int class_prev 1 in
  let sample_prev := clone noise in
  let sample_next := clone noise in
  let sample_source := clone noise in
  let sample_target := clone noise in
  let* samples :=
    for_each (range (num_timesteps self))
      (sample_source, sample_target, sample_prev, sample_next)
      (denoise_body self class_source class_target class_prev class_next) in
  let '(sample_source, sample_target, sample_prev, sample_next) := samples in
  let unsup_loss := 0%Z in
  let* sample_prev_pred :=
    lift (forward (image2label self) sample_prev class_prev None) in
  let* sample_next_pred :=
    lift (forward (label2image self) sample_next class_next None) in
  let* l_prev := lift (L1Loss sample_prev sample_prev_pred) in
  let unsup_loss := radd_int unsup_loss l_prev in
  let* l_next := lift (L1Loss sample_next sample_next_pred) in
  let unsup_loss := tadd unsup_loss l_next in
  let* _ := emit (Log (stage +:+ "_super_loss") super_loss
                    (bool_decide (stage = "train")) (batch_size self)) in
  let* _ := emit (Log (stage +:+ "_unsup_loss") unsup_loss
                    (bool_decide (stage = "train")) (batch_size self)) in
  let loss := tadd super_loss unsup_loss in
  let sample_prev := rescale_half sample_prev in
  let sample_next := rescale_half sample_next in
  let sample_prev_pred := rescale_half sample_prev_pred in
  let sample_next_pred := rescale_half sample_next_pred in
  let sample_source := rescale_half sample_source in
  let sample_target := rescale_half sample_target in
  let* _ :=
    if bool_decide (stage = "train") && (batch_idx `mod` 10 =? 0)%Z
    then
      let* joined :=
        lift (cat_last [source; target; sample_source; sample_target;
                        sample_prev; sample_next;
                        sample_prev_pred; sample_next_pred]) in
      let* viz2d := lift (transpose_2_3 joined) in
      let* grid := lift (make_grid viz2d) in
      emit (AddImage (stage +:+ "_samples") (clamp_0_1 grid)
              (global_step self `div` 10))
    else ret tt in
  let info : gmap string Tensor := {[ "loss" := loss ]} in
  ret info.



End DDMMLightningModule.
End DDMMLightningModule.

(** ** The script body (lines 380-548) *)

Record ModelCheckpoint : Type := {
  dirpath : string;
  filename : string;
  save_top_k : Z;
  save_last : bool;
  every_n_epochs : Z
}.

Record LearningRateMonitor : Type := { logging_interval : string }.

Record TensorBoardLogger : Type := { save_dir : string; log_graph : bool }.

Inductive Callback : Type :=
| OfLearningRateMonitor (c : LearningRateMonitor)
| OfModelCheckpoint (c : ModelCheckpoint).

Module Trainer.
Section Trainer.
Context `{Python}.
(** [Trainer.from_argparse_args(args, **kwargs)]: the keyword arguments
    win over what [args] holds for the same name. *)
Record t : Type := {
  args : HParams.t;
  max_epochs : Z;
  logger : list TensorBoardLogger;
  callbacks : list Callback;
  strategy : string
}.

(** The trainer refuses a number of epochs below -1, which stands for no
    limit.  What else it may refuse depends on the machine (the devices,
    the packages behind the strategy) and is left out. *)
Definition from_argparse_args (args : HParams.t) (max_epochs : Z)
    (logger : list TensorBoardLogger) (callbacks : list Callback)
    (strategy : string) : Res t :=
  if (max_epochs <? -1)%Z then Raise (External "MisconfigurationException")
  else Ok {| args := args; max_epochs := max_epochs; logger := logger;
             callbacks := callbacks; strategy := strategy |}.
End Trainer.
End Trainer.

Module Script.
Section Script.
Context `{Python} `{Lightning} `{Torch} `{!Monai} `{FileSystem}.

Definition T62020_images := "SpineXRVertSegmentation/T62020/20200501/raw/images".
Definition T62022_images := "SpineXRVertSegmentation/T62022/20220501/raw/images".
Definition T62021_images := "SpineXRVertSegmentation/T62021/20211101/raw/images".
Definition T62020_labels := "SpineXRVertSegmentation/T62020/20200501/raw/labels".
Definition T62022_labels := "SpineXRVertSegmentation/T62022/20220501/raw/labels".
Definition T62021_labels := "SpineXRVertSegmentation/T62021/20211101/raw/labels".
Definition VinDr_train_images :=
  "SpineXRVertSegmentation/VinDr/v1/processed/train/images/".
Definition VinDr_test_images :=
  "SpineXRVertSegmentation/VinDr/v1/processed/test/images/".

(** Everything the script has built when it calls [trainer.fit]. *)
Record Program : Type := {
  hparams : HParams.t;
  datamodule : PairedAndUnpairedDataModule.t;
  model : DDMMLightningModule.t;
  checkpoint_callback : ModelCheckpoint;
  lr_callback : LearningRateMonitor;
  tensorboard_logger : TensorBoardLogger;
  trainer : Trainer.t
}.

Definition main (argv : list string) : M World Program :=
  let* hparams := lift (HParams.parse_args argv) in
  let datadir := HParams.datadir hparams in
  let train_ssource_dirs :=
    [ path_join datadir T62020_images; path_join datadir T62022_images;
      path_join datadir T62021_images ] in
  let train_starget_dirs :=
    [ path_join datadir T62020_labels; path_join datadir T62022_labels;
      path_join datadir T62021_labels ] in
  let train_usource_dirs :=
    [ path_join datadir T62020_images; path_join datadir T62022_images;
      path_join datadir T62021_images; path_join datadir VinDr_train_images;
      path_join datadir VinDr_test_images ] in
  let train_utarget_dirs :=
    [ path_join datadir T62020_labels; path_join datadir T62022_labels;
      path_join datadir T62021_labels ] in
  let val_ssource_dirs :=
    [ path_join datadir T62020_images; path_join datadir T62022_images;
      path_join datadir T62021_images ] in
  let val_starget_dirs :=
    [ path_join datadir T62020_labels; path_join datadir T62022_labels;
      path_join datadir T62021_labels ] in
  let val_usource_dirs :=
    [ path_join datadir T62020_images; path_join datadir T62022_images;
      path_join datadir T62021_images; path_join datadir VinDr_test_images ] in
  let val_utarget_dirs :=
    [ path_join datadir T62020_labels; path_join datadir T62022_labels;
      path_join datadir T62021_labels ] in
  let test_ssource_dirs := val_ssource_dirs in
  let test_starget_dirs := val_starget_dirs in
  let test_usource_dirs := val_usource_dirs in
  let test_utarget_dirs := val_utarget_dirs in
  let* datamodule :=
    PairedAndUnpairedDataModule.__init__
      train_ssource_dirs train_starget_dirs
      train_usource_dirs train_utarget_dirs
      val_ssource_dirs val_starget_dirs val_usource_dirs val_utarget_dirs
      test_ssource_dirs test_starget_dirs test_usource_dirs test_utarget_dirs
      (HParams.shape hparams) (HParams.batch_size hparams)
      (HParams.train_samples hparams) (HParams.val_samples hparams)
      (HParams.test_samples hparams) in
  let* _ := PairedAndUnpairedDataModule.setup datamodule (HParams.seed hparams) in
  let* model := DDMMLightningModule.__init__ hparams in
  let* _ := reseed (SeedEverything 42) 42 in
  let checkpoint_callback :=
    {| dirpath := HParams.logsdir hparams;
       filename := "{epoch:02d}-{validation_loss_epoch:.2f}";
       save_top_k := -1; save_last := true; every_n_epochs := 1 |} in
  let lr_callback := {| logging_interval := "step" |} in
  let tensorboard_logger :=
    {| save_dir := HParams.logsdir hparams; log_graph := true |} in
  let* trainer :=
    lift (Trainer.from_argparse_args hparams (HParams.epochs hparams)
            [tensorboard_logger]
            [ OfLearningRateMonitor lr_callback;
              OfModelCheckpoint checkpoint_callback ]
            "ddp_sharded") in
  let* _ := emit (Fit (HParams.ckpt hparams)) in
  ret {| hparams := hparams; datamodule := datamodule; model := model;
         checkpoint_callback := checkpoint_callback;
         lr_callback := lr_callback;
         tensorboard_logger := tensorboard_logger;
         trainer := trainer |}.
End Script.
End Script.

(** ** Concrete stand-ins for the frameworks

    Small executable instances of the interfaces, used to run the embedding
    on concrete inputs. *)

Module Toy.

(** A linear congruential generator with NumPy's range checks. *)
Definition lcg : NumpyRandomState :=
  {| RandomState := Z;
     rs_seed := fun n =>
       if (0 <=? n)%Z && (n <? 2 ^ 32)%Z then Ok n else Raise ValueError;
     rs_randint := fun lo hi r =>
       if (hi <=? lo)%Z then (Raise ValueError, r)
       else (Ok (lo + r `mod` (hi - lo))%Z,
             ((1103515245 * r + 12345) `mod` 2 ^ 31)%Z) |}.

Definition python : Python :=
  {| Float := string; float_1e_4 := "1e-4"; py_float := fun s => Some s |}.

Definition lightning : Lightning :=
  {| trainer_flags := ["--devices"]; trainer_accepts := fun _ _ => true |}.

(** Tensors are single integers, networks add their weight. *)
Definition torch : Torch :=
  {| Tensor := Z; Generator := Z; UNet := Z;
     manual_seed := fun n => n;
     DiffusionModelUNet := fun _ g => (g, (g + 1)%Z);
     shape0 := fun _ => 1%Z;
     torch_randint := fun lo hi _ g =>
       if (hi <=? lo)%Z then (Raise (External "torch.randint"), g)
       else (Ok (lo + g `mod` (hi - lo))%Z, (g + 1)%Z);
     torch_zeros := fun _ => 0%Z;
     torch_ones := fun _ => 1%Z;
     torch_randn_like := fun _ g => (g, (g + 1)%Z);
     torch_rand := fun _ g => (0%Z, (g + 1)%Z);
     tensor_of_int := fun t => t;
     mul_int := Z.mul;
     to_int := fun x => x;
     add_int := Z.add;
     add_noise := fun _ x n _ => Ok (x + n)%Z;
     scheduler_step := fun _ out _ sample g =>
       (Ok ((sample - out)%Z, out), (g + 1)%Z);
     forward := fun u x _ _ => Ok (x + u)%Z;
     L1Loss := fun a b => Ok (Z.abs (a - b));
     radd_int := Z.add;
     tadd := Z.add;
     rescale_half := fun x => x;
     cat_last := fun l => Ok (foldr Z.add 0%Z l);
     transpose_2_3 := fun x => Ok x;
     make_grid := fun x => Ok x;
     clamp_0_1 := fun x => x |}.

Definition monai : @Monai torch :=
  {| TransformState := unit; Compose := fun _ item ts => (Ok item, ts) |}.

Definition images_dir : string :=
  "data/SpineXRVertSegmentation/T62020/20200501/raw/images".

(** Two PNG files under one of the image directories, listed out of order. *)
Definition fs : FileSystem :=
  {| glob_glob := fun pattern =>
       if bool_decide (pattern = images_dir +:+ "/**/*.png")
       then [images_dir +:+ "/b.png"; images_dir +:+ "/a.png"]
       else [] |}.

(** A dataset of four short streams, without a transform. *)
Definition ds (length : option Z) : @PairedAndUnpairedDataset.t string unit :=
  PairedAndUnpairedDataset.__init__ ["source"; "target"; "images"; "labels"]
    [ ["s0"; "s1"; "s2"]; ["t0"; "t1"; "t2"]; ["i0"; "i1"]; ["l0"; "l1"; "l2"; "l3"] ]
    None length 2.

(** The same with an empty first stream. *)
Definition ds_empty : @PairedAndUnpairedDataset.t string unit :=
  PairedAndUnpairedDataset.__init__ ["source"; "target"; "images"; "labels"]
    [ []; ["t0"]; ["i0"]; ["l0"] ] None None 2.

Definition store0 : @PairedAndUnpairedDataset.Store lcg unit :=
  {| PairedAndUnpairedDataset.R := 7%Z : @RandomState lcg; PairedAndUnpairedDataset.tstate := tt |}.

Definition world0 : @World torch :=
  {| gen := 0%Z : @Generator torch; events := [] |}.

#[local] Existing Instances lcg python lightning torch monai fs.

Definition ddmm : @DDMMLightningModule.t python torch :=
  {| DDMMLightningModule.lr := "1e-4" : @Float python; DDMMLightningModule.epochs := 31;
     DDMMLightningModule.weight_decay := "1e-4" : @Float python;
     DDMMLightningModule.num_timesteps := 2; DDMMLightningModule.batch_size := 8; DDMMLightningModule.shape := 256;
     DDMMLightningModule.num_classes := 2; DDMMLightningModule.timesteps := 2;
     DDMMLightningModule.noise2space := 10%Z : @UNet torch;
     DDMMLightningModule.image2label := 20%Z : @UNet torch;
     DDMMLightningModule.label2image := 30%Z : @UNet torch;
     DDMMLightningModule.scheduler := {| num_train_timesteps := 2 |};
     DDMMLightningModule.inferer := {| num_train_timesteps := 2 |};
     DDMMLightningModule.global_step := 0 |}.

Definition batch : gmap string Z :=
  {[ "source" := 5%Z; "target" := 3%Z; "images" := 1%Z; "labels" := 0%Z ]}.

End Toy.

(** ** Epoch ends and optimizers (lines 361-377) *)

(** [torch.stack(tensors).mean()], which refuses some lists. *)
Class TorchStack `{Torch} : Type := {
  stack_mean : list Tensor -> Res Tensor
}.

(** [[f(x) for x in l]]: the first exception ends the comprehension. *)
Fixpoint comprehension {A B} (f : A -> Res B) (l : list A) : Res (list B) :=
  match l with
  | [] => Ok []
  | x :: l' =>
      let+ y := f x in
      let+ ys := comprehension f l' in
      Ok (y :: ys)
  end.

Module EpochEnd.
Section EpochEnd.
Context `{Python} `{Torch} `{!TorchStack}.

(** [self.log(name, value, on_step=..., prog_bar=True, logger=True,
    sync_dist=True)], without a batch size. *)
Inductive Logged : Type :=
| LogEpoch (name : string) (value : Tensor) (on_step : bool).

(** Lines 361-363. *)
Definition _common_epoch_end (self : DDMMLightningModule.t)
    (outputs : list (gmap string Tensor)) (stage : string)
    : M (list Logged) unit :=
  let* losses :=
    lift (comprehension
            (fun x => DDMMLightningModule.batch_getitem x "loss") outputs) in
  let* loss := lift (stack_mean losses) in
  fun logged =>
    (Ok tt, logged ++ [LogEpoch (stage +:+ "_loss_epoch") loss false]).

(** Lines 365-372. *)
Definition train_epoch_end (self : DDMMLightningModule.t)
    (outputs : list (gmap string Tensor)) : M (list Logged) unit :=
  _common_epoch_end self outputs "train".

Definition validation_epoch_end (self : DDMMLightningModule.t)
    (outputs : list (gmap string Tensor)) : M (list Logged) unit :=
  _common_epoch_end self outputs "validation".

Definition test_epoch_end (self : DDMMLightningModule.t)
    (outputs : list (gmap string Tensor)) : M (list Logged) unit :=
  _common_epoch_end self outputs "test".
End EpochEnd.
End EpochEnd.

Module Optimizers.
Section Optimizers.
Context `{Python} `{Torch}.

(** [torch.optim.AdamW(params, lr=..., weight_decay=...)] *)
Record AdamW : Type := {
  params : list UNet;
  lr : Float;
  weight_decay : Float
}.

(** [torch.optim.lr_scheduler.MultiStepLR(optimizer, milestones, gamma)] *)
Record MultiStepLR : Type := {
  optimizer : AdamW;
  milestones : list Z;
  gamma : string
}.

(** Lines 374-377.  [self.parameters()] are the parameters of the three
    networks, in the order [__init__] assigns them. *)
Definition configure_optimizers (self : DDMMLightningModule.t)
    : list AdamW * list MultiStepLR :=
  let optimizer :=
    {| params := [ DDMMLightningModule.noise2space self;
                   DDMMLightningModule.image2label self;
                   DDMMLightningModule.label2image self ];
       lr := DDMMLightningModule.lr self;
       weight_decay := DDMMLightningModule.weight_decay self |} in
  let scheduler :=
    {| optimizer := optimizer; milestones := [10; 20]%Z; gamma := "0.1" |} in
  ([optimizer], [scheduler]).
End Optimizers.
End Optimizers.

(** More stand-ins: a mean that refuses the empty list, and a file system
    that lists the same two files in the other order. *)
Module ToyMore.

Definition stack : @TorchStack Toy.torch :=
  {| stack_mean := fun l : list (@Tensor Toy.torch) =>
       match l return Res (@Tensor Toy.torch) with
       | [] => Raise (External "torch.stack")
       | _ => Ok ((foldr Z.add 0 (l : list Z) `div` len l)%Z : Z)
       end |}.

Definition fs_reversed : FileSystem :=
  {| glob_glob := fun pattern => reverse (@glob_glob Toy.fs pattern) |}.

(** A dataset whose second stream is shorter than its first. *)
Definition ds_short_labels : @PairedAndUnpairedDataset.t string unit :=
  PairedAndUnpairedDataset.__init__ ["source"; "target"; "images"; "labels"]
    [ ["s0"; "s1"; "s2"]; ["t0"]; ["i0"]; ["l0"] ] None None 2.

(** A dataset with three streams only. *)
Definition ds_three_streams : @PairedAndUnpairedDataset.t string unit :=
  PairedAndUnpairedDataset.__init__ ["source"; "target"; "images"; "labels"]
    [ ["s0"]; ["t0"]; ["i0"] ] None None 2.

(** A dataset whose transform cannot read what was selected. *)
Definition ds_unreadable : @PairedAndUnpairedDataset.t string unit :=
  PairedAndUnpairedDataset.__init__ ["source"; "target"; "images"; "labels"]
    [ ["s0"; "s1"; "s2"]; ["t0"; "t1"; "t2"]; ["i0"; "i1"];
      ["l0"; "l1"; "l2"; "l3"] ]
    (Some (fun _ ts => (Raise (External "LoadImaged"), ts))) None 2.

(** A batch without [labels]. *)
Definition batch_no_labels : gmap string Z :=
  {[ "source" := 5%Z; "target" := 3%Z; "images" := 1%Z ]}.

(** The toy batch with other unpaired entries. *)
Definition batch_other_unpaired : gmap string Z :=
  {[ "source" := 5%Z; "target" := 3%Z; "images" := 40%Z; "labels" := 9%Z ]}.
End ToyMore.

(** * Properties *)

(** ** The monad *)

Section MonadFacts.
Context {S A B : Type}.

Lemma bind_Ok (m : M S A) (k : A -> M S B) (s s' : S) (b : B) :
  bind m k s = (Ok b, s') ->
  exists a s1, m s = (Ok a, s1) /\ k a s1 = (Ok b, s').
Proof.
  unfold bind. destruct (m s) as [[a|e] s1]; intros Hk.
  - exists a, s1. split; [reflexivity | exact Hk].
  - discriminate.
Qed.

Lemma bind_step (m : M S A) (k : A -> M S B) (s s1 : S) (a : A) :
  m s = (Ok a, s1) -> bind m k s = k a s1.
Proof. unfold bind. intros ->. reflexivity. Qed.

(** An exception of the first computation is the exception of the whole:
    there is nothing between a raise and the caller. *)
Lemma bind_Raise (m : M S A) (k : A -> M S B) (s s1 : S) (e : PyErr) :
  m s = (Raise e, s1) -> bind m k s = (Raise e, s1).
Proof. unfold bind. intros ->. reflexivity. Qed.

Lemma lift_Ok (r : Res A) (s s' : S) (a : A) :
  lift r s = (Ok a, s') -> r = Ok a /\ s' = s.
Proof. unfold lift. intros [= -> ->]. split; reflexivity. Qed.

Lemma ret_Ok (a a' : A) (s s' : S) :
  ret a s = (Ok a', s') -> a' = a /\ s' = s.
Proof. unfold ret. intros [= -> ->]. split; reflexivity. Qed.
End MonadFacts.

Lemma res_bind_Ok {A B} (r : Res A) (k : A -> Res B) (b : B) :
  res_bind r k = Ok b -> exists a, r = Ok a /\ k a = Ok b.
Proof. destruct r as [a|e]; simpl; [eauto | discriminate]. Qed.

(** Peel the first computation off a sequence that returned. *)
Ltac bind_inv H :=
  let a := fresh "a" in
  let s := fresh "s" in
  let Ha := fresh "Hstep" in
  apply bind_Ok in H as (a & s & Ha & H).

Ltac lift_inv H :=
  let E := fresh "E" in
  apply lift_Ok in H as [E ->].

(** ** Python lists *)

Lemma py_getitem_in_range {A} (l : list A) (i : Z) :
  (0 <= i < len l)%Z -> exists x, py_getitem l i = Ok x /\ l !! Z.to_nat i = Some x.
Proof.
  intros [Hlo Hhi]. unfold py_getitem, len in *.
  destruct (Z.ltb_spec i 0) as [?|_]; [lia|].
  destruct (Z.ltb_spec i 0) as [?|_]; [lia|].
  destruct (l !! Z.to_nat i) as [x|] eqn:E.
  - exists x. split; reflexivity.
  - apply lookup_ge_None in E. lia.
Qed.

Lemma foldl_min_le (l : list Z) (x : Z) :
  (foldl Z.min x l <= x)%Z /\ Forall (fun y => (foldl Z.min x l <= y)%Z) l.
Proof.
  revert x. induction l as [|y l IH]; intros x; simpl.
  - split; [lia | constructor].
  - destruct (IH (Z.min x y)) as [H1 H2]. split; [lia|].
    constructor; [lia | exact H2].
Qed.

Lemma foldl_min_in (l : list Z) (x : Z) : foldl Z.min x l ∈ x :: l.
Proof.
  revert x. induction l as [|y l IH]; intros x; simpl.
  - apply list_elem_of_here.
  - specialize (IH (Z.min x y)).
    apply elem_of_cons in IH as [->|Hin].
    + destruct (Z.min_spec x y) as [[_ ->]|[_ ->]].
      * apply list_elem_of_here.
      * apply list_elem_of_further, list_elem_of_here.
    + do 2 apply list_elem_of_further. exact Hin.
Qed.

(** [min] returns a member that no member is below. *)
Lemma py_min_spec (l : list Z) (m : Z) :
  py_min l = Ok m -> m ∈ l /\ Forall (fun y => (m <= y)%Z) l.
Proof.
  destruct l as [|x l]; simpl; [discriminate|]. intros [= <-].
  split; [apply foldl_min_in|].
  destruct (foldl_min_le l x) as [H1 H2]. constructor; assumption.
Qed.

(** ** The dataset *)

Section DatasetFacts.
Context `{NumpyRandomState} {V TS : Type}.
Implicit Types (self : @PairedAndUnpairedDataset.t V TS) (s : @PairedAndUnpairedDataset.Store _ TS).

(** C4.  [__len__] returns the [length] the constructor was given when there
    is one; without one, and with four data streams, it returns the smallest
    of their four lengths.  In both cases the dataset is left as it was. *)
Theorem len_spec self s :
  snd (PairedAndUnpairedDataset.__len__ self s) = s /\
  (forall n : Z, PairedAndUnpairedDataset.length self = Some n ->
     fst (PairedAndUnpairedDataset.__len__ self s) = Ok n) /\
  (forall a b c d : list V,
     PairedAndUnpairedDataset.length self = None -> PairedAndUnpairedDataset.data self = [a; b; c; d] ->
     fst (PairedAndUnpairedDataset.__len__ self s) =
       Ok (Z.min (Z.min (Z.min (len a) (len b)) (len c)) (len d))).
Proof.
  unfold PairedAndUnpairedDataset.__len__. repeat split.
  - destruct (PairedAndUnpairedDataset.length self); reflexivity.
  - intros n ->. reflexivity.
  - intros a b c d -> ->. reflexivity.
Qed.

(** X7.  Without a [length], whatever [__len__] returns is the length of
    one of the streams and no stream is shorter, however many streams there
    are. *)
Lemma len_is_minimum self s (n : Z) :
  PairedAndUnpairedDataset.length self = None ->
  fst (PairedAndUnpairedDataset.__len__ self s) = Ok n ->
  n ∈ (len <$> PairedAndUnpairedDataset.data self) /\
  Forall (fun d => (n <= len d)%Z) (PairedAndUnpairedDataset.data self).
Proof.
  unfold PairedAndUnpairedDataset.__len__. intros -> Hn. simpl in Hn.
  apply py_min_spec in Hn as [Hin Hle]. split; [exact Hin|].
  rewrite Forall_fmap in Hle. exact Hle.
Qed.

(** Selection after the seed reads the generator only. *)
Lemma select_reads_generator_only self (index : Z) s1 s2 :
  fst (PairedAndUnpairedDataset._transform_select self index s1) =
  fst (PairedAndUnpairedDataset._transform_select self index s2).
Proof.
  unfold PairedAndUnpairedDataset._transform_select, bind, PairedAndUnpairedDataset.R_seed, PairedAndUnpairedDataset.R_randint,
    lift, ret.
  destruct (rs_seed index) as [r|e]; [|reflexivity]. simpl.
  repeat (match goal with
          | |- context [match ?x with _ => _ end] =>
              lazymatch x with
              | context [match _ with _ => _ end] => fail
              | _ => destruct x eqn:?
              end
          end; simpl; try reflexivity).
Qed.

(** Selection leaves the transform's state alone. *)
Lemma select_keeps_tstate self (index : Z) s :
  PairedAndUnpairedDataset.tstate (snd (PairedAndUnpairedDataset._transform_select self index s)) =
  PairedAndUnpairedDataset.tstate s.
Proof.
  unfold PairedAndUnpairedDataset._transform_select, bind, PairedAndUnpairedDataset.R_seed, PairedAndUnpairedDataset.R_randint,
    lift, ret.
  destruct (rs_seed index) as [r|e]; [|reflexivity]. simpl.
  repeat (match goal with
          | |- context [match ?x with _ => _ end] =>
              lazymatch x with
              | context [match _ with _ => _ end] => fail
              | _ => destruct x eqn:?
              end
          end; simpl; try reflexivity).
Qed.

(** C3.  The generator is seeded with the index before the first draw, so
    the selected entries do not depend on the state the generator was in:
    from any two states of the dataset, [_transform] at the same index
    selects the same entries (or raises the same exception), and a second
    call right after a first selects what the first selected. *)
Theorem transform_select_deterministic self (index : Z) s1 s2 :
  fst (PairedAndUnpairedDataset._transform_select self index s1) =
    fst (PairedAndUnpairedDataset._transform_select self index s2) /\
  fst (PairedAndUnpairedDataset._transform_select self index
         (snd (PairedAndUnpairedDataset._transform self index s1))) =
    fst (PairedAndUnpairedDataset._transform_select self index s1).
Proof. split; apply select_reads_generator_only. Qed.
End DatasetFacts.

Section SelectionFacts.
Context `{NumpyRandomState} {V TS : Type}.
Implicit Types (self : @PairedAndUnpairedDataset.t V TS) (s : @PairedAndUnpairedDataset.Store _ TS).

Lemma R_seed_Ok (n : Z) s s' (u : unit) :
  PairedAndUnpairedDataset.R_seed n s = (Ok u, s') ->
  exists r, rs_seed n = Ok r /\
            s' = {| PairedAndUnpairedDataset.R := r; PairedAndUnpairedDataset.tstate := PairedAndUnpairedDataset.tstate s |}.
Proof.
  unfold PairedAndUnpairedDataset.R_seed. destruct (rs_seed n) as [r|e]; [|discriminate].
  intros [= _ <-]. exists r. split; reflexivity.
Qed.

Lemma R_randint_Ok (lo hi : Z) s s' (v : Z) :
  PairedAndUnpairedDataset.R_randint lo hi s = (Ok v, s') ->
  exists r, rs_randint lo hi (PairedAndUnpairedDataset.R s) = (Ok v, r) /\
            s' = {| PairedAndUnpairedDataset.R := r; PairedAndUnpairedDataset.tstate := PairedAndUnpairedDataset.tstate s |}.
Proof.
  unfold PairedAndUnpairedDataset.R_randint.
  destruct (rs_randint lo hi (PairedAndUnpairedDataset.R s)) as [x r]. intros [= -> <-].
  exists r. split; reflexivity.
Qed.

(** What a selection that returned did: three draws from the generator
    seeded with the index, the first used for both members of the pair. *)
Lemma select_Ok self (index : Z) s s' (d : @PairedAndUnpairedDataset.Item V) :
  PairedAndUnpairedDataset._transform_select self index s = (Ok d, s') ->
  exists (k0 k1 k2 k3 : string) (s0 s1 s2 s3 : list V)
         (rand_idx rand_idy rand_idz : Z) (r0 r1 r2 r3 : RandomState)
         (v0 v1 v2 v3 : V),
    (py_getitem (PairedAndUnpairedDataset.keys self) 0 = Ok k0 /\
     py_getitem (PairedAndUnpairedDataset.keys self) 1 = Ok k1 /\
     py_getitem (PairedAndUnpairedDataset.keys self) 2 = Ok k2 /\
     py_getitem (PairedAndUnpairedDataset.keys self) 3 = Ok k3) /\
    (py_getitem (PairedAndUnpairedDataset.data self) 0 = Ok s0 /\
     py_getitem (PairedAndUnpairedDataset.data self) 1 = Ok s1 /\
     py_getitem (PairedAndUnpairedDataset.data self) 2 = Ok s2 /\
     py_getitem (PairedAndUnpairedDataset.data self) 3 = Ok s3) /\
    (rs_seed index = Ok r0 /\
     rs_randint 0 (len s0) r0 = (Ok rand_idx, r1) /\
     rs_randint 0 (len s2) r1 = (Ok rand_idy, r2) /\
     rs_randint 0 (len s3) r2 = (Ok rand_idz, r3)) /\
    (py_getitem s0 rand_idx = Ok v0 /\
     py_getitem s1 rand_idx = Ok v1 /\
     py_getitem s2 rand_idy = Ok v2 /\
     py_getitem s3 rand_idz = Ok v3) /\
    d = <[k3 := v3]> (<[k2 := v2]> (<[k1 := v1]> (<[k0 := v0]> ∅))) /\
    s' = {| PairedAndUnpairedDataset.R := r3; PairedAndUnpairedDataset.tstate := PairedAndUnpairedDataset.tstate s |}.
Proof.
  unfold PairedAndUnpairedDataset._transform_select. intros Hrun.
  bind_inv Hrun. apply R_seed_Ok in Hstep as (r0 & Hseed & ->).
  bind_inv Hrun. lift_inv Hstep. rename a0 into s0, E into Hs0.
  bind_inv Hrun. apply R_randint_Ok in Hstep as (r1 & Hx & ->).
  bind_inv Hrun. lift_inv Hstep. rename E into Hv0.
  bind_inv Hrun. lift_inv Hstep. rename E into Hk0.
  bind_inv Hrun. lift_inv Hstep. rename E into Hs1.
  bind_inv Hrun. lift_inv Hstep. rename E into Hv1.
  bind_inv Hrun. lift_inv Hstep. rename E into Hk1.
  bind_inv Hrun. lift_inv Hstep. rename E into Hs2.
  bind_inv Hrun. apply R_randint_Ok in Hstep as (r2 & Hy & ->).
  bind_inv Hrun. lift_inv Hstep. rename E into Hv2.
  bind_inv Hrun. lift_inv Hstep. rename E into Hk2.
  bind_inv Hrun. lift_inv Hstep. rename E into Hs3.
  bind_inv Hrun. apply R_randint_Ok in Hstep as (r3 & Hz & ->).
  bind_inv Hrun. lift_inv Hstep. rename E into Hv3.
  bind_inv Hrun. lift_inv Hstep. rename E into Hk3.
  apply ret_Ok in Hrun as [-> ->]. simpl in *.
  repeat eexists; eassumption.
Qed.

Lemma four_inserts_lookup (k0 k1 k2 k3 : string) (v0 v1 v2 v3 : V) :
  NoDup [k0; k1; k2; k3] ->
  let d : gmap string V :=
    <[k3 := v3]> (<[k2 := v2]> (<[k1 := v1]> (<[k0 := v0]> ∅))) in
  d !! k0 = Some v0 /\ d !! k1 = Some v1 /\
  d !! k2 = Some v2 /\ d !! k3 = Some v3.
Proof.
  intros Hnd d. subst d.
  apply NoDup_cons in Hnd as [H0 Hnd].
  apply NoDup_cons in Hnd as [H1 Hnd].
  apply NoDup_cons in Hnd as [H2 _].
  apply not_elem_of_cons in H0 as [? H0].
  apply not_elem_of_cons in H0 as [? H0].
  apply not_elem_of_cons in H0 as [? _].
  apply not_elem_of_cons in H1 as [? H1].
  apply not_elem_of_cons in H1 as [? _].
  apply not_elem_of_cons in H2 as [? _].
  repeat split; simplify_map_eq; reflexivity.
Qed.

(** C2.  An item [_transform] produces comes from one selection [d] in
    which the entry put under [keys[0]] and the entry put under [keys[1]]
    are read from the first and the second data stream at one and the same
    drawn index, while the entries put under [keys[2]] and [keys[3]] are
    read from the third and the fourth stream at indices of two further
    draws of their own; with four different keys, these are the entries
    found under the keys.  The item is [d], or the transform applied to [d]
    when there is one. *)
Theorem transform_keeps_pair_paired self (index : Z) s s'
    (item : @PairedAndUnpairedDataset.Item V) :
  PairedAndUnpairedDataset._transform self index s = (Ok item, s') ->
  exists (k0 k1 k2 k3 : string) (s0 s1 s2 s3 : list V)
         (rand_idx rand_idy rand_idz : Z) (r0 r1 r2 r3 : RandomState)
         (v0 v1 v2 v3 : V) (d : @PairedAndUnpairedDataset.Item V),
    (py_getitem (PairedAndUnpairedDataset.keys self) 0 = Ok k0 /\
     py_getitem (PairedAndUnpairedDataset.keys self) 1 = Ok k1 /\
     py_getitem (PairedAndUnpairedDataset.keys self) 2 = Ok k2 /\
     py_getitem (PairedAndUnpairedDataset.keys self) 3 = Ok k3) /\
    (py_getitem (PairedAndUnpairedDataset.data self) 0 = Ok s0 /\
     py_getitem (PairedAndUnpairedDataset.data self) 1 = Ok s1 /\
     py_getitem (PairedAndUnpairedDataset.data self) 2 = Ok s2 /\
     py_getitem (PairedAndUnpairedDataset.data self) 3 = Ok s3) /\
    (rs_seed index = Ok r0 /\
     rs_randint 0 (len s0) r0 = (Ok rand_idx, r1) /\
     rs_randint 0 (len s2) r1 = (Ok rand_idy, r2) /\
     rs_randint 0 (len s3) r2 = (Ok rand_idz, r3)) /\
    (py_getitem s0 rand_idx = Ok v0 /\
     py_getitem s1 rand_idx = Ok v1 /\
     py_getitem s2 rand_idy = Ok v2 /\
     py_getitem s3 rand_idz = Ok v3) /\
    d = <[k3 := v3]> (<[k2 := v2]> (<[k1 := v1]> (<[k0 := v0]> ∅))) /\
    (NoDup [k0; k1; k2; k3] ->
     d !! k0 = Some v0 /\ d !! k1 = Some v1 /\
     d !! k2 = Some v2 /\ d !! k3 = Some v3) /\
    match PairedAndUnpairedDataset.transform self with
    | None => item = d
    | Some f => exists ts, f d (PairedAndUnpairedDataset.tstate s) = (Ok item, ts)
    end.
Proof.
  unfold PairedAndUnpairedDataset._transform. intros Hrun. bind_inv Hrun.
  apply select_Ok in Hstep
    as (k0 & k1 & k2 & k3 & q0 & q1 & q2 & q3 & x & y & z &
        r0 & r1 & r2 & r3 & v0 & v1 & v2 & v3 &
        Hkeys & Hdata & Hdraws & Hvals & -> & ->).
  exists k0, k1, k2, k3, q0, q1, q2, q3, x, y, z, r0, r1, r2, r3,
    v0, v1, v2, v3. eexists.
  split; [exact Hkeys|]. split; [exact Hdata|]. split; [exact Hdraws|].
  split; [exact Hvals|]. split; [reflexivity|].
  split; [apply four_inserts_lookup|].
  destruct (PairedAndUnpairedDataset.transform self) as [f|].
  - unfold PairedAndUnpairedDataset.apply_transform in Hrun. simpl in Hrun.
    destruct (f _ (PairedAndUnpairedDataset.tstate s)) as [[it|e] ts] eqn:Hf.
    + injection Hrun as -> _. exists ts. reflexivity.
    + destruct (is_Exception e); discriminate Hrun.
  - apply ret_Ok in Hrun as [-> _]. reflexivity.
Qed.
End SelectionFacts.

Section SelectionReturns.
Context `{RandomStateLaws} {V TS : Type}.
Implicit Types (self : @PairedAndUnpairedDataset.t V TS) (s : @PairedAndUnpairedDataset.Store _ TS).

(** X6.  With four keys, four streams that are not empty, a second stream
    at least as long as the first and an index NumPy accepts as a seed, the
    selection returns: the theorems about returned items are about
    something.  The index is a seed and nothing else, so it need not be
    below [__len__]. *)
Lemma transform_returns self (index : Z) s
    (k0 k1 k2 k3 : string) (ks : list string)
    (s0 s1 s2 s3 : list V) (rest : list (list V)) :
  (0 <= index < 2 ^ 32)%Z ->
  PairedAndUnpairedDataset.keys self = k0 :: k1 :: k2 :: k3 :: ks ->
  PairedAndUnpairedDataset.data self = s0 :: s1 :: s2 :: s3 :: rest ->
  (0 < len s0 <= len s1)%Z -> (0 < len s2)%Z -> (0 < len s3)%Z ->
  (len s0 < 2 ^ 63)%Z -> (len s2 < 2 ^ 63)%Z -> (len s3 < 2 ^ 63)%Z ->
  PairedAndUnpairedDataset.transform self = None ->
  exists item s', PairedAndUnpairedDataset._transform self index s = (Ok item, s').
Proof.
  intros Hidx Hkeys Hdata L0 L2 L3 B0 B2 B3 Htr.
  destruct (rs_seed_ok index Hidx) as [r0 Hseed].
  destruct (rs_randint_ok 0 (len s0) r0) as (x & r1 & Hx & Hxr); [lia|lia|].
  destruct (rs_randint_ok 0 (len s2) r1) as (y & r2 & Hy & Hyr); [lia|lia|].
  destruct (rs_randint_ok 0 (len s3) r2) as (z & r3 & Hz & Hzr); [lia|lia|].
  destruct (py_getitem_in_range s0 x) as (v0 & Hv0 & _); [lia|].
  destruct (py_getitem_in_range s1 x) as (v1 & Hv1 & _); [lia|].
  destruct (py_getitem_in_range s2 y) as (v2 & Hv2 & _); [lia|].
  destruct (py_getitem_in_range s3 z) as (v3 & Hv3 & _); [lia|].
  unfold PairedAndUnpairedDataset._transform, PairedAndUnpairedDataset._transform_select.
  rewrite Htr, Hkeys, Hdata.
  unfold bind, lift, ret, PairedAndUnpairedDataset.R_seed, PairedAndUnpairedDataset.R_randint.
  rewrite Hseed. simpl.
  rewrite Hx. simpl. rewrite Hv0, Hv1.
  rewrite Hy. simpl. rewrite Hv2.
  rewrite Hz. simpl. rewrite Hv3. eauto.
Qed.
End SelectionReturns.

(** ** The dataset on concrete inputs *)

Lemma len_spec_witness :
  fst (PairedAndUnpairedDataset.__len__ (Toy.ds (Some 4000%Z)) Toy.store0) = Ok 4000%Z /\
  fst (PairedAndUnpairedDataset.__len__ (Toy.ds None) Toy.store0) = Ok 2%Z.
Proof.
  split.
  - apply (proj1 (proj2 (len_spec (Toy.ds (Some 4000%Z)) Toy.store0))).
    reflexivity.
  - exact (proj2 (proj2 (len_spec (Toy.ds None) Toy.store0))
             _ _ _ _ eq_refl eq_refl).
Defined.

(** The toy dataset at index 5. *)
Lemma toy_transform_5 :
  fst (PairedAndUnpairedDataset._transform (Toy.ds None) 5 Toy.store0) =
  Ok (<["labels" := "l3"]> (<["images" := "i0"]>
        (<["target" := "t2"]> (<["source" := "s2"]> ∅)))).
Proof. reflexivity. Qed.

Lemma transform_keeps_pair_paired_witness :
  exists (item : gmap string string) (x : Z) (v0 v1 : string),
    fst (PairedAndUnpairedDataset._transform (Toy.ds None) 5 Toy.store0) = Ok item /\
    py_getitem ["s0"; "s1"; "s2"] x = Ok v0 /\
    py_getitem ["t0"; "t1"; "t2"] x = Ok v1 /\
    item !! "source" = Some v0 /\ item !! "target" = Some v1.
Proof.
  destruct (PairedAndUnpairedDataset._transform (Toy.ds None) 5 Toy.store0)
    as [[item|e] s'] eqn:Hrun.
  2:{ pose proof toy_transform_5 as H5. rewrite Hrun in H5. discriminate. }
  destruct (transform_keeps_pair_paired _ _ _ _ _ Hrun)
    as (k0 & k1 & k2 & k3 & q0 & q1 & q2 & q3 & x & y & z &
        r0 & r1 & r2 & r3 & v0 & v1 & v2 & v3 & d &
        (Hk0 & Hk1 & Hk2 & Hk3) & (Hq0 & Hq1 & _) & _ & (Hv0 & Hv1 & _) &
        _ & Hlook & Hitem).
  injection Hk0 as <-. injection Hk1 as <-.
  injection Hk2 as <-. injection Hk3 as <-.
  injection Hq0 as <-. injection Hq1 as <-.
  simpl in Hitem. subst d.
  destruct Hlook as (H0 & H1 & _); [compute_done|].
  exists item, x, v0, v1. repeat split; assumption.
Defined.

(** ** File lists *)

Section GlobFacts.
Context `{Torch} `{FileSystem}.

Lemma sorted_Permutation (l : list string) : sorted l ≡ₚ l.
Proof. apply merge_sort_Permutation. Qed.

Lemma sorted_StronglySorted (l : list string) :
  StronglySorted String.le (sorted l).
Proof. apply StronglySorted_merge_sort; apply _. Qed.

(** [sorted l] is the only ascending arrangement of [l]. *)
Lemma sorted_unique (l l' : list string) :
  l' ≡ₚ l -> StronglySorted String.le l' -> l' = sorted l.
Proof.
  intros Hp Hs. apply (StronglySorted_unique String.le).
  - exact Hs.
  - apply sorted_StronglySorted.
  - rewrite Hp. symmetry. apply sorted_Permutation.
Qed.

(** C5.  Given a list of directories, [glob_files] returns: its result holds
    exactly the matches of the pattern in each directory, all in one list,
    in ascending order on strings (and it is the only such list).  The
    twelve file lists of a [PairedAndUnpairedDataModule] are each the result
    of [glob_files] on the corresponding directories with the pattern
    [**/*.png], and building the module always returns. *)
Theorem glob_files_sorted_concat :
  (forall (folders : list string) (extension : string) (w : World),
     exists (files : list string) (w' : World),
       PairedAndUnpairedDataModule.glob_files (Some folders) extension w = (Ok files, w') /\
       files ≡ₚ concat ((fun folder => glob_glob (path_join folder extension))
                          <$> folders) /\
       StronglySorted String.le files /\
       (forall l' : list string,
          l' ≡ₚ concat ((fun folder => glob_glob (path_join folder extension))
                          <$> folders) ->
          StronglySorted String.le l' -> l' = files)) /\
  (forall (d1 d2 d3 d4 d5 d6 d7 d8 d9 d10 d11 d12 : list string)
          (shape batch_size train_samples val_samples test_samples : Z)
          (w : World),
     exists (dm : PairedAndUnpairedDataModule.t) (w' : World),
       PairedAndUnpairedDataModule.__init__ d1 d2 d3 d4 d5 d6 d7 d8 d9 d10 d11 d12
         shape batch_size train_samples val_samples test_samples w
         = (Ok dm, w') /\
       Forall (fun '(dirs, given, files) =>
                 dirs = given /\
                 exists w1 w2 : World,
                   PairedAndUnpairedDataModule.glob_files (Some dirs) "**/*.png" w1
                     = (Ok files, w2))
         [ (PairedAndUnpairedDataModule.train_ssource_dirs dm, d1,
            PairedAndUnpairedDataModule.train_ssource_files dm);
           (PairedAndUnpairedDataModule.train_starget_dirs dm, d2,
            PairedAndUnpairedDataModule.train_starget_files dm);
           (PairedAndUnpairedDataModule.train_usource_dirs dm, d3,
            PairedAndUnpairedDataModule.train_usource_files dm);
           (PairedAndUnpairedDataModule.train_utarget_dirs dm, d4,
            PairedAndUnpairedDataModule.train_utarget_files dm);
           (PairedAndUnpairedDataModule.val_ssource_dirs dm, d5,
            PairedAndUnpairedDataModule.val_ssource_files dm);
           (PairedAndUnpairedDataModule.val_starget_dirs dm, d6,
            PairedAndUnpairedDataModule.val_starget_files dm);
           (PairedAndUnpairedDataModule.val_usource_dirs dm, d7,
            PairedAndUnpairedDataModule.val_usource_files dm);
           (PairedAndUnpairedDataModule.val_utarget_dirs dm, d8,
            PairedAndUnpairedDataModule.val_utarget_files dm);
           (PairedAndUnpairedDataModule.test_ssource_dirs dm, d9,
            PairedAndUnpairedDataModule.test_ssource_files dm);
           (PairedAndUnpairedDataModule.test_starget_dirs dm, d10,
            PairedAndUnpairedDataModule.test_starget_files dm);
           (PairedAndUnpairedDataModule.test_usource_dirs dm, d11,
            PairedAndUnpairedDataModule.test_usource_files dm);
           (PairedAndUnpairedDataModule.test_utarget_dirs dm, d12,
            PairedAndUnpairedDataModule.test_utarget_files dm) ]).
Proof.
  split.
  - intros folders extension w. eexists _, _.
    split; [reflexivity|]. split; [apply sorted_Permutation|].
    split; [apply sorted_StronglySorted|].
    intros l' Hp Hs. apply sorted_unique; assumption.
  - intros. eexists _, _. split.
    { cbv [PairedAndUnpairedDataModule.__init__ PairedAndUnpairedDataModule.glob_files bind emit ret gen events].
      reflexivity. }
    simpl.
    repeat (constructor;
            [split; [reflexivity | exists w; eexists; reflexivity]|]).
    constructor.
Qed.

(** Directories without a match (missing, or holding no such file) are not
    an error here: the list is empty, and the failure comes later, at the
    first draw over the empty stream. *)
Lemma glob_files_no_match (folders : list string) (extension : string)
    (w : World) :
  Forall (fun folder => glob_glob (path_join folder extension) = []) folders ->
  fst (PairedAndUnpairedDataModule.glob_files (Some folders) extension w) = Ok [].
Proof.
  intros Hnone. simpl.
  replace (concat ((fun folder => glob_glob (path_join folder extension))
                     <$> folders)) with (@nil string); [reflexivity|].
  induction Hnone as [|folder folders Hf _ IH]; [reflexivity|].
  simpl. rewrite Hf. exact IH.
Qed.

(** [glob_files] without directories stops at its assertion. *)
Lemma glob_files_None (extension : string) (w : World) :
  PairedAndUnpairedDataModule.glob_files None extension w = (Raise AssertionError, w).
Proof. reflexivity. Qed.
End GlobFacts.

(** On the toy file system: two matches, returned in order. *)
Lemma toy_glob_files :
  fst (@PairedAndUnpairedDataModule.glob_files Toy.torch Toy.fs
         (Some [Toy.images_dir; "nowhere"]) "**/*.png" Toy.world0)
  = Ok [Toy.images_dir +:+ "/a.png"; Toy.images_dir +:+ "/b.png"].
Proof. vm_compute. reflexivity. Qed.

(** ** The script body *)

Lemma Ok_inj {A} (a b : A) : Ok a = Ok b -> a = b.
Proof. intros [= ->]. reflexivity. Qed.

(** Split a run that is already a pair of a result and a world. *)
Ltac run_inv E :=
  let E1 := fresh "E" in
  let E2 := fresh "E" in
  apply pair_equal_spec in E as [E1 E2];
  apply Ok_inj in E1; subst.

Section WorldFacts.
Context `{Torch}.

Lemma draw_Ok {A} (f : Generator -> A * Generator) (w w' : World) (a : A) :
  draw f w = (Ok a, w') ->
  f (gen w) = (a, gen w') /\ events w' = events w.
Proof.
  unfold draw. destruct (f (gen w)) as [x g]. intros [= -> <-]. simpl. auto.
Qed.

Lemma draw_res_Ok {A} (f : Generator -> Res A * Generator) (w w' : World)
    (a : A) :
  draw_res f w = (Ok a, w') ->
  f (gen w) = (Ok a, gen w') /\ events w' = events w.
Proof.
  unfold draw_res. destruct (f (gen w)) as [x g]. intros [= -> <-]. simpl. auto.
Qed.

Lemma emit_Ok (e : Event) (w w' : World) (u : unit) :
  emit e w = (Ok u, w') -> gen w' = gen w /\ events w' = events w ++ [e].
Proof. unfold emit. intros [= _ <-]. simpl. auto. Qed.

Lemma reseed_Ok (e : Event) (seed : Z) (w w' : World) (u : unit) :
  reseed e seed w = (Ok u, w') ->
  gen w' = manual_seed seed /\ events w' = events w ++ [e].
Proof. unfold reseed. intros [= _ <-]. simpl. auto. Qed.
End WorldFacts.

Section ScriptFacts.
Context `{Python} `{Lightning} `{Torch} `{!Monai} `{FileSystem}.

(** Building the data module prints and does nothing else to the world. *)
Lemma datamodule_init_Ok
    (d1 d2 d3 d4 d5 d6 d7 d8 d9 d10 d11 d12 : list string)
    (shape batch_size train_samples val_samples test_samples : Z)
    (w w' : World) (dm : PairedAndUnpairedDataModule.t) :
  PairedAndUnpairedDataModule.__init__ d1 d2 d3 d4 d5 d6 d7 d8 d9 d10 d11 d12
    shape batch_size train_samples val_samples test_samples w = (Ok dm, w') ->
  gen w' = gen w /\
  (exists prints, events w' = events w ++ prints /\ Forall is_print prints) /\
  PairedAndUnpairedDataModule.shape dm = shape /\
  PairedAndUnpairedDataModule.batch_size dm = batch_size /\
  PairedAndUnpairedDataModule.train_samples dm = train_samples /\
  PairedAndUnpairedDataModule.val_samples dm = val_samples /\
  PairedAndUnpairedDataModule.test_samples dm = test_samples /\
  [ PairedAndUnpairedDataModule.train_ssource_dirs dm; PairedAndUnpairedDataModule.train_starget_dirs dm;
    PairedAndUnpairedDataModule.train_usource_dirs dm; PairedAndUnpairedDataModule.train_utarget_dirs dm;
    PairedAndUnpairedDataModule.val_ssource_dirs dm; PairedAndUnpairedDataModule.val_starget_dirs dm;
    PairedAndUnpairedDataModule.val_usource_dirs dm; PairedAndUnpairedDataModule.val_utarget_dirs dm;
    PairedAndUnpairedDataModule.test_ssource_dirs dm; PairedAndUnpairedDataModule.test_starget_dirs dm;
    PairedAndUnpairedDataModule.test_usource_dirs dm; PairedAndUnpairedDataModule.test_utarget_dirs dm ]
  = [d1; d2; d3; d4; d5; d6; d7; d8; d9; d10; d11; d12].
Proof.
  intros E.
  cbv [PairedAndUnpairedDataModule.__init__ PairedAndUnpairedDataModule.glob_files bind emit ret gen events] in E.
  run_inv E. split; [reflexivity|]. split.
  - eexists. split.
    + cbv [events]. rewrite <- !app_assoc. reflexivity.
    + simpl. repeat (constructor; [eexists; reflexivity|]). constructor.
  - repeat split; reflexivity.
Qed.

Lemma model_init_Ok (hp : HParams.t) (w w' : World) (m : DDMMLightningModule.t) :
  DDMMLightningModule.__init__ hp w = (Ok m, w') ->
  events w' = events w /\
  (exists g1 g2,
     DiffusionModelUNet DDMMLightningModule.unet_config (gen w) = (DDMMLightningModule.noise2space m, g1) /\
     DiffusionModelUNet DDMMLightningModule.unet_config g1 = (DDMMLightningModule.image2label m, g2) /\
     DiffusionModelUNet DDMMLightningModule.unet_config g2 = (DDMMLightningModule.label2image m, gen w')) /\
  DDMMLightningModule.lr m = HParams.lr hp /\
  DDMMLightningModule.epochs m = HParams.epochs hp /\
  DDMMLightningModule.weight_decay m = HParams.weight_decay hp /\
  DDMMLightningModule.num_timesteps m = HParams.timesteps hp /\
  DDMMLightningModule.timesteps m = HParams.timesteps hp /\
  DDMMLightningModule.batch_size m = HParams.batch_size hp /\
  DDMMLightningModule.shape m = HParams.shape hp /\
  DDMMLightningModule.num_classes m = 2%Z /\
  DDMMLightningModule.scheduler m = {| num_train_timesteps := HParams.timesteps hp |} /\
  (0 <= HParams.timesteps hp)%Z.
Proof.
  unfold DDMMLightningModule.__init__. intros E.
  bind_inv E. apply draw_Ok in Hstep as [Hn1 He1].
  bind_inv E. apply draw_Ok in Hstep as [Hn2 He2].
  bind_inv E. apply draw_Ok in Hstep as [Hn3 He3].
  bind_inv E. lift_inv Hstep. rename E0 into Hsched.
  unfold DDPMScheduler__init__ in Hsched.
  destruct (Z.ltb_spec (HParams.timesteps hp) 0) as [?|Hpos];
    [discriminate Hsched|].
  injection Hsched as <-.
  apply ret_Ok in E as [-> ->]. simpl.
  split; [congruence|]. split.
  - exists (gen s), (gen s0). rewrite Hn1, Hn2, Hn3. auto.
  - repeat split; try reflexivity; lia.
Qed.
End ScriptFacts.

Section MainFacts.
Context `{Python} `{Lightning} `{Torch} `{!Monai} `{FileSystem}.

(** What a run of the script that reached the end has done and built. *)
Lemma main_Ok (argv : list string) (w w' : World) (p : Script.Program) :
  Script.main argv w = (Ok p, w') ->
  let hp := Script.hparams p in
  let dm := Script.datamodule p in
  let images : list string := path_join (HParams.datadir hp) <$>
    [Script.T62020_images; Script.T62022_images; Script.T62021_images] in
  let labels : list string := path_join (HParams.datadir hp) <$>
    [Script.T62020_labels; Script.T62022_labels; Script.T62021_labels] in
  HParams.parse_args argv = Ok hp /\
  (exists prints,
     Forall is_print prints /\
     events w' = events w ++ prints ++
       [ SetDeterminism (HParams.seed hp); SeedEverything 42;
         Fit (HParams.ckpt hp) ]) /\
  gen w' = manual_seed 42 /\
  (exists g1 g2 g3,
     DiffusionModelUNet DDMMLightningModule.unet_config
       (manual_seed (HParams.seed hp `mod` 2 ^ 32))
       = (DDMMLightningModule.noise2space (Script.model p), g1) /\
     DiffusionModelUNet DDMMLightningModule.unet_config g1
       = (DDMMLightningModule.image2label (Script.model p), g2) /\
     DiffusionModelUNet DDMMLightningModule.unet_config g2
       = (DDMMLightningModule.label2image (Script.model p), g3)) /\
  (PairedAndUnpairedDataModule.shape dm = HParams.shape hp /\
   PairedAndUnpairedDataModule.batch_size dm = HParams.batch_size hp /\
   PairedAndUnpairedDataModule.train_samples dm = HParams.train_samples hp /\
   PairedAndUnpairedDataModule.val_samples dm = HParams.val_samples hp /\
   PairedAndUnpairedDataModule.test_samples dm = HParams.test_samples hp) /\
  (PairedAndUnpairedDataModule.train_ssource_dirs dm = images /\
   PairedAndUnpairedDataModule.train_starget_dirs dm = labels /\
   PairedAndUnpairedDataModule.train_usource_dirs dm =
     images ++ (path_join (HParams.datadir hp) <$>
                  [Script.VinDr_train_images; Script.VinDr_test_images]) /\
   PairedAndUnpairedDataModule.train_utarget_dirs dm = labels /\
   PairedAndUnpairedDataModule.val_ssource_dirs dm = images /\
   PairedAndUnpairedDataModule.val_starget_dirs dm = labels /\
   PairedAndUnpairedDataModule.val_usource_dirs dm =
     images ++ [path_join (HParams.datadir hp) Script.VinDr_test_images] /\
   PairedAndUnpairedDataModule.val_utarget_dirs dm = labels /\
   PairedAndUnpairedDataModule.test_ssource_dirs dm = images /\
   PairedAndUnpairedDataModule.test_starget_dirs dm = labels /\
   PairedAndUnpairedDataModule.test_usource_dirs dm =
     images ++ [path_join (HParams.datadir hp) Script.VinDr_test_images] /\
   PairedAndUnpairedDataModule.test_utarget_dirs dm = labels) /\
  (DDMMLightningModule.lr (Script.model p) = HParams.lr hp /\
   DDMMLightningModule.epochs (Script.model p) = HParams.epochs hp /\
   DDMMLightningModule.weight_decay (Script.model p) = HParams.weight_decay hp /\
   DDMMLightningModule.num_timesteps (Script.model p) = HParams.timesteps hp /\
   DDMMLightningModule.timesteps (Script.model p) = HParams.timesteps hp /\
   DDMMLightningModule.batch_size (Script.model p) = HParams.batch_size hp /\
   DDMMLightningModule.shape (Script.model p) = HParams.shape hp /\
   DDMMLightningModule.scheduler (Script.model p)
     = {| num_train_timesteps := HParams.timesteps hp |}) /\
  Script.checkpoint_callback p =
    {| dirpath := HParams.logsdir hp;
       filename := "{epoch:02d}-{validation_loss_epoch:.2f}";
       save_top_k := -1; save_last := true; every_n_epochs := 1 |} /\
  Script.lr_callback p = {| logging_interval := "step" |} /\
  Script.tensorboard_logger p =
    {| save_dir := HParams.logsdir hp; log_graph := true |} /\
  Script.trainer p =
    {| Trainer.args := hp;
       Trainer.max_epochs := HParams.epochs hp;
       Trainer.logger := [Script.tensorboard_logger p];
       Trainer.callbacks :=
         [ OfLearningRateMonitor (Script.lr_callback p);
           OfModelCheckpoint (Script.checkpoint_callback p) ];
       Trainer.strategy := "ddp_sharded" |} /\
  (0 <= HParams.timesteps hp)%Z /\ (-1 <= HParams.epochs hp)%Z.
Proof.
  unfold Script.main. intros Hrun.
  bind_inv Hrun. lift_inv Hstep. rename E into Hparse, a into hp0.
  bind_inv Hrun.
  apply datamodule_init_Ok in Hstep
    as (Hg1 & (prints & Hev1 & Hprints) & Hshape & Hbs & Htr & Hva & Hte & Hdirs).
  bind_inv Hrun. apply reseed_Ok in Hstep as [Hg2 Hev2].
  bind_inv Hrun.
  apply model_init_Ok in Hstep
    as (Hev3 & (g1 & g2 & Hn1 & Hn2 & Hn3) & Hm).
  bind_inv Hrun. apply reseed_Ok in Hstep as [Hg4 Hev4].
  bind_inv Hrun. lift_inv Hstep. rename E into Htrainer.
  unfold Trainer.from_argparse_args in Htrainer.
  destruct (Z.ltb_spec (HParams.epochs hp0) (-1)) as [?|Hepochs];
    [discriminate Htrainer|].
  injection Htrainer as <-.
  bind_inv Hrun. apply emit_Ok in Hstep as [Hg5 Hev5].
  apply ret_Ok in Hrun as [-> ->]. cbn zeta. simpl Script.hparams.
  simpl Script.datamodule. simpl Script.model.
  simpl Script.checkpoint_callback. simpl Script.lr_callback.
  simpl Script.tensorboard_logger. simpl Script.trainer.
  split; [exact Hparse|]. split.
  { exists prints. split; [exact Hprints|].
    rewrite Hev5, Hev4, Hev3, Hev2, Hev1, <- !app_assoc. reflexivity. }
  split; [congruence|]. split.
  { exists g1, g2, (gen s1). rewrite <- Hg2. auto. }
  split; [auto|]. split.
  { injection Hdirs as -> -> -> -> -> -> -> -> -> -> -> ->.
    repeat split; reflexivity. }
  split; [tauto|]. repeat split; try reflexivity; tauto.
Qed.

(** The script reaches [trainer.fit] whenever the command line parses with
    a number of timesteps the scheduler takes and a number of epochs the
    trainer takes. *)
Lemma main_returns (argv : list string) (hp : HParams.t) (w : World) :
  HParams.parse_args argv = Ok hp ->
  (0 <= HParams.timesteps hp)%Z -> (-1 <= HParams.epochs hp)%Z ->
  exists p w', Script.main argv w = (Ok p, w') /\ Script.hparams p = hp.
Proof.
  intros Hparse Hsteps Hepochs.
  cbv [Script.main PairedAndUnpairedDataModule.__init__ PairedAndUnpairedDataModule.glob_files PairedAndUnpairedDataModule.setup
       DDMMLightningModule.__init__ DDPMScheduler__init__
       Trainer.from_argparse_args bind lift emit ret draw reseed gen events].
  rewrite Hparse.
  destruct (DiffusionModelUNet DDMMLightningModule.unet_config
              (manual_seed (HParams.seed hp `mod` 2 ^ 32))) as [n1 g1].
  destruct (DiffusionModelUNet DDMMLightningModule.unet_config g1) as [n2 g2].
  destruct (DiffusionModelUNet DDMMLightningModule.unet_config g2) as [n3 g3].
  destruct (Z.ltb_spec (HParams.timesteps hp) 0) as [?|_]; [lia|].
  destruct (Z.ltb_spec (HParams.epochs hp) (-1)) as [?|_]; [lia|].
  eexists _, _. split; reflexivity.
Qed.

(** A failed parse ends the script with the parser's exception. *)
Lemma main_parse_error (argv : list string) (e : PyErr) (w : World) :
  HParams.parse_args argv = Raise e -> Script.main argv w = (Raise e, w).
Proof.
  intros Hparse. unfold Script.main. apply bind_Raise.
  unfold lift. rewrite Hparse. reflexivity.
Qed.
End MainFacts.

(** ** The command line *)

Section ParseFacts.
Context `{Python} `{Lightning}.

(** Every attribute of the namespace is the converted value its flag was
    given last, or the default of its [add_argument]. *)
Lemma parse_args_Ok (argv : list string) (hp : HParams.t) :
  HParams.parse_args argv = Ok hp ->
  exists ps : list (string * string),
    HParams.pairs argv = Ok ps /\
    HParams.argument py_int 42%Z ps "--seed" = Ok (HParams.seed hp) /\
    HParams.argument py_int 100%Z ps "--timesteps" = Ok (HParams.timesteps hp) /\
    HParams.argument py_int 8%Z ps "--batch_size" = Ok (HParams.batch_size hp) /\
    HParams.argument py_int 256%Z ps "--shape" = Ok (HParams.shape hp) /\
    HParams.argument py_int 40000%Z ps "--train_samples"
      = Ok (HParams.train_samples hp) /\
    HParams.argument py_int 8000%Z ps "--val_samples"
      = Ok (HParams.val_samples hp) /\
    HParams.argument py_int 4000%Z ps "--test_samples"
      = Ok (HParams.test_samples hp) /\
    HParams.argument HParams.str "logs" ps "--logsdir"
      = Ok (HParams.logsdir hp) /\
    HParams.argument HParams.str "data" ps "--datadir"
      = Ok (HParams.datadir hp) /\
    HParams.argument py_int 31%Z ps "--epochs" = Ok (HParams.epochs hp) /\
    HParams.argument py_float float_1e_4 ps "--lr" = Ok (HParams.lr hp) /\
    HParams.argument HParams.str_or_none None ps "--ckpt"
      = Ok (HParams.ckpt hp) /\
    HParams.argument py_float float_1e_4 ps "--weight_decay"
      = Ok (HParams.weight_decay hp).
Proof.
  unfold HParams.parse_args. intros Hp.
  apply res_bind_Ok in Hp as (ps & Hps & Hp). exists ps.
  split; [exact Hps|].
  repeat (let x := fresh "x" in
          let Hx := fresh "Hx" in
          apply res_bind_Ok in Hp as (x & Hx & Hp)).
  injection Hp as <-. simpl. repeat split; assumption.
Qed.

Lemma parse_args_defaults :
  HParams.parse_args [] =
  Ok {| HParams.seed := 42; HParams.timesteps := 100;
        HParams.batch_size := 8; HParams.shape := 256;
        HParams.train_samples := 40000; HParams.val_samples := 8000;
        HParams.test_samples := 4000; HParams.logsdir := "logs";
        HParams.datadir := "data"; HParams.epochs := 31;
        HParams.lr := float_1e_4; HParams.ckpt := None;
        HParams.weight_decay := float_1e_4; HParams.trainer_args := [] |}.
Proof. reflexivity. Qed.

(** The command line [--seed 7]. *)
Lemma parse_args_seed_7 :
  exists hp, HParams.parse_args ["--seed"; "7"] = Ok hp /\
             HParams.seed hp = 7%Z /\ HParams.ckpt hp = None /\
             HParams.timesteps hp = 100%Z /\ HParams.epochs hp = 31%Z.
Proof. eexists. split; [reflexivity|]. repeat split; reflexivity. Qed.




Lemma classify_own_flag (flag : string) :
  flag ∈ HParams.own_flags -> HParams.classify flag = HParams.Flag flag None.
Proof.
  unfold HParams.own_flags. rewrite !elem_of_cons, elem_of_nil.
  intros Hin.
  repeat (destruct Hin as [->|Hin]; [reflexivity|]). destruct Hin.
Qed.

Lemma classify_plain_value (v : string) :
  String.prefix "-" v = false -> HParams.classify v = HParams.Positional.
Proof.
  intros Hv. unfold HParams.classify.
  destruct (bool_decide (v = "")); [reflexivity|]. rewrite Hv. reflexivity.
Qed.

Lemma own_flag_not_separator (flag : string) :
  flag ∈ HParams.own_flags -> bool_decide (flag = "--") = false.
Proof.
  unfold HParams.own_flags. rewrite !elem_of_cons, elem_of_nil.
  intros Hin.
  repeat (destruct Hin as [->|Hin]; [reflexivity|]). destruct Hin.
Qed.

Lemma plain_value_not_separator (v : string) :
  String.prefix "-" v = false -> bool_decide (v = "--") = false.
Proof.
  intros Hv. apply bool_decide_eq_false. intros ->. discriminate Hv.
Qed.


End ParseFacts.

Section ScriptClaims.
Context `{Python} `{Lightning} `{Torch} `{!Monai} `{FileSystem}.

(** C6.  On the command line [--seed 7] the script runs to [trainer.fit];
    the data module's determinism setup is called with 7, the seed given,
    but the global seeding that follows is [seed_everything(42)]: the
    events of the run end with [set_determinism(7)], [seed_everything(42)]
    and the fit, no event seeds everything with 7, and torch's generator
    when training starts is the one seeded with 42. *)
Theorem seed_everything_ignores_seed (w : World) :
  exists (p : Script.Program) (w' : World) (prints : list Event),
    Script.main ["--seed"; "7"] w = (Ok p, w') /\
    HParams.seed (Script.hparams p) = 7%Z /\
    Forall is_print prints /\
    events w' = events w ++ prints ++
      [SetDeterminism 7; SeedEverything 42; Fit None] /\
    (SeedEverything 7 ∉
       prints ++ [SetDeterminism 7; SeedEverything 42; Fit None]) /\
    gen w' = manual_seed 42.
Proof.
  destruct parse_args_seed_7 as (hp & Hparse & Hseed & Hckpt & Hsteps & Hep).
  destruct (main_returns _ _ w Hparse) as (p & w' & Hrun & Hhp);
    [lia | lia |].
  destruct (main_Ok _ _ _ _ Hrun) as (_ & (prints & Hpr & Hev) & Hgen & _).
  rewrite Hhp, Hseed, Hckpt in Hev.
  exists p, w', prints. rewrite Hhp.
  repeat split; try assumption.
  intros Hin. apply elem_of_app in Hin as [Hin|Hin].
  - rewrite Forall_forall in Hpr. destruct (Hpr _ Hin) as [x Hx].
    discriminate.
  - repeat (apply elem_of_cons in Hin as [Hin|Hin]; [discriminate|]).
    inversion Hin.
Qed.


(** C9.  A run that reaches [trainer.fit] has given the trainer a checkpoint
    callback that saves every epoch ([every_n_epochs] 1), keeps every
    checkpoint ([save_top_k] -1), also saves the last one, and writes into
    the directory that [--logsdir] names on the command line ([logs] when
    the flag is absent). *)
Theorem checkpoint_every_epoch_into_logsdir
    (argv : list string) (w w' : World) (p : Script.Program) :
  Script.main argv w = (Ok p, w') ->
  let c := Script.checkpoint_callback p in
  OfModelCheckpoint c ∈ Trainer.callbacks (Script.trainer p) /\
  every_n_epochs c = 1%Z /\ save_top_k c = (-1)%Z /\ save_last c = true /\
  dirpath c = HParams.logsdir (Script.hparams p) /\
  exists ps : list (string * string),
    HParams.pairs argv = Ok ps /\
    HParams.argument HParams.str "logs" ps "--logsdir" = Ok (dirpath c).
Proof.
  intros Hrun.
  destruct (main_Ok _ _ _ _ Hrun)
    as (Hparse & _ & _ & _ & _ & _ & _ & Hcc & _ & _ & Htr & _).
  cbn zeta. rewrite Htr, Hcc. simpl.
  split; [apply list_elem_of_further, list_elem_of_here|].
  repeat split.
  apply parse_args_Ok in Hparse as (ps & Hps & Hrest).
  exists ps. tauto.
Qed.
End ScriptClaims.

(** ** The script body on concrete inputs *)

Lemma toy_parse_args :
  @HParams.parse_args Toy.python Toy.lightning
    ["--logsdir"; "out"; "--epochs"; "3"] =
  Ok {| HParams.seed := 42; HParams.timesteps := 100;
        HParams.batch_size := 8; HParams.shape := 256;
        HParams.train_samples := 40000; HParams.val_samples := 8000;
        HParams.test_samples := 4000; HParams.logsdir := "out";
        HParams.datadir := "data"; HParams.epochs := 3;
        HParams.lr := "1e-4" : @Float Toy.python; HParams.ckpt := None;
        HParams.weight_decay := "1e-4" : @Float Toy.python;
        HParams.trainer_args := [] |}.
Proof. vm_compute. reflexivity. Qed.

(** The toy run on [--logsdir out --epochs 3] reaches the end. *)
Lemma toy_main_runs :
  exists p w',
    @Script.main Toy.python Toy.lightning Toy.torch Toy.fs
      ["--logsdir"; "out"; "--epochs"; "3"] Toy.world0 = (Ok p, w') /\
    HParams.logsdir (Script.hparams p) = "out" /\
    HParams.epochs (Script.hparams p) = 3%Z.
Proof.
  destruct (@main_returns Toy.python Toy.lightning Toy.torch Toy.fs
              _ _ Toy.world0 toy_parse_args) as (p & w' & Hrun & Hhp);
    [simpl; lia | simpl; lia |].
  exists p, w'. split; [exact Hrun|]. rewrite Hhp. split; reflexivity.
Qed.


Lemma checkpoint_every_epoch_into_logsdir_witness :
  exists p w',
    @Script.main Toy.python Toy.lightning Toy.torch Toy.fs
      ["--logsdir"; "out"; "--epochs"; "3"] Toy.world0 = (Ok p, w') /\
    dirpath (Script.checkpoint_callback p) = "out" /\
    every_n_epochs (Script.checkpoint_callback p) = 1%Z.
Proof.
  destruct toy_main_runs as (p & w' & Hrun & Hlogs & _). exists p, w'.
  split; [exact Hrun|].
  destruct (checkpoint_every_epoch_into_logsdir _ _ _ _ Hrun)
    as (_ & Hevery & _ & _ & Hdir & _).
  split; [|exact Hevery]. rewrite Hdir. exact Hlogs.
Defined.

(** ** The training step *)

Section StepFacts.
Context `{Python} `{Torch}.
Implicit Types (self : DDMMLightningModule.t) (w : World) (batch : gmap string Tensor).

Lemma batch_getitem_Ok batch (k : string) (x : Tensor) :
  DDMMLightningModule.batch_getitem batch k = Ok x -> batch !! k = Some x.
Proof.
  unfold DDMMLightningModule.batch_getitem. destruct (batch !! k); [|discriminate].
  intros [= ->]. reflexivity.
Qed.

(** A pass of the sampling loop draws from the generator and has no other
    effect on the world. *)
Lemma denoise_body_events self (c1 c2 c3 c4 : Tensor)
    (samples samples' : Tensor * Tensor * Tensor * Tensor) (t : Z) w w' :
  DDMMLightningModule.denoise_body self c1 c2 c3 c4 samples t w = (Ok samples', w') ->
  events w' = events w.
Proof.
  destruct samples as [[[a b] c] d]. unfold DDMMLightningModule.denoise_body. intros E.
  bind_inv E. lift_inv Hstep.
  bind_inv E. lift_inv Hstep.
  bind_inv E. apply draw_res_Ok in Hstep as [_ He1].
  bind_inv E. apply draw_res_Ok in Hstep as [_ He2].
  bind_inv E. lift_inv Hstep.
  bind_inv E. lift_inv Hstep.
  bind_inv E. apply draw_res_Ok in Hstep as [_ He3].
  bind_inv E. apply draw_res_Ok in Hstep as [_ He4].
  apply ret_Ok in E as [_ ->]. congruence.
Qed.

(** A loop whose body keeps the events keeps them. *)
Lemma for_each_events {A B} (body : A -> B -> M World A) (l : list B) :
  (forall a x w w' a', body a x w = (Ok a', w') -> events w' = events w) ->
  forall (a a' : A) w w',
    for_each l a body w = (Ok a', w') -> events w' = events w.
Proof.
  intros Hbody. induction l as [|x l IH]; intros a a' w w' E; simpl in E.
  - apply ret_Ok in E as [_ ->]. reflexivity.
  - bind_inv E. apply Hbody in Hstep. apply IH in E. congruence.
Qed.

(** What a step that returned has computed. *)
Lemma common_step_Ok self batch (batch_idx optimizer_idx : Z) (stage : string)
    w w' (info : gmap string Tensor) :
  DDMMLightningModule._common_step self batch batch_idx optimizer_idx stage w = (Ok info, w') ->
  exists (source target images labels : Tensor)
         (timesteps noise noisy_source noisy_target : Tensor)
         (noise_source_pred noise_target_pred : Tensor)
         (class_prob : Tensor)
         (sample_source sample_target sample_prev sample_next : Tensor)
         (sample_prev_pred sample_next_pred : Tensor)
         (l_source l_target l_prev l_next : Tensor)
         (w0 w1 : World),
    let class_source := torch_zeros (shape0 source) in
    let class_target := torch_ones (shape0 source) in
    let class_prev := to_int (mul_int class_prob (DDMMLightningModule.num_timesteps self)) in
    let class_next := add_int class_prev 1 in
    let super_loss := tadd (radd_int 0 l_source) l_target in
    let unsup_loss := tadd (radd_int 0 l_prev) l_next in
    (batch !! "source" = Some source /\ batch !! "target" = Some target /\
     batch !! "images" = Some images /\ batch !! "labels" = Some labels) /\
    (add_noise (DDMMLightningModule.scheduler self) source noise timesteps = Ok noisy_source /\
     add_noise (DDMMLightningModule.scheduler self) target noise timesteps = Ok noisy_target /\
     forward (DDMMLightningModule.noise2space self) noisy_source timesteps (Some class_source)
       = Ok noise_source_pred /\
     forward (DDMMLightningModule.noise2space self) noisy_target timesteps (Some class_target)
       = Ok noise_target_pred /\
     L1Loss noise noise_source_pred = Ok l_source /\
     L1Loss noise noise_target_pred = Ok l_target) /\
    (for_each (range (DDMMLightningModule.num_timesteps self)) (noise, noise, noise, noise)
       (DDMMLightningModule.denoise_body self class_source class_target class_prev class_next)
       w0 = (Ok (sample_source, sample_target, sample_prev, sample_next), w1) /\
     forward (DDMMLightningModule.image2label self) sample_prev class_prev None
       = Ok sample_prev_pred /\
     forward (DDMMLightningModule.label2image self) sample_next class_next None
       = Ok sample_next_pred /\
     L1Loss sample_prev sample_prev_pred = Ok l_prev /\
     L1Loss sample_next sample_next_pred = Ok l_next) /\
    info = {[ "loss" := tadd super_loss unsup_loss ]} /\
    exists image_events : list Event,
      events w' = events w ++
        [ Log (stage +:+ "_super_loss") super_loss
            (bool_decide (stage = "train")) (DDMMLightningModule.batch_size self);
          Log (stage +:+ "_unsup_loss") unsup_loss
            (bool_decide (stage = "train")) (DDMMLightningModule.batch_size self) ] ++
        image_events /\
      Forall (fun e => exists tag img step, e = AddImage tag img step)
        image_events.
Proof.
  unfold DDMMLightningModule._common_step. intros E.
  bind_inv E. lift_inv Hstep. apply batch_getitem_Ok in E0. rename a into source.
  bind_inv E. lift_inv Hstep. apply batch_getitem_Ok in E1. rename a into target.
  bind_inv E. lift_inv Hstep. apply batch_getitem_Ok in E2. rename a into images.
  bind_inv E. lift_inv Hstep. apply batch_getitem_Ok in E3. rename a into labels.
  bind_inv E. apply draw_res_Ok in Hstep as [_ Hev1]. rename a into timesteps.
  bind_inv E. apply draw_Ok in Hstep as [_ Hev2]. rename a into noise.
  bind_inv E. lift_inv Hstep. rename a into noisy_source, E4 into Hns.
  bind_inv E. lift_inv Hstep. rename a into noisy_target, E4 into Hnt.
  bind_inv E. lift_inv Hstep. rename a into nsp, E4 into Hnsp.
  bind_inv E. lift_inv Hstep. rename a into ntp, E4 into Hntp.
  bind_inv E. lift_inv Hstep. rename a into l_source, E4 into Hls.
  bind_inv E. lift_inv Hstep. rename a into l_target, E4 into Hlt.
  bind_inv E. apply draw_Ok in Hstep as [_ Hev3]. rename a into class_prob.
  bind_inv E. rename Hstep into Hloop.
  destruct a as [[[sample_source sample_target] sample_prev] sample_next].
  pose proof (for_each_events _ _
                (fun a x w w' a' => denoise_body_events self _ _ _ _ a a' x w w')
                _ _ _ _ Hloop) as Hev4.
  bind_inv E. lift_inv Hstep. rename a into spp, E4 into Hspp.
  bind_inv E. lift_inv Hstep. rename a into snp, E4 into Hsnp.
  bind_inv E. lift_inv Hstep. rename a into l_prev, E4 into Hlp.
  bind_inv E. lift_inv Hstep. rename a into l_next, E4 into Hln.
  bind_inv E. apply emit_Ok in Hstep as [_ Hev5].
  bind_inv E. apply emit_Ok in Hstep as [_ Hev6].
  bind_inv E. rename Hstep into Hviz.
  apply ret_Ok in E as [-> ->].
  exists source, target, images, labels, timesteps, noise, noisy_source,
    noisy_target, nsp, ntp, class_prob, sample_source, sample_target,
    sample_prev, sample_next, spp, snp, l_source, l_target, l_prev, l_next.
  eexists _, _. cbn zeta.
  split; [auto|]. split; [auto 10|].
  split; [split; [exact Hloop | auto]|].
  split; [reflexivity|].
  rewrite Hev5, Hev4, Hev3, Hev2, Hev1, <- app_assoc in Hev6.
  simpl in Hev6. rename Hev6 into Hbase.
  destruct (bool_decide (stage = "train") && (batch_idx `mod` 10 =? 0)%Z).
  - bind_inv Hviz. lift_inv Hstep.
    bind_inv Hviz. lift_inv Hstep.
    bind_inv Hviz. lift_inv Hstep.
    apply emit_Ok in Hviz as [_ Hev7].
    eexists [_]. rewrite Hev7, Hbase, <- !app_assoc. split; [reflexivity|].
    constructor; [eauto | constructor].
  - apply ret_Ok in Hviz as [_ ->]. exists [].
    rewrite Hbase, app_nil_r. split; [reflexivity | constructor].
Qed.
End StepFacts.

Section StepClaims.
Context `{Python} `{Torch} `{!Monai}.
Implicit Types (self : DDMMLightningModule.t) (w : World) (batch : gmap string Tensor).

End StepClaims.

(** The toy step: losses 28 and 50. *)
Lemma toy_common_step :
  fst (@DDMMLightningModule._common_step Toy.python Toy.torch Toy.ddmm Toy.batch 0 0 "train"
         Toy.world0)
  = Ok ({[ "loss" := 78%Z ]} : gmap string Z).
Proof. reflexivity. Qed.


(** ** The toy generator *)

(** The toy generator keeps what NumPy documents. *)
Lemma toy_lcg_laws : @RandomStateLaws Toy.lcg.
Proof.
  split; simpl.
  - intros n [Hlo Hhi]. exists n.
    destruct (Z.leb_spec 0 n) as [_|?]; [|lia].
    destruct (Z.ltb_spec n (2 ^ 32)) as [_|?]; [|lia]. reflexivity.
  - intros n Hn.
    destruct (Z.leb_spec 0 n) as [?|_]; [|reflexivity].
    destruct (Z.ltb_spec n (2 ^ 32)) as [?|_]; [|reflexivity].
    exfalso. apply Hn. lia.
  - intros lo hi r Hlo _.
    destruct (Z.leb_spec hi lo) as [?|_]; [lia|].
    eexists _, _. split; [reflexivity|].
    pose proof (Z.mod_pos_bound r (hi - lo)). lia.
  - intros lo hi r Hle.
    destruct (Z.leb_spec hi lo) as [_|?]; [reflexivity | lia].
Qed.

(** ** Python lists, again *)

Lemma py_getitem_Raise {A} (l : list A) (i : Z) (e : PyErr) :
  py_getitem l i = Raise e -> e = IndexError.
Proof.
  unfold py_getitem. destruct (_ <? 0)%Z; [intros [= <-]; reflexivity|].
  destruct (l !! _); [discriminate|]. intros [= <-]. reflexivity.
Qed.

Lemma py_getitem_beyond {A} (l : list A) (i : Z) :
  (len l <= i)%Z -> py_getitem l i = Raise IndexError.
Proof.
  intros Hi. unfold py_getitem, len in *.
  destruct (Z.ltb_spec i 0) as [?|_]; [lia|].
  destruct (Z.ltb_spec i 0) as [?|_]; [lia|].
  rewrite (proj2 (lookup_ge_None l (Z.to_nat i))) by lia. reflexivity.
Qed.

Lemma py_getitem_nonneg {A} (l : list A) (i : Z) (x : A) :
  (0 <= i)%Z -> py_getitem l i = Ok x -> l !! Z.to_nat i = Some x.
Proof.
  intros Hi. unfold py_getitem.
  destruct (Z.ltb_spec i 0) as [?|_]; [lia|].
  destruct (Z.ltb_spec i 0) as [?|_]; [lia|].
  destruct (l !! Z.to_nat i); [|discriminate]. intros [= ->]. reflexivity.
Qed.

(** A literal index that was found tells how long the list is. *)
Lemma py_getitem_length {A} (l : list A) (i : Z) (x : A) :
  (0 <= i)%Z -> py_getitem l i = Ok x -> (Z.to_nat i < length l)%nat.
Proof.
  intros Hi Hx. apply py_getitem_nonneg in Hx; [|exact Hi].
  apply lookup_lt_Some in Hx. exact Hx.
Qed.

(** ** The dataset, beyond the claims *)

Section DatasetExtras.
Context `{RandomStateLaws} {V TS : Type}.
Implicit Types (self : @PairedAndUnpairedDataset.t V TS)
  (s : @PairedAndUnpairedDataset.Store _ TS).

(** A draw that returned lies in its range. *)
Lemma randint_in_range (hi : Z) (r r' : RandomState) (x : Z) :
  (hi < 2 ^ 63)%Z -> rs_randint 0 hi r = (Ok x, r') -> (0 <= x < hi)%Z.
Proof.
  intros Hhi Hx. destruct (Z.le_gt_cases hi 0) as [Hle|Hgt].
  - rewrite rs_randint_empty in Hx by exact Hle. discriminate.
  - destruct (rs_randint_ok 0 hi r) as (v & r1 & Hv & Hr); [lia|lia|].
    rewrite Hv in Hx. injection Hx as <- _. exact Hr.
Qed.

(** X1.  With NumPy's range guarantee, a selection that returns has read
    each entry at a position inside its stream, and the two members of the
    pair at the same position of the first and the second stream: no index
    wraps around to count from the end. *)
Theorem selection_within_streams self (index : Z) s s'
    (d : @PairedAndUnpairedDataset.Item V) :
  Forall (fun st => (len st < 2 ^ 63)%Z) (PairedAndUnpairedDataset.data self) ->
  PairedAndUnpairedDataset._transform_select self index s = (Ok d, s') ->
  exists (k0 k1 k2 k3 : string) (s0 s1 s2 s3 : list V) (i j k : nat)
         (v0 v1 v2 v3 : V),
    PairedAndUnpairedDataset.keys self !! 0%nat = Some k0 /\
    PairedAndUnpairedDataset.keys self !! 1%nat = Some k1 /\
    PairedAndUnpairedDataset.keys self !! 2%nat = Some k2 /\
    PairedAndUnpairedDataset.keys self !! 3%nat = Some k3 /\
    PairedAndUnpairedDataset.data self !! 0%nat = Some s0 /\
    PairedAndUnpairedDataset.data self !! 1%nat = Some s1 /\
    PairedAndUnpairedDataset.data self !! 2%nat = Some s2 /\
    PairedAndUnpairedDataset.data self !! 3%nat = Some s3 /\
    s0 !! i = Some v0 /\ s1 !! i = Some v1 /\
    s2 !! j = Some v2 /\ s3 !! k = Some v3 /\
    d = <[k3 := v3]> (<[k2 := v2]> (<[k1 := v1]> (<[k0 := v0]> ∅))).
Proof.
  intros Hsmall Hrun.
  apply select_Ok in Hrun
    as (k0 & k1 & k2 & k3 & q0 & q1 & q2 & q3 & x & y & z &
        r0 & r1 & r2 & r3 & v0 & v1 & v2 & v3 &
        (Hk0 & Hk1 & Hk2 & Hk3) & (Hq0 & Hq1 & Hq2 & Hq3) &
        (_ & Hx & Hy & Hz) & (Hv0 & Hv1 & Hv2 & Hv3) & Hd & _).
  apply py_getitem_nonneg in Hk0, Hk1, Hk2, Hk3, Hq0, Hq1, Hq2, Hq3; try lia.
  rewrite Forall_lookup in Hsmall.
  apply randint_in_range in Hx; [|exact (Hsmall _ _ Hq0)].
  apply randint_in_range in Hy; [|exact (Hsmall _ _ Hq2)].
  apply randint_in_range in Hz; [|exact (Hsmall _ _ Hq3)].
  apply py_getitem_nonneg in Hv0, Hv1, Hv2, Hv3; try lia.
  exists k0, k1, k2, k3, q0, q1, q2, q3, (Z.to_nat x), (Z.to_nat y),
    (Z.to_nat z), v0, v1, v2, v3.
  repeat split; assumption.
Qed.

(** X2.  An index NumPy refuses as a seed (negative, or 2^32 and above) ends
    [_transform] with [ValueError] before anything is drawn, and the
    dataset's state is as before. *)
Theorem transform_refuses_bad_seed self (index : Z) s :
  ~ (0 <= index < 2 ^ 32)%Z ->
  PairedAndUnpairedDataset._transform self index s = (Raise ValueError, s).
Proof.
  intros Hidx. unfold PairedAndUnpairedDataset._transform,
    PairedAndUnpairedDataset._transform_select.
  apply bind_Raise, bind_Raise. unfold PairedAndUnpairedDataset.R_seed.
  rewrite (rs_seed_out_of_range index Hidx). reflexivity.
Qed.
End DatasetExtras.

Section DatasetShape.
Context `{NumpyRandomState} {V TS : Type}.
Implicit Types (self : @PairedAndUnpairedDataset.t V TS)
  (s : @PairedAndUnpairedDataset.Store _ TS).

(** X3.  [_transform] never returns an item from a dataset with fewer than
    four keys or fewer than four data streams: it raises. *)
Theorem transform_needs_four self (index : Z) s :
  (length (PairedAndUnpairedDataset.keys self) < 4 \/
   length (PairedAndUnpairedDataset.data self) < 4)%nat ->
  exists e, raises (PairedAndUnpairedDataset._transform self index) s e.
Proof.
  intros Hshort. unfold raises.
  destruct (PairedAndUnpairedDataset._transform self index s)
    as [[item|e] s'] eqn:Hrun; [|exists e; reflexivity].
  exfalso. unfold PairedAndUnpairedDataset._transform in Hrun.
  bind_inv Hrun.
  apply select_Ok in Hstep
    as (k0 & k1 & k2 & k3 & q0 & q1 & q2 & q3 & x & y & z &
        r0 & r1 & r2 & r3 & v0 & v1 & v2 & v3 &
        (_ & _ & _ & Hk3) & (_ & _ & _ & Hq3) & _).
  apply py_getitem_length in Hk3; [|lia].
  apply py_getitem_length in Hq3; [|lia].
  simpl in Hk3, Hq3. lia.
Qed.

(** X4.  When the first draw lands at or beyond the end of the second
    stream (the label stream is shorter than the image stream), the item
    is not built: [_transform] raises [IndexError]. *)
Theorem transform_short_second_stream self (index : Z) s
    (s0 s1 : list V) (rest : list (list V)) (r0 r1 : RandomState) (x : Z) :
  PairedAndUnpairedDataset.data self = s0 :: s1 :: rest ->
  rs_seed index = Ok r0 ->
  rs_randint 0 (len s0) r0 = (Ok x, r1) ->
  (len s1 <= x)%Z ->
  raises (PairedAndUnpairedDataset._transform self index) s IndexError.
Proof.
  intros Hdata Hseed Hx Hshort.
  unfold raises, PairedAndUnpairedDataset._transform,
    PairedAndUnpairedDataset._transform_select.
  rewrite Hdata.
  unfold bind, lift, PairedAndUnpairedDataset.R_seed,
    PairedAndUnpairedDataset.R_randint.
  rewrite Hseed. simpl. rewrite Hx. simpl.
  destruct (py_getitem s0 x) as [v0|e] eqn:Hv0;
    [|apply py_getitem_Raise in Hv0 as ->; reflexivity].
  destruct (py_getitem (PairedAndUnpairedDataset.keys self) 0) as [k0|e] eqn:Hk0;
    [|apply py_getitem_Raise in Hk0 as ->; reflexivity].
  rewrite (py_getitem_beyond s1 x Hshort). reflexivity.
Qed.

(** X5.  A selection reads the first four keys and the first four streams.
    The entry for each stream is the one at the index drawn for it, the
    first draw serving the first two streams, and the dictionary is the
    empty one with the four entries written in the order of the streams.
    So it holds the four keys and no other, and where keys repeat the entry
    of the later stream is the one that stays: the last key always holds
    the entry of the fourth stream, and an earlier key holds its own
    stream's entry exactly when no later key equals it. *)
Theorem selection_keys self (index : Z) s s'
    (d : @PairedAndUnpairedDataset.Item V) :
  PairedAndUnpairedDataset._transform_select self index s = (Ok d, s') ->
  exists (k0 k1 k2 k3 : string) (s0 s1 s2 s3 : list V)
         (rand_idx rand_idy rand_idz : Z) (r0 r1 r2 r3 : RandomState)
         (v0 v1 v2 v3 : V),
    take 4 (PairedAndUnpairedDataset.keys self) = [k0; k1; k2; k3] /\
    take 4 (PairedAndUnpairedDataset.data self) = [s0; s1; s2; s3] /\
    (rs_seed index = Ok r0 /\
     rs_randint 0 (len s0) r0 = (Ok rand_idx, r1) /\
     rs_randint 0 (len s2) r1 = (Ok rand_idy, r2) /\
     rs_randint 0 (len s3) r2 = (Ok rand_idz, r3)) /\
    (py_getitem s0 rand_idx = Ok v0 /\
     py_getitem s1 rand_idx = Ok v1 /\
     py_getitem s2 rand_idy = Ok v2 /\
     py_getitem s3 rand_idz = Ok v3) /\
    d = <[k3 := v3]> (<[k2 := v2]> (<[k1 := v1]> (<[k0 := v0]> ∅))) /\
    dom d = ({[k0; k1; k2; k3]} : gset string) /\
    d !! k3 = Some v3 /\
    d !! k2 = Some (if decide (k2 = k3) then v3 else v2) /\
    d !! k1 = Some (if decide (k1 = k3) then v3
                    else if decide (k1 = k2) then v2 else v1) /\
    d !! k0 = Some (if decide (k0 = k3) then v3
                    else if decide (k0 = k2) then v2
                    else if decide (k0 = k1) then v1 else v0).
Proof.
  intros Hrun.
  apply select_Ok in Hrun
    as (k0 & k1 & k2 & k3 & q0 & q1 & q2 & q3 & x & y & z &
        r0 & r1 & r2 & r3 & v0 & v1 & v2 & v3 &
        (Hk0 & Hk1 & Hk2 & Hk3) & (Hq0 & Hq1 & Hq2 & Hq3) & Hdraws & Hvals &
        -> & _).
  apply py_getitem_nonneg in Hk0, Hk1, Hk2, Hk3, Hq0, Hq1, Hq2, Hq3; try lia.
  exists k0, k1, k2, k3, q0, q1, q2, q3, x, y, z, r0, r1, r2, r3,
    v0, v1, v2, v3.
  change (Z.to_nat 0) with 0%nat in Hk0, Hq0.
  change (Z.to_nat 1) with 1%nat in Hk1, Hq1.
  change (Z.to_nat 2) with 2%nat in Hk2, Hq2.
  change (Z.to_nat 3) with 3%nat in Hk3, Hq3.
  split.
  { destruct (PairedAndUnpairedDataset.keys self) as [|a [|b [|c [|e l]]]];
      cbn in *; try discriminate.
    repeat match goal with
           | Hk : Some _ = Some _ |- _ => injection Hk as ->
           end.
    reflexivity. }
  split.
  { destruct (PairedAndUnpairedDataset.data self) as [|a [|b [|c [|e l]]]];
      cbn in *; try discriminate.
    repeat match goal with
           | Hk : Some _ = Some _ |- _ => injection Hk as ->
           end.
    reflexivity. }
  split; [exact Hdraws|]. split; [exact Hvals|]. split; [reflexivity|].
  split.
  { unfold PairedAndUnpairedDataset.Item.
    rewrite !dom_insert_L, dom_empty_L. apply set_eq. intros k.
    rewrite !elem_of_union, !elem_of_singleton, elem_of_empty. tauto. }
  unfold PairedAndUnpairedDataset.Item.
  repeat split; rewrite ?lookup_insert, ?lookup_empty;
    repeat case_decide; congruence.
Qed.

(** X23.  When the transform raises on the selected entries (a file that
    cannot be read, a shape that does not fit), what comes out of
    [_transform] is the [RuntimeError] that MONAI's [apply_transform]
    raises from the transform's exception; an exit of the interpreter is
    passed on as it is.  The generator stays where the draws left it. *)
Theorem transform_failure_is_chained self (index : Z) s s1
    (d : @PairedAndUnpairedDataset.Item V)
    (f : PairedAndUnpairedDataset.Transform) (e : PyErr) (ts : TS) :
  PairedAndUnpairedDataset._transform_select self index s = (Ok d, s1) ->
  PairedAndUnpairedDataset.transform self = Some f ->
  f d (PairedAndUnpairedDataset.tstate s1) = (Raise e, ts) ->
  PairedAndUnpairedDataset._transform self index s
  = (Raise (match e with
            | SystemExit code => SystemExit code
            | _ => RuntimeErrorFrom e
            end),
     {| PairedAndUnpairedDataset.R := PairedAndUnpairedDataset.R s1;
        PairedAndUnpairedDataset.tstate := ts |}).
Proof.
  intros Hsel Htr Hf. unfold PairedAndUnpairedDataset._transform.
  rewrite (bind_step _ _ _ _ _ Hsel), Htr.
  unfold PairedAndUnpairedDataset.apply_transform. rewrite Hf.
  destruct e; reflexivity.
Qed.
End DatasetShape.

(** ** The dataset, beyond the claims, on concrete inputs *)

Lemma selection_within_streams_witness :
  exists (d : gmap string string) (i : nat) (v0 v1 : string),
    fst (PairedAndUnpairedDataset._transform_select (Toy.ds None) 5 Toy.store0)
      = Ok d /\
    ["s0"; "s1"; "s2"] !! i = Some v0 /\ ["t0"; "t1"; "t2"] !! i = Some v1.
Proof.
  destruct (PairedAndUnpairedDataset._transform_select (Toy.ds None) 5
              Toy.store0) as [[d|e] s'] eqn:Hrun.
  2:{ apply (f_equal fst) in Hrun. discriminate Hrun. }
  assert (Hsmall : Forall (fun st : list string => (len st < 2 ^ 63)%Z)
                     (PairedAndUnpairedDataset.data (Toy.ds None))).
  { repeat (constructor; [unfold len; simpl; lia|]). constructor. }
  destruct (@selection_within_streams Toy.lcg toy_lcg_laws _ _ _ _ _ _ _
              Hsmall Hrun)
    as (k0 & k1 & k2 & k3 & q0 & q1 & q2 & q3 & i & j & k &
        v0 & v1 & v2 & v3 & _ & _ & _ & _ & Hq0 & Hq1 & _ & _ &
        Hv0 & Hv1 & _).
  injection Hq0 as <-. injection Hq1 as <-.
  exists d, i, v0, v1. repeat split; assumption.
Defined.

Lemma transform_refuses_bad_seed_witness :
  PairedAndUnpairedDataset._transform (Toy.ds None) (-1) Toy.store0
  = (Raise ValueError, Toy.store0).
Proof.
  apply (@transform_refuses_bad_seed Toy.lcg toy_lcg_laws). lia.
Defined.

Lemma transform_needs_four_witness :
  exists e,
    raises (@PairedAndUnpairedDataset._transform Toy.lcg _ _
              ToyMore.ds_three_streams 5) Toy.store0 e.
Proof. apply transform_needs_four. right. simpl. lia. Defined.

Lemma transform_short_second_stream_witness :
  raises (@PairedAndUnpairedDataset._transform Toy.lcg _ _
            ToyMore.ds_short_labels 5) Toy.store0 IndexError.
Proof.
  eapply (@transform_short_second_stream Toy.lcg string unit
            ToyMore.ds_short_labels 5 Toy.store0 ["s0"; "s1"; "s2"] ["t0"]
            [["i0"]; ["l0"]]);
    [reflexivity | reflexivity | reflexivity | vm_compute; discriminate].
Defined.

Lemma selection_keys_witness :
  exists d : gmap string string,
    fst (PairedAndUnpairedDataset._transform_select (Toy.ds None) 5 Toy.store0)
      = Ok d /\
    dom d = ({["source"; "target"; "images"; "labels"]} : gset string).
Proof.
  destruct (PairedAndUnpairedDataset._transform_select (Toy.ds None) 5
              Toy.store0) as [[d|e] s'] eqn:Hrun.
  2:{ apply (f_equal fst) in Hrun. discriminate Hrun. }
  destruct (selection_keys _ _ _ _ _ Hrun)
    as (k0 & k1 & k2 & k3 & s0 & s1 & s2 & s3 & x & y & z &
        r0 & r1 & r2 & r3 & v0 & v1 & v2 & v3 & Hkeys & _ & _ & _ & _ &
        Hdom & _).
  injection Hkeys as <- <- <- <-. exists d. split; [reflexivity | exact Hdom].
Defined.

Lemma transform_failure_is_chained_witness :
  fst (PairedAndUnpairedDataset._transform ToyMore.ds_unreadable 5 Toy.store0)
  = Raise (RuntimeErrorFrom (External "LoadImaged")).
Proof.
  destruct (PairedAndUnpairedDataset._transform_select ToyMore.ds_unreadable 5
              Toy.store0) as [[d|e] s1] eqn:Hsel.
  2:{ apply (f_equal fst) in Hsel. discriminate Hsel. }
  rewrite (transform_failure_is_chained _ _ _ _ _ _ _ _ Hsel eq_refl eq_refl).
  reflexivity.
Defined.

Lemma transform_returns_witness :
  exists item s',
    PairedAndUnpairedDataset._transform (Toy.ds (Some 2%Z)) 4000000000
      Toy.store0 = (Ok item, s').
Proof.
  apply (@transform_returns Toy.lcg toy_lcg_laws string unit
           (Toy.ds (Some 2%Z)) 4000000000 Toy.store0
           "source" "target" "images" "labels" []
           ["s0"; "s1"; "s2"] ["t0"; "t1"; "t2"] ["i0"; "i1"]
           ["l0"; "l1"; "l2"; "l3"] []);
    try reflexivity; unfold len; simpl; lia.
Defined.

Lemma len_is_minimum_witness :
  (2%Z ∈ len <$> PairedAndUnpairedDataset.data (Toy.ds None)) /\
  Forall (fun d => (2 <= len d)%Z)
    (PairedAndUnpairedDataset.data (Toy.ds None)).
Proof.
  apply (@len_is_minimum Toy.lcg string unit (Toy.ds None) Toy.store0 2%Z);
    reflexivity.
Defined.

(** ** File lists, beyond the claims *)

Lemma concat_fmap_Permutation {A B} (f g : A -> list B) (l l' : list A) :
  l ≡ₚ l' -> (forall x, f x ≡ₚ g x) ->
  concat (f <$> l) ≡ₚ concat (g <$> l').
Proof.
  intros Hl Hfg. induction Hl as [|x l l' _ IH|x y l|l l' l'' _ IH1 _ IH2].
  - reflexivity.
  - simpl. rewrite IH, (Hfg x). reflexivity.
  - simpl. rewrite !app_assoc, (Hfg x), (Hfg y).
    rewrite (Permutation_app_comm (g y) (g x)).
    apply Permutation_app_head. clear -Hfg.
    induction l as [|z l IH]; simpl; [reflexivity|].
    rewrite IH, (Hfg z). reflexivity.
  - rewrite IH1. clear -Hfg IH2.
    transitivity (concat (f <$> l')).
    + clear IH2. induction l' as [|z l' IH]; simpl; [reflexivity|].
      rewrite IH, (Hfg z). reflexivity.
    + exact IH2.
Qed.

Lemma sorted_Permutation_eq (l l' : list string) :
  l ≡ₚ l' -> sorted l = sorted l'.
Proof.
  intros Hp. apply sorted_unique; [|apply sorted_StronglySorted].
  rewrite sorted_Permutation. exact Hp.
Qed.

Lemma length_concat_fmap {A B} (f : A -> list B) (l : list A) :
  length (concat (f <$> l)) = sum_list ((fun x => length (f x)) <$> l).
Proof.
  induction l as [|x l IH]; [reflexivity|].
  rewrite !fmap_cons. simpl concat. rewrite length_app, IH. reflexivity.
Qed.

Section GlobExtras.
Context `{Torch}.

(** X8.  The result of [glob_files] depends neither on the order in which
    the directories are given nor on the order in which the file system
    lists the matches. *)
Theorem glob_files_order_insensitive (fs1 fs2 : FileSystem)
    (folders folders' : list string) (extension : string) (w1 w2 : World) :
  folders ≡ₚ folders' ->
  (forall pattern, @glob_glob fs1 pattern ≡ₚ @glob_glob fs2 pattern) ->
  fst (@PairedAndUnpairedDataModule.glob_files _ fs1 (Some folders)
         extension w1)
  = fst (@PairedAndUnpairedDataModule.glob_files _ fs2 (Some folders')
           extension w2).
Proof.
  intros Hfolders Hfs. simpl. f_equal. apply sorted_Permutation_eq.
  apply concat_fmap_Permutation; [exact Hfolders|].
  intros folder. apply Hfs.
Qed.

(** X9.  [glob_files] drops nothing and merges nothing: it returns as many
    files as the directories have matches together, a directory given twice
    counting twice; that number is what it prints, followed by the first
    file of the result (an empty list when there is none), and it changes
    nothing else. *)
Theorem glob_files_count `{FileSystem} (folders : list string)
    (extension : string) (w : World) :
  exists files : list string,
    PairedAndUnpairedDataModule.glob_files (Some folders) extension w
    = (Ok files,
       {| gen := gen w;
          events := events w ++ [ Print (PInt (len files));
                                  Print (PList (take 1 files)) ] |}) /\
    length files =
      sum_list ((fun folder =>
                   length (glob_glob (path_join folder extension)))
                <$> folders).
Proof.
  eexists. split.
  - cbv [PairedAndUnpairedDataModule.glob_files bind emit ret gen events].
    rewrite <- app_assoc. reflexivity.
  - rewrite sorted_Permutation. apply length_concat_fmap.
Qed.
End GlobExtras.

Lemma glob_files_order_insensitive_witness :
  fst (@PairedAndUnpairedDataModule.glob_files Toy.torch Toy.fs
         (Some [Toy.images_dir; "nowhere"]) "**/*.png" Toy.world0)
  = fst (@PairedAndUnpairedDataModule.glob_files Toy.torch ToyMore.fs_reversed
           (Some ["nowhere"; Toy.images_dir]) "**/*.png" Toy.world0).
Proof.
  apply glob_files_order_insensitive.
  - apply perm_swap.
  - intros pattern. simpl. rewrite reverse_Permutation. reflexivity.
Defined.

(** ** The training data of a module that found no file *)

Section EmptyStream.
Context `{RandomStateLaws} {V TS : Type}.

(** An empty first stream ends [_transform] at the first draw. *)
Lemma transform_empty_first_stream (self : @PairedAndUnpairedDataset.t V TS)
    (index : Z) (s : PairedAndUnpairedDataset.Store) (rest : list (list V)) :
  (0 <= index < 2 ^ 32)%Z ->
  PairedAndUnpairedDataset.data self = [] :: rest ->
  raises (PairedAndUnpairedDataset._transform self index) s ValueError.
Proof.
  intros Hidx Hdata. destruct (rs_seed_ok index Hidx) as [r0 Hseed].
  unfold raises, PairedAndUnpairedDataset._transform,
    PairedAndUnpairedDataset._transform_select.
  rewrite Hdata.
  unfold bind, lift, PairedAndUnpairedDataset.R_seed,
    PairedAndUnpairedDataset.R_randint.
  rewrite Hseed. simpl.
  rewrite rs_randint_empty by (unfold len; simpl; lia). reflexivity.
Qed.
End EmptyStream.

Section ModuleExtras.
Context `{Torch} `{!Monai} `{FileSystem}.

(** Each file list of a module is what [glob_files] finds in the module's
    directories of the same name. *)
Lemma datamodule_init_files
    (d1 d2 d3 d4 d5 d6 d7 d8 d9 d10 d11 d12 : list string)
    (shape batch_size train_samples val_samples test_samples : Z)
    (w w' : World) (dm : PairedAndUnpairedDataModule.t) :
  PairedAndUnpairedDataModule.__init__ d1 d2 d3 d4 d5 d6 d7 d8 d9 d10 d11 d12
    shape batch_size train_samples val_samples test_samples w = (Ok dm, w') ->
  let found dirs :=
    sorted (concat ((fun folder => glob_glob (path_join folder "**/*.png"))
                      <$> dirs)) in
  [ PairedAndUnpairedDataModule.train_ssource_files dm;
    PairedAndUnpairedDataModule.train_starget_files dm;
    PairedAndUnpairedDataModule.train_usource_files dm;
    PairedAndUnpairedDataModule.train_utarget_files dm;
    PairedAndUnpairedDataModule.val_ssource_files dm;
    PairedAndUnpairedDataModule.val_starget_files dm;
    PairedAndUnpairedDataModule.val_usource_files dm;
    PairedAndUnpairedDataModule.val_utarget_files dm;
    PairedAndUnpairedDataModule.test_ssource_files dm;
    PairedAndUnpairedDataModule.test_starget_files dm;
    PairedAndUnpairedDataModule.test_usource_files dm;
    PairedAndUnpairedDataModule.test_utarget_files dm ]
  = found <$> [d1; d2; d3; d4; d5; d6; d7; d8; d9; d10; d11; d12].
Proof.
  intros E.
  cbv [PairedAndUnpairedDataModule.__init__
       PairedAndUnpairedDataModule.glob_files bind emit ret gen events] in E.
  run_inv E. reflexivity.
Qed.

Lemma datamodule_init_returns
    (d1 d2 d3 d4 d5 d6 d7 d8 d9 d10 d11 d12 : list string)
    (shape batch_size train_samples val_samples test_samples : Z)
    (w : World) :
  exists dm w',
    PairedAndUnpairedDataModule.__init__ d1 d2 d3 d4 d5 d6 d7 d8 d9 d10 d11
      d12 shape batch_size train_samples val_samples test_samples w
    = (Ok dm, w').
Proof.
  eexists _, _.
  cbv [PairedAndUnpairedDataModule.__init__
       PairedAndUnpairedDataModule.glob_files bind emit ret gen events].
  reflexivity.
Qed.
End ModuleExtras.

Section MissingData.
Context `{RandomStateLaws} `{Torch} `{!Monai} `{FileSystem}.

(** X10.  Directories without a PNG file do not stop the construction of
    the data module.  When the supervised training images are such, the
    training dataset still reports [train_samples] items, and fetching any
    of them fails with [ValueError]. *)
Theorem missing_training_images
    (d1 d2 d3 d4 d5 d6 d7 d8 d9 d10 d11 d12 : list string)
    (shape batch_size train_samples val_samples test_samples : Z)
    (w w' : World) (dm : PairedAndUnpairedDataModule.t)
    (index : Z) (s : PairedAndUnpairedDataset.Store) :
  PairedAndUnpairedDataModule.__init__ d1 d2 d3 d4 d5 d6 d7 d8 d9 d10 d11 d12
    shape batch_size train_samples val_samples test_samples w = (Ok dm, w') ->
  Forall (fun folder => glob_glob (path_join folder "**/*.png") = []) d1 ->
  (0 <= index < 2 ^ 32)%Z ->
  let train :=
    DataLoader.dataset (PairedAndUnpairedDataModule.train_dataloader dm) in
  PairedAndUnpairedDataset.__len__ train s = (Ok train_samples, s) /\
  raises (PairedAndUnpairedDataset._transform train index) s ValueError.
Proof.
  intros E Hnone Hidx train.
  pose proof (datamodule_init_files _ _ _ _ _ _ _ _ _ _ _ _ _ _ _ _ _ _ _ _ E)
    as Hfiles.
  apply datamodule_init_Ok in E as (_ & _ & _ & _ & Htr & _).
  cbn zeta in Hfiles. injection Hfiles as Hf1 _.
  split.
  - unfold train, PairedAndUnpairedDataset.__len__. simpl. rewrite Htr.
    reflexivity.
  - apply (transform_empty_first_stream train index s
             [ Path <$> PairedAndUnpairedDataModule.train_starget_files dm;
               Path <$> PairedAndUnpairedDataModule.train_usource_files dm;
               Path <$> PairedAndUnpairedDataModule.train_utarget_files dm ]);
      [exact Hidx|].
    unfold train. simpl. rewrite Hf1.
    replace (concat ((fun folder => glob_glob (path_join folder "**/*.png"))
                       <$> d1)) with (@nil string); [reflexivity|].
    clear -Hnone. induction Hnone as [|folder folders Hf _ IH]; [reflexivity|].
    simpl. rewrite Hf. exact IH.
Qed.
End MissingData.

Lemma missing_training_images_witness :
  exists dm w',
    @PairedAndUnpairedDataModule.__init__ Toy.torch Toy.fs
      ["nowhere"] [] [] [] [] [] [] [] [] [] [] [] 256 8 40000 8000 4000
      Toy.world0 = (Ok dm, w') /\
    raises (@PairedAndUnpairedDataset._transform Toy.lcg _ _
              (DataLoader.dataset
                 (@PairedAndUnpairedDataModule.train_dataloader
                    Toy.torch Toy.monai dm)) 0)
      Toy.store0 ValueError.
Proof.
  destruct (@datamodule_init_returns Toy.torch Toy.fs
              ["nowhere"] [] [] [] [] [] [] [] [] [] [] [] 256 8 40000 8000
              4000 Toy.world0) as (dm & w' & E).
  exists dm, w'. split; [exact E|].
  refine (proj2 (@missing_training_images Toy.lcg toy_lcg_laws Toy.torch
                   Toy.monai Toy.fs _ _ _ _ _ _ _ _ _ _ _ _ _ _ _ _ _ _ _ dm
                   0%Z Toy.store0 E _ _)).
  - constructor; [reflexivity | constructor].
  - lia.
Defined.

(** ** Strings *)

Lemma prefix_append (a x : string) : String.prefix a (a +:+ x) = true.
Proof.
  induction a as [|c a IH]; simpl; [destruct x; reflexivity|].
  destruct (Ascii.ascii_dec c c) as [_|Hne]; [exact IH | congruence].
Qed.

(** A relative second component is put behind the first. *)
Lemma path_join_relative (a b : string) :
  String.prefix "/" b = false -> String.prefix a (path_join a b) = true.
Proof.
  intros Hrel. unfold path_join. rewrite Hrel.
  destruct (_ || _); apply prefix_append.
Qed.

Lemma prefix_inv (a b : string) :
  String.prefix a b = true -> exists c, b = a +:+ c.
Proof.
  revert b. induction a as [|x a IH]; intros b Hp; [exists b; reflexivity|].
  destruct b as [|y b]; [discriminate Hp|]. simpl in Hp.
  destruct (Ascii.ascii_dec x y) as [->|]; [|discriminate Hp].
  destruct (IH b Hp) as [c ->]. exists c. reflexivity.
Qed.

Lemma append_empty_r (s : string) : s +:+ "" = s.
Proof.
  induction s as [|c s IH]; [reflexivity|].
  change (String c s +:+ "") with (String c (s +:+ "")). rewrite IH.
  reflexivity.
Qed.

Lemma prefix_empty (s : string) : String.prefix "" s = true.
Proof. destruct s; reflexivity. Qed.

(** The strings [pre] that a literal starts with, case by case. *)
Ltac prefix_cases pre H :=
  apply prefix_inv in H; destruct H as [? H];
  repeat (destruct pre as [|? pre]; simpl in H;
          [|first [injection H as <- H | discriminate H]]).

(** ** The command line, beyond the claims *)

Section ParseExtras.
Context `{Python} `{Lightning}.

Lemma split_eq_spec (s a b : string) :
  HParams.split_eq s = Some (a, b) -> s = a +:+ "=" +:+ b.
Proof.
  revert a. induction s as [|c s IH]; intros a; [discriminate|]. simpl.
  destruct (is_char "=" c) eqn:Hc.
  - intros [= <- <-]. apply bool_decide_eq_true in Hc.
    injection Hc as ->. reflexivity.
  - destruct (HParams.split_eq s) as [[a' b']|]; [|discriminate].
    intros [= <- <-]. rewrite (IH a' eq_refl). reflexivity.
Qed.

Lemma resolve_Help (o : string) (e : option string) (flag : string)
    (more : option string) :
  HParams.resolve o e = HParams.Help flag more -> o = "-h" \/ o = "--help".
Proof.
  unfold HParams.resolve.
  destruct (bool_decide (o ∈ ["-h"; "--help"])) eqn:Ho; [|discriminate].
  intros _. apply bool_decide_eq_true in Ho.
  rewrite !elem_of_cons, elem_of_nil in Ho. tauto.
Qed.

(** Only a string that starts like [-h] or [--h] is read as a request for
    help. *)
Lemma classify_Help (tok flag : string) (more : option string) :
  HParams.classify tok = HParams.Help flag more ->
  String.prefix "-h" tok = true \/ String.prefix "--h" tok = true.
Proof.
  unfold HParams.classify.
  destruct (bool_decide (tok = "")) eqn:Hempty; [discriminate|].
  apply bool_decide_eq_false in Hempty.
  destruct (String.prefix "-" tok) eqn:Hdash; [|discriminate]. simpl.
  destruct (bool_decide (tok ∈ HParams.option_strings)).
  { intros Hr. apply resolve_Help in Hr as [->| ->]; auto. }
  destruct (bool_decide (String.length tok = 1)) eqn:Hone; [discriminate|].
  apply bool_decide_eq_false in Hone.
  destruct (HParams.explicit tok) as [token|] eqn:Hexp.
  { unfold HParams.explicit in Hexp.
    destruct (HParams.split_eq tok) as [[pre post]|] eqn:Hsplit;
      [|discriminate].
    destruct (bool_decide (pre ∈ HParams.option_strings)); [|discriminate].
    injection Hexp as <-. apply split_eq_spec in Hsplit as ->.
    intros Hr. apply resolve_Help in Hr as [->| ->]; auto. }
  destruct (HParams.candidates tok) as [|[o e] [|c2 l]] eqn:Hcand.
  { destruct (_ && _); [discriminate|]. destruct (HParams.contains _ _);
      discriminate. }
  2:{ discriminate. }
  intros Hr. apply resolve_Help in Hr.
  unfold HParams.candidates in Hcand.
  destruct (String.prefix "--" tok) eqn:Hdd.
  - (* a long option, abbreviated *)
    assert (Hpre : exists pre rest,
               tok = pre +:+ rest /\ String.prefix pre o = true /\
               (fun o => (o, e)) <$>
                 filter (fun o => String.prefix pre o = true)
                        HParams.option_strings = [(o, e)]).
    { destruct (HParams.split_eq tok) as [[a b]|] eqn:Hsplit.
      - apply split_eq_spec in Hsplit. exists a, ("=" +:+ b).
        split; [exact Hsplit|].
        assert (Hin : (o, e) ∈ (fun o => (o, Some b)) <$>
                        filter (fun o => String.prefix a o = true)
                               HParams.option_strings)
          by (rewrite Hcand; apply list_elem_of_here).
        apply list_elem_of_fmap in Hin as (o' & [= -> ->] & Hin).
        apply list_elem_of_filter in Hin as [Hp _]. auto.
      - exists tok, "". split; [symmetry; apply append_empty_r|].
        assert (Hin : (o, e) ∈ (fun o => (o, None)) <$>
                        filter (fun o => String.prefix tok o = true)
                               HParams.option_strings)
          by (rewrite Hcand; apply list_elem_of_here).
        apply list_elem_of_fmap in Hin as (o' & [= -> ->] & Hin).
        apply list_elem_of_filter in Hin as [Hp _]. auto. }
    destruct Hpre as (pre & rest & -> & Hp & Hone').
    destruct Hr as [-> | ->]; prefix_cases pre Hp;
      try discriminate Hdd;
      try (right; simpl; first [reflexivity | apply prefix_empty]);
      try (destruct rest as [|? [|? ?]]; simpl in Hdd; discriminate Hdd).
    all: exfalso; revert Hone'; unfold HParams.option_strings,
           HParams.own_flags; simpl; discriminate.
  - (* [-h] with more behind it *)
    assert (Hin : (o, e) ∈ omap
              (fun o => if bool_decide (o = String.substring 0 2 tok)
                        then Some (o, Some (String.substring 2
                                              (String.length tok - 2) tok))
                        else if String.prefix tok o then Some (o, None)
                        else None) HParams.option_strings)
      by (rewrite Hcand; apply list_elem_of_here).
    apply list_elem_of_omap in Hin as (o' & _ & Ho').
    destruct (bool_decide (o' = String.substring 0 2 tok)) eqn:Hshort.
    + injection Ho' as <- _. apply bool_decide_eq_true in Hshort.
      destruct tok as [|c1 [|c2 tok]]; [congruence | simpl in Hone; lia |].
      simpl in Hshort. destruct tok; simpl in Hshort;
        destruct Hr as [Ho | Ho]; rewrite Ho in Hshort;
        try discriminate Hshort; injection Hshort as <- <-; auto.
    + destruct (String.prefix tok o') eqn:Hp; [|discriminate].
      injection Ho' as <- _.
      destruct Hr as [-> | ->]; prefix_cases tok Hp;
        try congruence; try (simpl in Hone; lia); try discriminate Hdd;
        auto.
Qed.

Lemma tokens_elem (argv : list string) (s : string) (t : HParams.Token) :
  (s, t) ∈ HParams.tokens argv ->
  s ∈ argv /\
  (t = HParams.classify s \/ t = HParams.Separator \/ t = HParams.Positional).
Proof.
  induction argv as [|tok rest IH]; simpl; [intros Hin; inversion Hin|].
  destruct (bool_decide (tok = "--")).
  - rewrite elem_of_cons. intros [[= -> ->]|Hin].
    + split; [apply list_elem_of_here | auto].
    + apply list_elem_of_fmap in Hin as (s' & [= -> ->] & Hin).
      split; [apply list_elem_of_further, Hin | auto].
  - rewrite elem_of_cons. intros [[= -> ->]|Hin].
    + split; [apply list_elem_of_here | auto].
    + destruct (IH Hin) as [Hs Ht].
      split; [apply list_elem_of_further, Hs | exact Ht].
Qed.

Lemma scan_Raise (toks : list (string * HParams.Token)) (leftover : bool)
    (e : PyErr) :
  HParams.scan toks leftover = Raise e ->
  e = SystemExit 2 \/
  (e = SystemExit 0 /\
   exists s flag more, (s, HParams.Help flag more) ∈ toks).
Proof.
  revert leftover e.
  assert (Hboth :
    (forall leftover e, HParams.scan toks leftover = Raise e ->
       e = SystemExit 2 \/
       (e = SystemExit 0 /\
        exists s flag more, (s, HParams.Help flag more) ∈ toks)) /\
    (forall x leftover e, HParams.scan (x :: toks) leftover = Raise e ->
       e = SystemExit 2 \/
       (e = SystemExit 0 /\
        exists s flag more, (s, HParams.Help flag more) ∈ x :: toks))).
  { induction toks as [|y toks [IH1 IH2]].
    - split.
      + intros leftover e. simpl. destruct leftover; [|discriminate].
        intros [= <-]. auto.
      + intros [s t] leftover e. simpl.
        destruct t as [|flag [value|]|flag [more|]| | |].
        * intros [= <-]. auto.
        * destruct (HParams.accepts flag value); [|intros [= <-]; auto].
          destruct leftover; [|discriminate]. intros [= <-]. auto.
        * intros [= <-]. auto.
        * destruct (_ && _); intros [= <-]; [|auto].
          right. split; [reflexivity|]. exists s, flag, (Some more).
          apply list_elem_of_here.
        * intros [= <-]. right. split; [reflexivity|].
          exists s, flag, None. apply list_elem_of_here.
        * intros [= <-]. auto.
        * intros [= <-]. auto.
        * intros [= <-]. auto.
    - split; [exact (IH2 y)|].
      assert (Hweaken : forall x leftover e,
                HParams.scan (y :: toks) leftover = Raise e ->
                e = SystemExit 2 \/
                (e = SystemExit 0 /\
                 exists s flag more,
                   (s, HParams.Help flag more) ∈ x :: y :: toks)).
      { intros x leftover e Hs.
        destruct (IH2 y leftover e Hs) as [->|(-> & s & f & m & Hin)]; [auto|].
        right. split; [reflexivity|]. exists s, f, m.
        apply list_elem_of_further, Hin. }
      assert (Hweaken2 : forall x leftover e,
                HParams.scan toks leftover = Raise e ->
                e = SystemExit 2 \/
                (e = SystemExit 0 /\
                 exists s flag more,
                   (s, HParams.Help flag more) ∈ x :: y :: toks)).
      { intros x leftover e Hs.
        destruct (IH1 leftover e Hs) as [->|(-> & s & f & m & Hin)]; [auto|].
        right. split; [reflexivity|]. exists s, f, m.
        do 2 apply list_elem_of_further. exact Hin. }
      intros [s t] leftover e.
      change (HParams.scan ((s, t) :: y :: toks) leftover) with
        (match t with
         | HParams.Positional | HParams.Unknown =>
             HParams.scan (y :: toks) true
         | HParams.Separator | HParams.Ambiguous => Raise (SystemExit 2)
         | HParams.Help flag None => Raise (SystemExit 0)
         | HParams.Help flag (Some more) =>
             if bool_decide (flag = "-h")
                && negb (bool_decide (more = EmptyString))
                && HParams.only_h more
             then Raise (SystemExit 0)
             else Raise (SystemExit 2)
         | HParams.Flag flag (Some value) =>
             if HParams.accepts flag value
             then let+ ps := HParams.scan (y :: toks) leftover in
                  Ok ((flag, value) :: ps)
             else Raise (SystemExit 2)
         | HParams.Flag flag None =>
             match y with
             | (value, HParams.Positional) =>
                 if HParams.accepts flag value
                 then let+ ps := HParams.scan toks leftover in
                      Ok ((flag, value) :: ps)
                 else Raise (SystemExit 2)
             | _ => Raise (SystemExit 2)
             end
         end).
      destruct t as [|flag [value|]|flag [more|]| | |].
      + apply Hweaken.
      + destruct (HParams.accepts flag value); [|intros [= <-]; auto].
        destruct (HParams.scan (y :: toks) leftover) as [ps|e'] eqn:Hs;
          [discriminate|].
        simpl. intros [= <-]. exact (Hweaken _ _ _ Hs).
      + destruct y as [value ty].
        destruct ty; try (intros [= <-]; auto).
        destruct (HParams.accepts flag value); [|intros [= <-]; auto].
        destruct (HParams.scan toks leftover) as [ps|e'] eqn:Hs;
          [discriminate|].
        simpl. intros [= <-]. exact (Hweaken2 _ _ _ Hs).
      + destruct (_ && _); intros [= <-]; [|auto].
        right. split; [reflexivity|]. exists s, flag, (Some more).
        apply list_elem_of_here.
      + intros [= <-]. right. split; [reflexivity|].
        exists s, flag, None. apply list_elem_of_here.
      + apply Hweaken.
      + intros [= <-]. auto.
      + intros [= <-]. auto. }
  exact (proj1 Hboth).
Qed.

Lemma pairs_Raise (argv : list string) (e : PyErr) :
  HParams.pairs argv = Raise e ->
  e = SystemExit 2 \/
  (e = SystemExit 0 /\
   exists tok, tok ∈ argv /\
     (String.prefix "-h" tok = true \/ String.prefix "--h" tok = true)).
Proof.
  unfold HParams.pairs.
  destruct (existsb _ _); [intros [= <-]; auto|].
  intros Hs. apply scan_Raise in Hs as [->|(-> & s & f & m & Hin)]; [auto|].
  right. split; [reflexivity|].
  apply tokens_elem in Hin as [Hs [Hc|[Hc|Hc]]]; try discriminate Hc.
  exists s. split; [exact Hs|]. symmetry in Hc.
  exact (classify_Help _ _ _ Hc).
Qed.

Lemma argument_Raise {A} (conv : string -> option A) (d : A)
    (ps : list (string * string)) (flag : string) (e : PyErr) :
  HParams.argument conv d ps flag = Raise e -> e = SystemExit 2.
Proof.
  unfold HParams.argument. destruct (HParams.given ps flag) as [v|];
    [|discriminate].
  destruct (conv v); [discriminate|]. intros [= <-]. reflexivity.
Qed.

(** X11.  Whatever the command line, parsing either returns a namespace or
    ends the program with status 2 or status 0, and with status 0 only when
    one of the strings of the command line starts like [-h] or [--h]: it
    raises nothing else. *)
Theorem parse_args_exits (argv : list string) (e : PyErr) :
  HParams.parse_args argv = Raise e ->
  e = SystemExit 2 \/
  (e = SystemExit 0 /\
   exists tok, tok ∈ argv /\
     (String.prefix "-h" tok = true \/ String.prefix "--h" tok = true)).
Proof.
  unfold HParams.parse_args. intros Hp.
  destruct (HParams.pairs argv) as [ps|e0] eqn:Hps;
    [|simpl in Hp; injection Hp as <-; exact (pairs_Raise _ _ Hps)].
  simpl in Hp. left.
  repeat match type of Hp with
         | res_bind ?r _ = Raise _ =>
             let E := fresh "E" in
             destruct r eqn:E;
             [simpl in Hp
             |simpl in Hp; injection Hp as <-;
              exact (argument_Raise _ _ _ _ _ E)]
         end.
  discriminate Hp.
Qed.
End ParseExtras.

Section ParseForms.
Context `{Python} `{Lightning}.

Lemma resolve_not_Positional (o : string) (e : option string) :
  HParams.resolve o e <> HParams.Positional.
Proof. unfold HParams.resolve. destruct (bool_decide _); discriminate. Qed.

(** A string that starts with a dash, is not the dash alone, and neither
    looks like a negative number nor holds a space, is read as an option. *)
Lemma classify_option_like (v : string) :
  String.prefix "-" v = true -> v <> "-" ->
  HParams.negative_number v = false -> HParams.contains " " v = false ->
  HParams.classify v <> HParams.Positional.
Proof.
  intros Hdash Hnot Hneg Hspace. unfold HParams.classify.
  destruct (bool_decide (v = "")) eqn:Hempty.
  { apply bool_decide_eq_true in Hempty. subst v. discriminate Hdash. }
  rewrite Hdash. simpl.
  destruct (bool_decide (v ∈ HParams.option_strings));
    [apply resolve_not_Positional|].
  destruct (bool_decide (String.length v = 1)) eqn:Hone.
  { apply bool_decide_eq_true in Hone. exfalso. apply Hnot.
    apply prefix_inv in Hdash as [c ->].
    destruct c; [reflexivity | discriminate Hone]. }
  destruct (HParams.explicit v) as [token|] eqn:Hexp.
  { unfold HParams.explicit in Hexp.
    destruct (HParams.split_eq v) as [[pre post]|]; [|discriminate].
    destruct (bool_decide (pre ∈ HParams.option_strings)); [|discriminate].
    injection Hexp as <-. apply resolve_not_Positional. }
  destruct (HParams.candidates v) as [|[o e] [|c2 l]];
    [|apply resolve_not_Positional|discriminate].
  rewrite Hneg, Hspace. discriminate.
Qed.

(** X26.  A flag of the script followed by a string that looks like an
    option (it starts with a dash, is not the dash alone, is not a negative
    number and holds no space) ends the program with status 2, whatever
    comes after: the string is not taken as the flag's value. *)
Theorem option_like_value_is_refused (flag v : string) (rest : list string) :
  flag ∈ HParams.own_flags ->
  String.prefix "-" v = true -> v <> "-" ->
  Forall (fun c => (Ascii.N_of_ascii c < 128)%N)
    (String.list_ascii_of_string v) ->
  HParams.negative_number v = false -> HParams.contains " " v = false ->
  HParams.parse_args (flag :: v :: rest) = Raise (SystemExit 2).
Proof.
  intros Hflag Hdash Hnot _ Hneg Hspace.
  assert (Hpairs : HParams.pairs (flag :: v :: rest) = Raise (SystemExit 2)).
  { unfold HParams.pairs.
    destruct (existsb _ _); [reflexivity|].
    cbn [HParams.tokens].
    rewrite (own_flag_not_separator flag Hflag),
      (classify_own_flag flag Hflag).
    destruct (bool_decide (v = "--")); [reflexivity|].
    pose proof (classify_option_like v Hdash Hnot Hneg Hspace) as Hc.
    cbn [HParams.scan].
    destruct (HParams.classify v); try reflexivity. congruence. }
  unfold HParams.parse_args. rewrite Hpairs. reflexivity.
Qed.

Lemma split_eq_own_flag (flag v : string) :
  flag ∈ HParams.own_flags ->
  HParams.split_eq (flag +:+ "=" +:+ v) = Some (flag, v).
Proof.
  unfold HParams.own_flags. rewrite !elem_of_cons, elem_of_nil.
  intros Hin.
  repeat (destruct Hin as [->|Hin]; [reflexivity|]). destruct Hin.
Qed.

Lemma own_flag_is_option (flag : string) :
  flag ∈ HParams.own_flags -> flag ∈ HParams.option_strings.
Proof.
  intros Hin. unfold HParams.option_strings.
  rewrite !elem_of_app. auto.
Qed.

Lemma own_flag_is_not_help (flag : string) (e : option string) :
  flag ∈ HParams.own_flags -> HParams.resolve flag e = HParams.Flag flag e.
Proof.
  unfold HParams.own_flags. rewrite !elem_of_cons, elem_of_nil.
  intros Hin.
  repeat (destruct Hin as [->|Hin]; [reflexivity|]). destruct Hin.
Qed.

Lemma own_flag_with_value_shape (flag v : string) :
  flag ∈ HParams.own_flags ->
  String.prefix "-" (flag +:+ "=" +:+ v) = true /\
  flag +:+ "=" +:+ v <> "" /\ flag +:+ "=" +:+ v <> "--" /\
  String.length (flag +:+ "=" +:+ v) <> 1 /\
  flag +:+ "=" +:+ v ∉ ["-h"; "--help"] ++ HParams.own_flags.
Proof.
  unfold HParams.own_flags. rewrite !elem_of_cons, elem_of_nil.
  intros Hin.
  repeat (destruct Hin as [->|Hin];
          [repeat split; try discriminate;
           rewrite elem_of_app, !elem_of_cons, elem_of_nil;
           intros Hbad; repeat (destruct Hbad as [Hbad|Hbad]);
           first [discriminate Hbad | destruct Hbad]|]).
  destruct Hin.
Qed.

(** X27.  A flag of the script and its value may be written as one string,
    [--flag=value]; this is read as the flag followed by the value, for a
    value that does not start with a dash. *)
Theorem flag_equals_value (flag v : string) :
  flag ∈ HParams.own_flags ->
  String.prefix "-" v = false ->
  (flag +:+ "=" +:+ v ∉ trainer_flags) ->
  HParams.parse_args [flag +:+ "=" +:+ v] = HParams.parse_args [flag; v].
Proof.
  intros Hflag Hv Hnot.
  assert (Hpairs : HParams.pairs [flag +:+ "=" +:+ v]
                   = HParams.pairs [flag; v]).
  { destruct (own_flag_with_value_shape flag v Hflag)
      as (Hdash & Hne & Hsep & Hlen & Hnotin).
    assert (Hc : HParams.classify (flag +:+ "=" +:+ v)
                 = HParams.Flag flag (Some v)).
    { unfold HParams.classify.
      rewrite (bool_decide_eq_false_2 _ Hne), Hdash. simpl.
      rewrite bool_decide_eq_false_2.
      2:{ unfold HParams.option_strings. rewrite app_assoc, elem_of_app.
          tauto. }
      rewrite (bool_decide_eq_false_2 _ Hlen).
      unfold HParams.explicit. rewrite (split_eq_own_flag flag v Hflag).
      rewrite (bool_decide_eq_true_2 _ (own_flag_is_option flag Hflag)).
      apply own_flag_is_not_help, Hflag. }
    unfold HParams.pairs. cbn [HParams.tokens].
    rewrite (bool_decide_eq_false_2 _ Hsep), Hc.
    rewrite (own_flag_not_separator flag Hflag),
      (classify_own_flag flag Hflag), (plain_value_not_separator v Hv),
      (classify_plain_value v Hv).
    cbn [existsb HParams.is_ambiguous snd orb HParams.scan].
    reflexivity. }
  unfold HParams.parse_args. rewrite Hpairs. reflexivity.
Qed.
End ParseForms.

Lemma filter_none {A} (P : A -> Prop) `{!forall x, Decision (P x)}
    (l : list A) :
  (forall x, x ∈ l -> ~ P x) -> filter P l = [].
Proof.
  induction l as [|x l IH]; intros Hnone; [reflexivity|].
  rewrite filter_cons. destruct (decide (P x)) as [Hpx|_].
  - destruct (Hnone x (list_elem_of_here _ _) Hpx).
  - apply IH. intros y Hy. apply Hnone, list_elem_of_further, Hy.
Qed.

Lemma filter_unique {A} (P : A -> Prop) `{!forall x, Decision (P x)}
    (l : list A) (a : A) :
  NoDup l -> a ∈ l -> P a -> (forall x, x ∈ l -> P x -> x = a) ->
  filter P l = [a].
Proof.
  intros Hnodup Hin Ha Huniq.
  induction l as [|x l IH]; [inversion Hin|].
  apply NoDup_cons in Hnodup as [Hx Hnodup].
  rewrite filter_cons. destruct (decide (P x)) as [Hpx|Hpx].
  - assert (x = a) as ->
      by (apply Huniq; [apply list_elem_of_here | exact Hpx]).
    f_equal. apply filter_none. intros y Hy Hpy.
    assert (y = a) as ->
      by (apply Huniq; [apply list_elem_of_further, Hy | exact Hpy]).
    contradiction.
  - apply elem_of_cons in Hin as [->|Hin]; [contradiction|].
    apply IH; [exact Hnodup | exact Hin |].
    intros y Hy. apply Huniq, list_elem_of_further, Hy.
Qed.

Section Abbreviations.
Context `{Python} `{Lightning}.

Lemma split_eq_None (s : string) :
  HParams.contains "=" s = false -> HParams.split_eq s = None.
Proof.
  induction s as [|c s IH]; [reflexivity|]. simpl.
  destruct (is_char "=" c); [discriminate|]. simpl.
  intros Hs. rewrite (IH Hs). reflexivity.
Qed.

(** X28.  A flag of the script may be shortened: a string that starts with
    two dashes, holds no [=], and is the beginning of that flag and of no
    other option of the parser, is read as the flag. *)
Theorem unique_abbreviation (tok flag : string) (rest : list string) :
  flag ∈ HParams.own_flags ->
  NoDup HParams.option_strings ->
  String.prefix "--" tok = true ->
  HParams.contains "=" tok = false ->
  String.prefix tok flag = true ->
  (forall o, o ∈ HParams.option_strings ->
             String.prefix tok o = true -> o = flag) ->
  HParams.parse_args (tok :: rest) = HParams.parse_args (flag :: rest).
Proof.
  intros Hflag Hnodup Hdd Heq Hpre Huniq.
  assert (Hclass : HParams.classify tok = HParams.Flag flag None
                   /\ bool_decide (tok = "--") = false).
  { destruct (decide (tok ∈ HParams.option_strings)) as [Hin|Hnotin].
    { assert (tok = flag) as ->.
      { apply Huniq; [exact Hin|]. clear. induction tok as [|c s IH];
          [reflexivity|]. simpl.
        destruct (Ascii.ascii_dec c c); [exact IH | congruence]. }
      split; [apply classify_own_flag, Hflag
             |apply own_flag_not_separator, Hflag]. }
    apply prefix_inv in Hdd as [more ->].
    assert (Hsep : "--" +:+ more <> "--").
    { intros Hbad.
      assert (E1 : "--help" = flag).
      { apply Huniq; [|rewrite Hbad; reflexivity].
        unfold HParams.option_strings. rewrite !elem_of_app, !elem_of_cons.
        tauto. }
      assert (E2 : "--seed" = flag).
      { apply Huniq; [|rewrite Hbad; reflexivity].
        unfold HParams.option_strings, HParams.own_flags.
        rewrite !elem_of_app, !elem_of_cons. tauto. }
      congruence. }
    split; [|apply bool_decide_eq_false_2, Hsep].
    unfold HParams.classify.
    rewrite bool_decide_eq_false_2 by (destruct more; discriminate).
    change (String.prefix "-" ("--" +:+ more)) with true. simpl negb.
    cbv iota.
    rewrite (bool_decide_eq_false_2 _ Hnotin).
    rewrite bool_decide_eq_false_2 by (destruct more; discriminate).
    unfold HParams.explicit, HParams.candidates.
    rewrite (split_eq_None _ Heq).
    rewrite (prefix_append "--" more).
    rewrite (filter_unique _ _ flag Hnodup
               (own_flag_is_option flag Hflag) Hpre Huniq).
    simpl. apply own_flag_is_not_help, Hflag. }
  destruct Hclass as [Hclass Hsep].
  assert (Hpairs : HParams.pairs (tok :: rest) = HParams.pairs (flag :: rest)).
  { unfold HParams.pairs. cbn [HParams.tokens].
    rewrite Hsep, Hclass, (own_flag_not_separator flag Hflag),
      (classify_own_flag flag Hflag). reflexivity. }
  unfold HParams.parse_args. rewrite Hpairs. reflexivity.
Qed.
End Abbreviations.

(** ** The script body, beyond the claims *)

Section MainExtras.
Context `{Python} `{Lightning} `{Torch} `{!Monai} `{FileSystem}.

(** The data module of a run was built by its constructor. *)
Lemma main_datamodule (argv : list string) (w w' : World)
    (p : Script.Program) :
  Script.main argv w = (Ok p, w') ->
  exists (d1 d2 d3 d4 d5 d6 d7 d8 d9 d10 d11 d12 : list string)
         (shape batch_size train_samples val_samples test_samples : Z)
         (w1 : World),
    PairedAndUnpairedDataModule.__init__ d1 d2 d3 d4 d5 d6 d7 d8 d9 d10 d11
      d12 shape batch_size train_samples val_samples test_samples w
    = (Ok (Script.datamodule p), w1).
Proof.
  unfold Script.main. intros Hrun.
  bind_inv Hrun. lift_inv Hstep.
  bind_inv Hrun. rename Hstep into Hinit.
  bind_inv Hrun. bind_inv Hrun. bind_inv Hrun. bind_inv Hrun. bind_inv Hrun.
  apply ret_Ok in Hrun as [-> _]. cbn [Script.datamodule].
  do 18 eexists. exact Hinit.
Qed.

(** Building the model draws the three networks and then stops at the
    scheduler when the timesteps are negative. *)
Lemma model_init_cases (hp : HParams.t) (w : World) :
  exists w', events w' = events w /\
    if (HParams.timesteps hp <? 0)%Z
    then DDMMLightningModule.__init__ hp w = (Raise RuntimeError, w')
    else exists m, DDMMLightningModule.__init__ hp w = (Ok m, w').
Proof.
  cbv [DDMMLightningModule.__init__ DDPMScheduler__init__ bind lift ret draw
       gen events].
  destruct (DiffusionModelUNet DDMMLightningModule.unet_config
              (let (gen, _) := w in gen)) as [n1 g1].
  destruct (DiffusionModelUNet DDMMLightningModule.unet_config g1) as [n2 g2].
  destruct (DiffusionModelUNet DDMMLightningModule.unet_config g2) as [n3 g3].
  destruct (HParams.timesteps hp <? 0)%Z.
  - eexists. split; [|reflexivity]. reflexivity.
  - eexists. split; [|eexists; reflexivity]. reflexivity.
Qed.

(** How the script ends once the command line is parsed: it stops at the
    scheduler when the timesteps are negative, at the trainer when the
    epochs are below -1, and reaches [trainer.fit] otherwise. *)
Lemma main_parsed (argv : list string) (hp : HParams.t) (w : World) :
  HParams.parse_args argv = Ok hp ->
  exists (w' : World) (prints : list Event),
    Forall is_print prints /\
    if (HParams.timesteps hp <? 0)%Z
    then Script.main argv w = (Raise RuntimeError, w') /\
         events w' = events w ++ prints ++ [SetDeterminism (HParams.seed hp)]
    else if (HParams.epochs hp <? -1)%Z
    then Script.main argv w
           = (Raise (External "MisconfigurationException"), w') /\
         events w' = events w ++ prints ++
           [SetDeterminism (HParams.seed hp); SeedEverything 42]
    else exists p, Script.main argv w = (Ok p, w').
Proof.
  intros Hparse.
  remember (Script.main argv w) as run eqn:Hrun. unfold Script.main in Hrun.
  rewrite (bind_step _ _ w w hp) in Hrun
    by (unfold lift; rewrite Hparse; reflexivity).
  cbn zeta beta in Hrun.
  match type of Hrun with
  | context [PairedAndUnpairedDataModule.__init__ ?d1 ?d2 ?d3 ?d4 ?d5 ?d6 ?d7
               ?d8 ?d9 ?d10 ?d11 ?d12 ?sh ?bs ?tr ?va ?te] =>
      destruct (datamodule_init_returns d1 d2 d3 d4 d5 d6 d7 d8 d9 d10 d11
                  d12 sh bs tr va te w) as (dm & w1 & Hinit)
  end.
  rewrite (bind_step _ _ _ _ _ Hinit) in Hrun.
  apply datamodule_init_Ok in Hinit as (_ & (prints & Hev1 & Hprints) & _).
  rewrite (bind_step _ _ w1
             {| gen := manual_seed (HParams.seed hp `mod` 2 ^ 32);
                events := events w1 ++ [SetDeterminism (HParams.seed hp)] |}
             tt) in Hrun by reflexivity.
  destruct (model_init_cases hp
              {| gen := manual_seed (HParams.seed hp `mod` 2 ^ 32);
                 events := events w1 ++ [SetDeterminism (HParams.seed hp)] |})
    as (w2 & Hev2 & Hmodel).
  simpl in Hev2.
  destruct (HParams.timesteps hp <? 0)%Z.
  { rewrite (bind_Raise _ _ _ _ _ Hmodel) in Hrun. subst run.
    exists w2, prints. split; [exact Hprints|]. split; [reflexivity|].
    rewrite Hev2, Hev1, <- !app_assoc. reflexivity. }
  destruct Hmodel as [m Hmodel].
  rewrite (bind_step _ _ _ _ _ Hmodel) in Hrun.
  rewrite (bind_step _ _ w2
             {| gen := manual_seed 42;
                events := events w2 ++ [SeedEverything 42] |} tt) in Hrun
    by reflexivity.
  unfold Trainer.from_argparse_args in Hrun.
  destruct (HParams.epochs hp <? -1)%Z.
  { rewrite (bind_Raise _ _ _ _ (External "MisconfigurationException"))
      in Hrun by reflexivity.
    subst run. eexists _, prints. split; [exact Hprints|].
    split; [reflexivity|]. simpl.
    rewrite Hev2, Hev1, <- !app_assoc. reflexivity. }
  subst run. exists
    {| gen := manual_seed 42;
       events := (events w2 ++ [SeedEverything 42]) ++ [Fit (HParams.ckpt hp)] |},
    []. split; [constructor|]. eexists. reflexivity.
Qed.

(** X13.  What a run builds does not depend on the state torch's generator
    was in when the script started: the three networks are created after
    [set_determinism] has reseeded it. *)
Theorem main_build_is_reproducible (argv : list string) (w1 w2 : World) :
  fst (Script.main argv w1) = fst (Script.main argv w2).
Proof.
  destruct (HParams.parse_args argv) as [hp|e] eqn:Hparse.
  - cbv [Script.main PairedAndUnpairedDataModule.__init__
         PairedAndUnpairedDataModule.glob_files
         PairedAndUnpairedDataModule.setup DDMMLightningModule.__init__
         DDPMScheduler__init__ Trainer.from_argparse_args
         bind lift emit ret draw reseed gen events].
    rewrite Hparse.
    destruct (DiffusionModelUNet DDMMLightningModule.unet_config
                (manual_seed (HParams.seed hp `mod` 2 ^ 32))) as [n1 g1].
    destruct (DiffusionModelUNet DDMMLightningModule.unet_config g1)
      as [n2 g2].
    destruct (DiffusionModelUNet DDMMLightningModule.unet_config g2)
      as [n3 g3].
    destruct (HParams.timesteps hp <? 0)%Z; [reflexivity|].
    destruct (HParams.epochs hp <? -1)%Z; reflexivity.
  - rewrite !(main_parse_error argv e _ Hparse). reflexivity.
Qed.

(** X24.  A command line that parses with a negative number of timesteps
    stops the script at the scheduler, with [RuntimeError], after the file
    lists are printed and the data module's determinism is set up, and
    before [seed_everything]; one with a number of epochs below -1 stops it
    at the trainer, after [seed_everything(42)].  In both cases
    [trainer.fit] is not called. *)
Theorem main_refused_numbers (argv : list string) (hp : HParams.t)
    (w : World) :
  HParams.parse_args argv = Ok hp ->
  ((HParams.timesteps hp < 0)%Z ->
   exists (w' : World) (prints : list Event),
     Script.main argv w = (Raise RuntimeError, w') /\
     Forall is_print prints /\
     events w' = events w ++ prints ++ [SetDeterminism (HParams.seed hp)]) /\
  ((0 <= HParams.timesteps hp)%Z -> (HParams.epochs hp < -1)%Z ->
   exists (w' : World) (prints : list Event),
     Script.main argv w
       = (Raise (External "MisconfigurationException"), w') /\
     Forall is_print prints /\
     events w' = events w ++ prints ++
       [SetDeterminism (HParams.seed hp); SeedEverything 42]).
Proof.
  intros Hparse.
  destruct (main_parsed argv hp w Hparse) as (w' & prints & Hprints & Hend).
  split.
  - intros Hneg. destruct (Z.ltb_spec (HParams.timesteps hp) 0); [|lia].
    exists w', prints. tauto.
  - intros Hsteps Hep.
    destruct (Z.ltb_spec (HParams.timesteps hp) 0); [lia|].
    destruct (Z.ltb_spec (HParams.epochs hp) (-1)); [|lia].
    exists w', prints. tauto.
Qed.
(** X25.  The seed of the command line counts modulo 2^32 only: two runs
    whose seeds leave the same remainder build the same three networks,
    whatever else their command lines say and wherever torch's generator
    stood before. *)
Theorem seed_counts_modulo_2_32 (argv1 argv2 : list string)
    (w1 w1' w2 w2' : World) (p1 p2 : Script.Program) :
  Script.main argv1 w1 = (Ok p1, w1') ->
  Script.main argv2 w2 = (Ok p2, w2') ->
  (HParams.seed (Script.hparams p1) `mod` 2 ^ 32
   = HParams.seed (Script.hparams p2) `mod` 2 ^ 32)%Z ->
  DDMMLightningModule.noise2space (Script.model p1)
    = DDMMLightningModule.noise2space (Script.model p2) /\
  DDMMLightningModule.image2label (Script.model p1)
    = DDMMLightningModule.image2label (Script.model p2) /\
  DDMMLightningModule.label2image (Script.model p1)
    = DDMMLightningModule.label2image (Script.model p2).
Proof.
  intros Hrun1 Hrun2 Hseed.
  destruct (main_Ok _ _ _ _ Hrun1)
    as (_ & _ & _ & (g1 & g2 & g3 & Ha1 & Ha2 & Ha3) & _).
  destruct (main_Ok _ _ _ _ Hrun2)
    as (_ & _ & _ & (k1 & k2 & k3 & Hb1 & Hb2 & Hb3) & _).
  cbn zeta in *. rewrite Hseed in Ha1. rewrite Ha1 in Hb1.
  injection Hb1 as Hn1 <-. rewrite Ha2 in Hb2. injection Hb2 as Hn2 <-.
  rewrite Ha3 in Hb3. injection Hb3 as Hn3 _. auto.
Qed.

(** X14.  In a run, the test file lists are the validation file lists: the
    script gives the data module the validation directories for testing. *)
Theorem main_test_files_are_val_files (argv : list string) (w w' : World)
    (p : Script.Program) :
  Script.main argv w = (Ok p, w') ->
  let dm := Script.datamodule p in
  PairedAndUnpairedDataModule.test_ssource_files dm
    = PairedAndUnpairedDataModule.val_ssource_files dm /\
  PairedAndUnpairedDataModule.test_starget_files dm
    = PairedAndUnpairedDataModule.val_starget_files dm /\
  PairedAndUnpairedDataModule.test_usource_files dm
    = PairedAndUnpairedDataModule.val_usource_files dm /\
  PairedAndUnpairedDataModule.test_utarget_files dm
    = PairedAndUnpairedDataModule.val_utarget_files dm.
Proof.
  intros Hrun dm.
  destruct (main_datamodule _ _ _ _ Hrun)
    as (d1 & d2 & d3 & d4 & d5 & d6 & d7 & d8 & d9 & d10 & d11 & d12 &
        sh & bs & tr & va & te & w1 & Hinit).
  pose proof (datamodule_init_files _ _ _ _ _ _ _ _ _ _ _ _ _ _ _ _ _ _ _ _
                Hinit) as Hfiles.
  apply datamodule_init_Ok in Hinit as (_ & _ & _ & _ & _ & _ & _ & Hdirs).
  destruct (main_Ok _ _ _ _ Hrun)
    as (_ & _ & _ & _ & _ &
        (_ & _ & _ & _ & Hv1 & Hv2 & Hv3 & Hv4 & Ht1 & Ht2 & Ht3 & Ht4) & _).
  cbn zeta in Hfiles.
  injection Hfiles as _ _ _ _ F5 F6 F7 F8 F9 F10 F11 F12.
  injection Hdirs as _ _ _ _ D5 D6 D7 D8 D9 D10 D11 D12.
  unfold dm. rewrite F5, F6, F7, F8, F9, F10, F11, F12.
  rewrite <- D5, <- D6, <- D7, <- D8, <- D9, <- D10, <- D11, <- D12.
  rewrite Hv1, Hv2, Hv3, Hv4, Ht1, Ht2, Ht3, Ht4. repeat split; reflexivity.
Qed.

(** X15.  Every directory a run hands to the data module starts with the
    value of [--datadir]: the script reads nothing outside it. *)
Theorem main_reads_under_datadir (argv : list string) (w w' : World)
    (p : Script.Program) :
  Script.main argv w = (Ok p, w') ->
  let dm := Script.datamodule p in
  let datadir := HParams.datadir (Script.hparams p) in
  Forall (Forall (fun d => String.prefix datadir d = true))
    [ PairedAndUnpairedDataModule.train_ssource_dirs dm;
      PairedAndUnpairedDataModule.train_starget_dirs dm;
      PairedAndUnpairedDataModule.train_usource_dirs dm;
      PairedAndUnpairedDataModule.train_utarget_dirs dm;
      PairedAndUnpairedDataModule.val_ssource_dirs dm;
      PairedAndUnpairedDataModule.val_starget_dirs dm;
      PairedAndUnpairedDataModule.val_usource_dirs dm;
      PairedAndUnpairedDataModule.val_utarget_dirs dm;
      PairedAndUnpairedDataModule.test_ssource_dirs dm;
      PairedAndUnpairedDataModule.test_starget_dirs dm;
      PairedAndUnpairedDataModule.test_usource_dirs dm;
      PairedAndUnpairedDataModule.test_utarget_dirs dm ].
Proof.
  intros Hrun. cbn zeta.
  destruct (main_Ok _ _ _ _ Hrun)
    as (_ & _ & _ & _ & _ &
        (-> & -> & -> & -> & -> & -> & -> & -> & -> & -> & -> & ->) & _).
  repeat (constructor;
          [repeat (constructor;
                   [apply path_join_relative; reflexivity|]); constructor|]).
  constructor.
Qed.

(** X16.  The optimizer of a run's model: one AdamW over the parameters of
    the three networks with the learning rate and the weight decay of the
    command line, and one MultiStepLR on that optimizer with milestones 10
    and 20. *)
Theorem main_optimizer (argv : list string) (w w' : World)
    (p : Script.Program) :
  Script.main argv w = (Ok p, w') ->
  let m := Script.model p in
  exists (o : Optimizers.AdamW) (sch : Optimizers.MultiStepLR),
    Optimizers.configure_optimizers m = ([o], [sch]) /\
    Optimizers.lr o = HParams.lr (Script.hparams p) /\
    Optimizers.weight_decay o = HParams.weight_decay (Script.hparams p) /\
    Optimizers.params o =
      [ DDMMLightningModule.noise2space m; DDMMLightningModule.image2label m;
        DDMMLightningModule.label2image m ] /\
    Optimizers.optimizer sch = o /\
    Optimizers.milestones sch = [10; 20]%Z.
Proof.
  intros Hrun m.
  destruct (main_Ok _ _ _ _ Hrun)
    as (_ & _ & _ & _ & _ & _ & (Hlr & _ & Hwd & _) & _).
  eexists _, _. split; [reflexivity|]. simpl.
  repeat split; assumption.
Qed.
End MainExtras.

Section MainFiles.
Context `{Python} `{Lightning} `{Torch}.

End MainFiles.

(** ** The script body, beyond the claims, on concrete inputs *)

Lemma parse_args_exits_witness :
  @HParams.parse_args Toy.python Toy.lightning ["--seed"; "seven"]
  = Raise (SystemExit 2).
Proof.
  destruct (@HParams.parse_args Toy.python Toy.lightning ["--seed"; "seven"])
    as [hp|e] eqn:Hparse.
  - vm_compute in Hparse. discriminate Hparse.
  - destruct (parse_args_exits _ _ Hparse)
      as [->|(_ & tok & Hin & Hh)]; [reflexivity|].
    exfalso. rewrite !elem_of_cons, elem_of_nil in Hin.
    destruct Hin as [->|[->|[]]]; destruct Hh; discriminate.
Defined.


Lemma toy_parse_negative_timesteps :
  exists hp,
    @HParams.parse_args Toy.python Toy.lightning ["--timesteps"; "-1"] = Ok hp /\
    HParams.timesteps hp = (-1)%Z /\ HParams.seed hp = 42%Z.
Proof. eexists. split; [vm_compute; reflexivity|]. split; reflexivity. Qed.

Lemma main_refused_numbers_witness :
  exists w' prints,
    @Script.main Toy.python Toy.lightning Toy.torch Toy.fs
      ["--timesteps"; "-1"] Toy.world0 = (Raise RuntimeError, w') /\
    events w' = prints ++ [SetDeterminism 42].
Proof.
  destruct toy_parse_negative_timesteps as (hp & Hparse & Hsteps & Hseed).
  destruct (proj1 (@main_refused_numbers Toy.python Toy.lightning Toy.torch
                     Toy.fs _ _ Toy.world0 Hparse))
    as (w' & prints & Hrun & _ & Hev); [lia|].
  exists w', prints. split; [exact Hrun|]. rewrite Hev, Hseed. reflexivity.
Defined.

Lemma option_like_value_is_refused_witness :
  @HParams.parse_args Toy.python Toy.lightning ["--logsdir"; "--seed"; "7"]
  = Raise (SystemExit 2).
Proof.
  apply (@option_like_value_is_refused Toy.python Toy.lightning);
    try reflexivity.
  - unfold HParams.own_flags. rewrite !elem_of_cons. tauto.
  - discriminate.
  - repeat constructor.
Defined.

Lemma flag_equals_value_witness :
  @HParams.parse_args Toy.python Toy.lightning ["--seed=7"]
  = @HParams.parse_args Toy.python Toy.lightning ["--seed"; "7"].
Proof.
  apply (@flag_equals_value Toy.python Toy.lightning "--seed" "7").
  - unfold HParams.own_flags. rewrite !elem_of_cons. tauto.
  - reflexivity.
  - simpl. rewrite !elem_of_cons, elem_of_nil. intros [Hbad|[]].
    discriminate Hbad.
Defined.

Lemma unique_abbreviation_witness :
  @HParams.parse_args Toy.python Toy.lightning ["--see"; "7"]
  = @HParams.parse_args Toy.python Toy.lightning ["--seed"; "7"].
Proof.
  apply (@unique_abbreviation Toy.python Toy.lightning "--see" "--seed").
  - unfold HParams.own_flags. rewrite !elem_of_cons. tauto.
  - apply (bool_decide_unpack _). vm_compute. exact I.
  - reflexivity.
  - reflexivity.
  - reflexivity.
  - intros o Hin. unfold HParams.option_strings, HParams.own_flags in Hin.
    simpl in Hin. rewrite !elem_of_cons, elem_of_nil in Hin.
    repeat (destruct Hin as [->|Hin];
            [first [reflexivity | discriminate]|]).
    destruct Hin.
Defined.

Lemma toy_parse_seed_beyond_32_bits :
  exists hp,
    @HParams.parse_args Toy.python Toy.lightning ["--seed"; "4294967303"]
    = Ok hp /\
    HParams.seed hp = 4294967303%Z /\
    HParams.timesteps hp = 100%Z /\ HParams.epochs hp = 31%Z.
Proof. eexists. split; [vm_compute; reflexivity|]. repeat split; reflexivity. Qed.

Lemma seed_counts_modulo_2_32_witness :
  exists p1 p2 w1' w2',
    @Script.main Toy.python Toy.lightning Toy.torch Toy.fs
      ["--seed"; "7"] Toy.world0 = (Ok p1, w1') /\
    @Script.main Toy.python Toy.lightning Toy.torch Toy.fs
      ["--seed"; "4294967303"] Toy.world0 = (Ok p2, w2') /\
    DDMMLightningModule.noise2space (Script.model p1)
    = DDMMLightningModule.noise2space (Script.model p2).
Proof.
  destruct (@parse_args_seed_7 Toy.python Toy.lightning)
    as (hp1 & Hparse1 & Hseed1 & _ & Hsteps1 & Hep1).
  destruct toy_parse_seed_beyond_32_bits
    as (hp2 & Hparse2 & Hseed2 & Hsteps2 & Hep2).
  destruct (@main_returns Toy.python Toy.lightning Toy.torch Toy.fs
              _ _ Toy.world0 Hparse1) as (p1 & w1' & Hrun1 & Hhp1);
    [lia | lia |].
  destruct (@main_returns Toy.python Toy.lightning Toy.torch Toy.fs
              _ _ Toy.world0 Hparse2) as (p2 & w2' & Hrun2 & Hhp2);
    [lia | lia |].
  exists p1, p2, w1', w2'. split; [exact Hrun1|]. split; [exact Hrun2|].
  apply (@seed_counts_modulo_2_32 Toy.python Toy.lightning Toy.torch Toy.fs
           _ _ _ _ _ _ _ _ Hrun1 Hrun2).
  rewrite Hhp1, Hhp2, Hseed1, Hseed2. reflexivity.
Defined.

Lemma main_test_files_are_val_files_witness :
  exists p w',
    @Script.main Toy.python Toy.lightning Toy.torch Toy.fs
      ["--logsdir"; "out"; "--epochs"; "3"] Toy.world0 = (Ok p, w') /\
    PairedAndUnpairedDataModule.test_ssource_files (Script.datamodule p)
    = PairedAndUnpairedDataModule.val_ssource_files (Script.datamodule p).
Proof.
  destruct toy_main_runs as (p & w' & Hrun & _). exists p, w'.
  split; [exact Hrun|].
  exact (proj1 (@main_test_files_are_val_files Toy.python Toy.lightning
                  Toy.torch Toy.fs _ _ _ _ Hrun)).
Defined.

Lemma main_reads_under_datadir_witness :
  exists p w',
    @Script.main Toy.python Toy.lightning Toy.torch Toy.fs
      ["--logsdir"; "out"; "--epochs"; "3"] Toy.world0 = (Ok p, w') /\
    Forall (fun d => String.prefix (HParams.datadir (Script.hparams p)) d = true)
      (PairedAndUnpairedDataModule.train_usource_dirs (Script.datamodule p)).
Proof.
  destruct toy_main_runs as (p & w' & Hrun & _). exists p, w'.
  split; [exact Hrun|].
  pose proof (@main_reads_under_datadir Toy.python Toy.lightning Toy.torch
                Toy.fs _ _ _ _ Hrun) as Hall.
  cbn zeta in Hall. rewrite Forall_lookup in Hall.
  exact (Hall 2%nat _ eq_refl).
Defined.

Lemma main_optimizer_witness :
  exists p w' o sch,
    @Script.main Toy.python Toy.lightning Toy.torch Toy.fs
      ["--logsdir"; "out"; "--epochs"; "3"] Toy.world0 = (Ok p, w') /\
    @Optimizers.configure_optimizers Toy.python Toy.torch (Script.model p)
      = ([o], [sch]) /\
    Optimizers.lr o = HParams.lr (Script.hparams p).
Proof.
  destruct toy_main_runs as (p & w' & Hrun & _).
  destruct (@main_optimizer Toy.python Toy.lightning Toy.torch Toy.fs
              _ _ _ _ Hrun) as (o & sch & Hconf & Hlr & _).
  exists p, w', o, sch. split; [exact Hrun|]. split; assumption.
Defined.

(** ** The training step, beyond the claims *)

Section StepExtras.
Context `{Python} `{Torch}.
Implicit Types (self : DDMMLightningModule.t) (w : World)
  (batch : gmap string Tensor).

(** X17.  The entries under [images] and [labels] must be in the batch but
    are never used: two batches with the same [source] and [target], each
    holding some [images] and some [labels], give the same step, the same
    loss, the same logs and the same draws. *)
Theorem common_step_ignores_unpaired self (batch1 batch2 : gmap string Tensor)
    (batch_idx optimizer_idx : Z) (stage : string) w :
  batch1 !! "source" = batch2 !! "source" ->
  batch1 !! "target" = batch2 !! "target" ->
  is_Some (batch1 !! "images") -> is_Some (batch1 !! "labels") ->
  is_Some (batch2 !! "images") -> is_Some (batch2 !! "labels") ->
  DDMMLightningModule._common_step self batch1 batch_idx optimizer_idx stage w
  = DDMMLightningModule._common_step self batch2 batch_idx optimizer_idx
      stage w.
Proof.
  intros Hs Ht [i1 Hi1] [l1 Hl1] [i2 Hi2] [l2 Hl2].
  unfold DDMMLightningModule._common_step.
  unfold bind at 1 2 3 4. unfold lift at 1 2 3 4.
  unfold DDMMLightningModule.batch_getitem at 1 2 3 4.
  rewrite Hs, Ht, Hi1, Hl1.
  symmetry.
  unfold bind at 1 2 3 4. unfold lift at 1 2 3 4.
  unfold DDMMLightningModule.batch_getitem at 1 2 3 4.
  rewrite Hi2, Hl2.
  destruct (batch2 !! "source"); [|reflexivity].
  destruct (batch2 !! "target"); reflexivity.
Qed.

(** X18.  A step asks the batch for [source], [target], [images] and
    [labels] in this order and stops at the first that is missing, with a
    [KeyError] naming it and before anything is drawn or logged. *)
Theorem common_step_first_missing_key self batch
    (batch_idx optimizer_idx : Z) (stage : string) w :
  let step :=
    DDMMLightningModule._common_step self batch batch_idx optimizer_idx
      stage w in
  (batch !! "source" = None -> step = (Raise (KeyError "source"), w)) /\
  (is_Some (batch !! "source") -> batch !! "target" = None ->
   step = (Raise (KeyError "target"), w)) /\
  (is_Some (batch !! "source") -> is_Some (batch !! "target") ->
   batch !! "images" = None -> step = (Raise (KeyError "images"), w)) /\
  (is_Some (batch !! "source") -> is_Some (batch !! "target") ->
   is_Some (batch !! "images") -> batch !! "labels" = None ->
   step = (Raise (KeyError "labels"), w)).
Proof.
  cbn zeta.
  assert (Hopen :
    DDMMLightningModule._common_step self batch batch_idx optimizer_idx stage w
    = match batch !! "source" with
      | None => (Raise (KeyError "source"), w)
      | Some _ =>
          match batch !! "target" with
          | None => (Raise (KeyError "target"), w)
          | Some _ =>
              match batch !! "images" with
              | None => (Raise (KeyError "images"), w)
              | Some _ =>
                  match batch !! "labels" with
                  | None => (Raise (KeyError "labels"), w)
                  | Some _ =>
                      DDMMLightningModule._common_step self batch batch_idx
                        optimizer_idx stage w
                  end
              end
          end
      end).
  { unfold DDMMLightningModule._common_step at 1.
    unfold bind at 1 2 3 4. unfold lift at 1 2 3 4.
    unfold DDMMLightningModule.batch_getitem at 1 2 3 4.
    destruct (batch !! "source") eqn:Hs; [|reflexivity].
    destruct (batch !! "target") eqn:Ht; [|reflexivity].
    destruct (batch !! "images") eqn:Hi; [|reflexivity].
    destruct (batch !! "labels") eqn:Hl; [|reflexivity].
    unfold DDMMLightningModule._common_step.
    unfold bind at 1 2 3 4. unfold lift at 1 2 3 4.
    unfold DDMMLightningModule.batch_getitem at 1 2 3 4.
    rewrite Hs, Ht, Hi, Hl. reflexivity. }
  repeat split.
  - intros Hs. rewrite Hopen, Hs. reflexivity.
  - intros [x Hx] Ht. rewrite Hopen, Hx, Ht. reflexivity.
  - intros [x Hx] [y Hy] Hi. rewrite Hopen, Hx, Hy, Hi. reflexivity.
  - intros [x Hx] [y Hy] [z Hz] Hl. rewrite Hopen, Hx, Hy, Hz, Hl.
    reflexivity.
Qed.

(** The events of a step that returned, one case per kind of step. *)
Lemma common_step_events self batch (batch_idx optimizer_idx : Z)
    (stage : string) w w' (info : gmap string Tensor) :
  DDMMLightningModule._common_step self batch batch_idx optimizer_idx stage w
    = (Ok info, w') ->
  exists super_loss unsup_loss : Tensor,
    let logs :=
      [ Log (stage +:+ "_super_loss") super_loss
          (bool_decide (stage = "train")) (DDMMLightningModule.batch_size self);
        Log (stage +:+ "_unsup_loss") unsup_loss
          (bool_decide (stage = "train")) (DDMMLightningModule.batch_size self) ] in
    if bool_decide (stage = "train") && (batch_idx `mod` 10 =? 0)%Z
    then exists img : Tensor,
           events w' = events w ++ logs ++
             [AddImage (stage +:+ "_samples") img
                (DDMMLightningModule.global_step self `div` 10)]
    else events w' = events w ++ logs.
Proof.
  unfold DDMMLightningModule._common_step. intros E.
  do 4 (bind_inv E; lift_inv Hstep).
  bind_inv E. apply draw_res_Ok in Hstep as [_ Hev1].
  bind_inv E. apply draw_Ok in Hstep as [_ Hev2].
  do 6 (bind_inv E; lift_inv Hstep).
  bind_inv E. apply draw_Ok in Hstep as [_ Hev3].
  bind_inv E. rename Hstep into Hloop.
  match type of Hloop with
  | for_each _ _ _ _ = (Ok ?r, _) => destruct r as [[[ss st] sp] sn]
  end.
  pose proof (for_each_events _ _
                (fun a x w w' a' => denoise_body_events self _ _ _ _ a a' x w w')
                _ _ _ _ Hloop) as Hev4.
  do 4 (bind_inv E; lift_inv Hstep).
  bind_inv E. apply emit_Ok in Hstep as [_ Hev5].
  bind_inv E. apply emit_Ok in Hstep as [_ Hev6].
  bind_inv E. rename Hstep into Hviz.
  apply ret_Ok in E as [_ ->].
  rewrite Hev5, Hev4, Hev3, Hev2, Hev1, <- app_assoc in Hev6. simpl in Hev6.
  eexists _, _. cbn zeta.
  destruct (bool_decide (stage = "train") && (batch_idx `mod` 10 =? 0)%Z).
  - do 3 (bind_inv Hviz; lift_inv Hstep).
    apply emit_Ok in Hviz as [_ Hev7].
    eexists. rewrite Hev7, Hev6, <- !app_assoc. reflexivity.
  - apply ret_Ok in Hviz as [_ ->]. exact Hev6.
Qed.

(** X19.  Validation and test steps, and training steps whose batch index
    is not a multiple of 10, log two values and nothing else.  A training
    step whose batch index is a multiple of 10 adds, after the two logs,
    one image under the tag [train_samples], at the step number
    [global_step // 10]. *)
Theorem common_step_image_every_tenth self batch
    (batch_idx optimizer_idx : Z) (stage : string) w w'
    (info : gmap string Tensor) :
  DDMMLightningModule._common_step self batch batch_idx optimizer_idx stage w
    = (Ok info, w') ->
  (stage <> "train" \/ (batch_idx `mod` 10 <> 0)%Z ->
   exists super_loss unsup_loss on_step n,
     events w' = events w ++
       [ Log (stage +:+ "_super_loss") super_loss on_step n;
         Log (stage +:+ "_unsup_loss") unsup_loss on_step n ]) /\
  (stage = "train" -> (batch_idx `mod` 10 = 0)%Z ->
   exists super_loss unsup_loss img,
     events w' = events w ++
       [ Log "train_super_loss" super_loss true
           (DDMMLightningModule.batch_size self);
         Log "train_unsup_loss" unsup_loss true
           (DDMMLightningModule.batch_size self);
         AddImage "train_samples" img
           (DDMMLightningModule.global_step self `div` 10) ]).
Proof.
  intros Hrun.
  destruct (common_step_events _ _ _ _ _ _ _ _ Hrun) as (sl & ul & Hev).
  cbn zeta in Hev. split.
  - intros Hno.
    assert (Hc : bool_decide (stage = "train") && (batch_idx `mod` 10 =? 0)%Z
                 = false).
    { destruct Hno as [Hs|Hb].
      - rewrite (bool_decide_eq_false_2 _ Hs). reflexivity.
      - apply Z.eqb_neq in Hb. rewrite Hb. apply andb_false_r. }
    rewrite Hc in Hev. eauto 10.
  - intros -> Hb. apply Z.eqb_eq in Hb. rewrite Hb in Hev.
    destruct Hev as [img Hev]. exists sl, ul, img. exact Hev.
Qed.

(** X20.  The stage, the batch index and the optimizer index only decide
    what is logged: two steps that add no image, on the same batch and from
    the same state, return the same loss (or raise the same exception) and
    leave torch's generator in the same state. *)
Theorem common_step_stage_only_logs self batch
    (idx1 idx2 opt1 opt2 : Z) (stage1 stage2 : string) w :
  bool_decide (stage1 = "train") && (idx1 `mod` 10 =? 0)%Z = false ->
  bool_decide (stage2 = "train") && (idx2 `mod` 10 =? 0)%Z = false ->
  let run1 := DDMMLightningModule._common_step self batch idx1 opt1 stage1 w in
  let run2 := DDMMLightningModule._common_step self batch idx2 opt2 stage2 w in
  fst run1 = fst run2 /\ gen (snd run1) = gen (snd run2).
Proof.
  intros H1 H2. cbn zeta.
  unfold DDMMLightningModule._common_step.
  rewrite H1, H2.
  unfold bind, lift, draw, draw_res, emit, ret.
  repeat (match goal with
          | |- context [match ?x with _ => _ end] =>
              lazymatch x with
              | context [match _ with _ => _ end] => fail
              | _ => destruct x eqn:?
              end
          end; simpl; try (split; reflexivity)).
Qed.
End StepExtras.

(** ** The training step, beyond the claims, on concrete inputs *)

Lemma common_step_ignores_unpaired_witness :
  @DDMMLightningModule._common_step Toy.python Toy.torch Toy.ddmm Toy.batch
    0 0 "train" Toy.world0
  = @DDMMLightningModule._common_step Toy.python Toy.torch Toy.ddmm
      ToyMore.batch_other_unpaired 0 0 "train" Toy.world0.
Proof.
  apply (@common_step_ignores_unpaired Toy.python Toy.torch);
    first [reflexivity | eexists; reflexivity].
Defined.

Lemma common_step_first_missing_key_witness :
  @DDMMLightningModule._common_step Toy.python Toy.torch Toy.ddmm
    ToyMore.batch_no_labels 0 0 "train" Toy.world0
  = (Raise (KeyError "labels"), Toy.world0).
Proof.
  apply (proj2 (proj2 (proj2
           (@common_step_first_missing_key Toy.python Toy.torch Toy.ddmm
              ToyMore.batch_no_labels 0%Z 0%Z "train" Toy.world0))));
    first [reflexivity | eexists; reflexivity].
Defined.

Lemma common_step_image_every_tenth_witness :
  exists (w' : @World Toy.torch)
         (super_loss unsup_loss img : @Tensor Toy.torch),
    events w' =
      [ @Log Toy.torch "train_super_loss" super_loss true 8;
        Log "train_unsup_loss" unsup_loss true 8;
        AddImage "train_samples" img 0 ].
Proof.
  destruct (@DDMMLightningModule._common_step Toy.python Toy.torch Toy.ddmm
              Toy.batch 0 0 "train" Toy.world0) as [[info|e] w'] eqn:Hrun.
  2:{ pose proof toy_common_step as Ht. rewrite Hrun in Ht. discriminate. }
  destruct (proj2 (common_step_image_every_tenth _ _ _ _ _ _ _ _ Hrun)
              eq_refl eq_refl) as (sl & ul & img & Hev).
  exists w', sl, ul, img. exact Hev.
Defined.

Lemma common_step_stage_only_logs_witness :
  fst (@DDMMLightningModule._common_step Toy.python Toy.torch Toy.ddmm
         Toy.batch 3 0 "validation" Toy.world0)
  = fst (@DDMMLightningModule._common_step Toy.python Toy.torch Toy.ddmm
           Toy.batch 7 0 "test" Toy.world0).
Proof.
  apply (@common_step_stage_only_logs Toy.python Toy.torch Toy.ddmm Toy.batch
           3 7 0 0 "validation" "test" Toy.world0); reflexivity.
Defined.

(** ** Epoch ends *)

Lemma comprehension_Forall2 {A B} (f : A -> Res B) (l : list A) (r : list B) :
  comprehension f l = Ok r -> Forall2 (fun x y => f x = Ok y) l r.
Proof.
  revert r. induction l as [|x l IH]; intros r; simpl.
  - intros [= <-]. constructor.
  - destruct (f x) as [y|e] eqn:Hx; [|discriminate]. simpl.
    destruct (comprehension f l) as [ys|e]; [|discriminate]. simpl.
    intros [= <-]. constructor; [exact Hx | exact (IH ys eq_refl)].
Qed.

Lemma comprehension_Ok {A B} (f : A -> Res B) (l : list A) :
  Forall (fun x => exists y, f x = Ok y) l ->
  exists r, comprehension f l = Ok r.
Proof.
  induction 1 as [|x l [y Hy] _ [r IH]]; simpl.
  - eexists. reflexivity.
  - rewrite Hy, IH. simpl. eexists. reflexivity.
Qed.

Lemma comprehension_Raise {A B} (f : A -> Res B) (l : list A) (e : PyErr) :
  Forall (fun x => f x = Raise e \/ exists y, f x = Ok y) l ->
  Exists (fun x => f x = Raise e) l ->
  comprehension f l = Raise e.
Proof.
  intros Hall. induction Hall as [|x l Hx _ IH]; intros Hex.
  - inversion Hex.
  - simpl. destruct Hx as [Hx|[y Hy]].
    + rewrite Hx. reflexivity.
    + rewrite Hy. simpl. rewrite IH; [reflexivity|].
      inversion Hex as [? ? Hbad|? ? Hlater]; subst; [congruence | exact Hlater].
Qed.

Section EpochExtras.
Context `{Python} `{Torch} `{!TorchStack}.

(** X21.  When an output of the epoch has no [loss] entry, the epoch end
    raises [KeyError] for [loss] and logs nothing. *)
Theorem epoch_end_missing_loss (self : DDMMLightningModule.t)
    (outputs : list (gmap string Tensor)) (stage : string)
    (logged : list EpochEnd.Logged) :
  Exists (fun x => x !! "loss" = None) outputs ->
  EpochEnd._common_epoch_end self outputs stage logged
  = (Raise (KeyError "loss"), logged).
Proof.
  intros Hex. unfold EpochEnd._common_epoch_end. apply bind_Raise.
  unfold lift. rewrite (comprehension_Raise _ _ (KeyError "loss"));
    [reflexivity| |].
  - apply Forall_forall. intros x _. unfold DDMMLightningModule.batch_getitem.
    destruct (x !! "loss"); eauto.
  - apply Exists_exists in Hex as (x & Hin & Hx). apply Exists_exists.
    exists x. split; [exact Hin|].
    unfold DDMMLightningModule.batch_getitem. rewrite Hx. reflexivity.
Qed.

(** X22.  What steps return is what the epoch end needs: over outputs that
    steps of the module returned, the epoch end finds a loss in every
    output, and it logs once, under [<stage>_loss_epoch] and not per step,
    the mean of the [loss] entries of the outputs, taken in the order of
    the outputs, unless taking the mean fails, whose exception it passes on
    without logging. *)
Theorem epoch_end_of_step_outputs (self : DDMMLightningModule.t)
    (outputs : list (gmap string Tensor)) (stage : string)
    (logged : list EpochEnd.Logged) :
  Forall (fun x => exists batch batch_idx optimizer_idx stage' w w',
            DDMMLightningModule._common_step self batch batch_idx
              optimizer_idx stage' w = (Ok x, w')) outputs ->
  exists losses : list Tensor,
    Forall2 (fun x loss => x !! "loss" = Some loss) outputs losses /\
    EpochEnd._common_epoch_end self outputs stage logged
    = match stack_mean losses with
      | Ok loss =>
          (Ok tt,
           logged ++ [EpochEnd.LogEpoch (stage +:+ "_loss_epoch") loss false])
      | Raise e => (Raise e, logged)
      end.
Proof.
  intros Hsteps.
  destruct (comprehension_Ok
              (fun x => DDMMLightningModule.batch_getitem x "loss") outputs)
    as [losses Hlosses].
  { eapply Forall_impl; [exact Hsteps|]. simpl.
    intros x (batch & idx & opt & stage' & w & w' & Hrun).
    apply common_step_Ok in Hrun.
    repeat match goal with
           | Hx : exists _, _ |- _ => destruct Hx as [? Hx]
           end.
    destruct Hrun as (_ & _ & _ & -> & _).
    unfold DDMMLightningModule.batch_getitem. rewrite lookup_singleton_eq.
    eauto. }
  exists losses. split.
  { eapply Forall2_impl; [exact (comprehension_Forall2 _ _ _ Hlosses)|].
    intros x loss. unfold DDMMLightningModule.batch_getitem.
    destruct (x !! "loss"); [intros [= ->]; reflexivity | discriminate]. }
  unfold EpochEnd._common_epoch_end, bind, lift. rewrite Hlosses.
  destruct (stack_mean losses); reflexivity.
Qed.
End EpochExtras.

Lemma epoch_end_missing_loss_witness :
  @EpochEnd._common_epoch_end Toy.python Toy.torch ToyMore.stack Toy.ddmm
    [ {[ "loss" := 3%Z ]}; ∅ ] "validation" []
  = (Raise (KeyError "loss"), []).
Proof.
  apply (@epoch_end_missing_loss Toy.python Toy.torch ToyMore.stack).
  apply Exists_cons_tl, Exists_cons_hd. reflexivity.
Defined.

Lemma epoch_end_of_step_outputs_witness :
  exists (info : gmap string Z) (loss : Z),
    fst (@DDMMLightningModule._common_step Toy.python Toy.torch Toy.ddmm
           Toy.batch 0 0 "validation" Toy.world0) = Ok info /\
    info !! "loss" = Some loss /\
    @EpochEnd._common_epoch_end Toy.python Toy.torch ToyMore.stack Toy.ddmm
      [info] "validation" []
    = (Ok tt,
       [@EpochEnd.LogEpoch Toy.torch "validation_loss_epoch" loss false]).
Proof.
  destruct (@DDMMLightningModule._common_step Toy.python Toy.torch Toy.ddmm
              Toy.batch 0 0 "validation" Toy.world0) as [[info|e] w'] eqn:Hrun.
  2:{ apply (f_equal fst) in Hrun. discriminate Hrun. }
  destruct (@epoch_end_of_step_outputs Toy.python Toy.torch ToyMore.stack
              Toy.ddmm [info] "validation" [])
    as (losses & Hlosses & Hend).
  { constructor; [|constructor]. do 6 eexists. exact Hrun. }
  apply Forall2_cons_inv_l in Hlosses as (loss & rest & Hloss & Hrest & ->).
  apply Forall2_nil_inv_l in Hrest as ->.
  exists info, loss. split; [reflexivity|]. split; [exact Hloss|].
  etransitivity; [exact Hend|]. simpl.
  change (len [loss]) with 1%Z. rewrite Z.add_0_r, Z.div_1_r. reflexivity.
Defined.
